(** * The RAG knowledge core of autonomous_research, embedded in Rocq

    Shallow embedding of
      - src/autonomous_research/rag/core.py          (module [Core])
      - src/autonomous_research/rag/vector_db.py     (module [VectorDb])
      - src/autonomous_research/rag/elasticsearch_db.py (module [EsDb])
      - src/autonomous_research/rag/integration.py   (module [Integration])

    Conventions.
      - A Python [str] is a [string]; its characters are the code points
        below 256.
      - A Python [float] is an exact rational [Q]: every score of the
        program is a sum of products of decimal constants, and rounding is
        outside the model.
      - A Python [int] is a [Z] where the sign matters (slice bounds, sizes
        given by the caller) and a [nat] where it is a position or a count.
      - [time.time()] is an argument of the operation that reads it,
        [now]; the readings of the turns of one loop are taken as one
        reading.  An operation that reads the clock again after other work
        (the Elasticsearch [add_document], once the chunks are built and
        embedded) has one more argument for that reading.
      - Calls into FAISS, Elasticsearch, the sentence-transformer and
        SHA-256 are parameters; what the program does around them is code. *)

From Stdlib Require Import ZArith QArith Lqa Lia List Bool Ascii String.
From Stdlib Require Import Sorted Permutation DecimalString DecimalNat.
From stdpp Require Import base option list gmap strings.

#[local] Set Warnings "-clear-no-such-hyp".

Import ListNotations.
Local Open Scope string_scope.
Local Open Scope list_scope.
Local Open Scope nat_scope.

(* ================================================================== *)
(** * Python built-ins used by the program *)
(* ================================================================== *)

Module Py.

(** [str.isspace] on one character, for code points below 256. *)
Definition isspace (c : ascii) : bool :=
  let n := nat_of_ascii c in
  ((9 <=? n) && (n <=? 13)) || ((28 <=? n) && (n <=? 32))
  || (n =? 133) || (n =? 160).

Fixpoint lstrip (s : string) : string :=
  match s with
  | String c s' => if isspace c then lstrip s' else s
  | EmptyString => EmptyString
  end.

(** [rstrip]: a character is kept when it is not a space or when
    something is kept to its right. *)
Fixpoint rstrip (s : string) : string :=
  match s with
  | String c s' =>
      match rstrip s' with
      | EmptyString => if isspace c then EmptyString else String c EmptyString
      | r => String c r
      end
  | EmptyString => EmptyString
  end.

(** [s.strip()] *)
Definition strip (s : string) : string := rstrip (lstrip s).

(** Truth value of a string: [if s:] *)
Definition truthy (s : string) : bool :=
  match s with EmptyString => false | _ => true end.

(** [len(s)] as a Python int. *)
Definition len (s : string) : Z := Z.of_nat (String.length s).

Definition cons_head (c : ascii) (ps : list string) : list string :=
  match ps with
  | p :: ps' => String c p :: ps'
  | [] => [String c EmptyString]
  end.

(** [s.split(sep)] for a non-empty separator: occurrences are found left
    to right and do not overlap.  [skip] counts the characters of a
    separator that was just recognised and are still to be passed. *)
Fixpoint split_go (sep : string) (skip : nat) (s : string) : list string :=
  match s with
  | EmptyString => [EmptyString]
  | String c s' =>
      match skip with
      | S k => split_go sep k s'
      | O =>
          if String.prefix sep s
          then EmptyString :: split_go sep (String.length sep - 1) s'
          else cons_head c (split_go sep 0 s')
      end
  end.

Definition split (sep s : string) : list string := split_go sep 0 s.

(** [re.split(r'[.!?]+', s)]: the separators are the maximal runs of
    sentence terminators. *)
Definition is_terminator (c : ascii) : bool :=
  (Ascii.eqb c ".") || (Ascii.eqb c "!") || (Ascii.eqb c "?").

Fixpoint re_split_terminators_go (in_run : bool) (s : string) : list string :=
  match s with
  | EmptyString => [EmptyString]
  | String c s' =>
      if is_terminator c
      then (if in_run then re_split_terminators_go true s'
            else EmptyString :: re_split_terminators_go true s')
      else cons_head c (re_split_terminators_go false s')
  end.

Definition re_split_terminators (s : string) : list string :=
  re_split_terminators_go false s.

(** [s.split()]: the maximal runs of non-space characters.  The helper
    returns the word in progress at the head of [s] (empty when [s]
    starts with a space) and the words after it. *)
Fixpoint split_ws_go (s : string) : string * list string :=
  match s with
  | EmptyString => (EmptyString, [])
  | String c s' =>
      let '(w, ws) := split_ws_go s' in
      if isspace c then (EmptyString, if truthy w then w :: ws else ws)
      else (String c w, ws)
  end.

Definition split_ws (s : string) : list string :=
  let '(w, ws) := split_ws_go s in
  if truthy w then w :: ws else ws.

(** [s.lower()] on code points below 256: A-Z and the Latin-1 capitals. *)
Definition lower_char (c : ascii) : ascii :=
  let n := nat_of_ascii c in
  if ((65 <=? n) && (n <=? 90))
     || ((192 <=? n) && (n <=? 222) && negb (n =? 215))
  then ascii_of_nat (n + 32) else c.

Fixpoint lower (s : string) : string :=
  match s with
  | String c s' => String (lower_char c) (lower s')
  | EmptyString => EmptyString
  end.

(** [sub in s] *)
Fixpoint contains (sub s : string) : bool :=
  String.prefix sub s
  || match s with
     | String _ s' => contains sub s'
     | EmptyString => false
     end.

(** [sep.join(parts)] *)
Definition join (sep : string) (parts : list string) : string :=
  String.concat sep parts.

(** [s[:n]] for a string. *)
Definition str_take (n : Z) (s : string) : string :=
  if (n <? 0)%Z
  then String.substring 0 (String.length s - Z.to_nat (- n)) s
  else String.substring 0 (Z.to_nat n) s.

(** [l[:k]] for a list: a negative bound counts from the end. *)
Definition take {A} (k : Z) (l : list A) : list A :=
  if (k <? 0)%Z
  then firstn (List.length l - Z.to_nat (- k)) l
  else firstn (Z.to_nat k) l.

(** [str(i)] for a non-negative int, and the format [{i:04d}]. *)
Definition str_of_nat (i : nat) : string :=
  NilEmpty.string_of_uint (Nat.to_uint i).

Fixpoint zeros (n : nat) : string :=
  match n with O => EmptyString | S n' => String "0" (zeros n') end.

Definition format_04d (i : nat) : string :=
  let s := str_of_nat i in
  zeros (4 - String.length s) +:+ s.

(** The paragraph separator, two line feeds. *)
Definition blank_line : string := String "010" (String "010" EmptyString).

(** [min(a, b)] and [max(a, b)] on floats: the first argument wins a tie. *)
Definition qmin (a b : Q) : Q := if Qle_bool a b then a else b.
Definition qmax (a b : Q) : Q := if Qle_bool b a then a else b.

(** [l.sort(key=key, reverse=True)]: descending in the key, and stable,
    elements with equal keys keep their order. *)
Section Sort.
Context {A : Type} (key : A -> Q).

Fixpoint insert_desc (x : A) (l : list A) : list A :=
  match l with
  | y :: l' =>
      if Qle_bool (key y) (key x) then x :: l
      else y :: insert_desc x l'
  | [] => [x]
  end.

Definition sort_desc (l : list A) : list A :=
  foldr insert_desc [] l.
End Sort.

(** A [dict]: the items in insertion order.  [d[k] = v] replaces the
    value of a key that is present and appends a new key. *)
Section Dict.
Context {K V : Type} `{EqDecision K}.

Fixpoint dict_set (k : K) (v : V) (d : list (K * V)) : list (K * V) :=
  match d with
  | (k', v') :: d' =>
      if decide (k = k') then (k, v) :: d' else (k', v') :: dict_set k v d'
  | [] => [(k, v)]
  end.

Fixpoint dict_get (k : K) (d : list (K * V)) : option V :=
  match d with
  | (k', v') :: d' => if decide (k = k') then Some v' else dict_get k d'
  | [] => None
  end.
End Dict.

(** The line feed. *)
Definition newline : string := String "010" EmptyString.

(** [s * n] for a string. *)
Fixpoint str_repeat (s : string) (n : nat) : string :=
  match n with O => EmptyString | S n' => s +:+ str_repeat s n' end.

End Py.

(* ================================================================== *)
(** * rag/core.py *)
(* ================================================================== *)

Module Core.

(** ** DocumentProcessor.smart_chunk_text *)

(** The loop state: the chunks flushed so far and [current_chunk]. *)
Definition chunker : Type := (list string * string)%type.

Definition flush (st : chunker) : list string :=
  let '(chunks, current_chunk) := st in
  if Py.truthy current_chunk then chunks ++ [Py.strip current_chunk]
  else chunks.

(** Body of [for sentence in sentences]. *)
Definition sentence_step (chunk_size : Z) (st : chunker) (sentence : string)
  : chunker :=
  let sentence := Py.strip sentence in
  if negb (Py.truthy sentence) then st
  else
    let '(chunks, current_chunk) := st in
    if (Py.len current_chunk + Py.len sentence >? chunk_size)%Z
    then (flush st, sentence)
    else (chunks,
          if Py.truthy current_chunk
          then current_chunk +:+ " " +:+ sentence else sentence).

(** Body of [for paragraph in paragraphs]. *)
Definition paragraph_step (chunk_size : Z) (st : chunker) (paragraph : string)
  : chunker :=
  if (Py.len paragraph >? chunk_size)%Z
  then fold_left (sentence_step chunk_size)
                 (Py.re_split_terminators paragraph) st
  else
    let '(chunks, current_chunk) := st in
    if (Py.len current_chunk + Py.len paragraph >? chunk_size)%Z
    then (flush st, paragraph)
    else (chunks,
          if Py.truthy current_chunk
          then current_chunk +:+ Py.blank_line +:+ paragraph else paragraph).

(** [smart_chunk_text(content, chunk_size)]; [default_chunk_size] is
    [self.chunk_size], taken when the argument is [None]. *)
Definition smart_chunk_text (default_chunk_size : Z)
    (content : string) (chunk_size : option Z) : list string :=
  let chunk_size := default default_chunk_size chunk_size in
  let paragraphs := Py.split Py.blank_line content in
  let chunks := flush (fold_left (paragraph_step chunk_size) paragraphs ([], "")) in
  filter (fun chunk => Py.truthy (Py.strip chunk) = true) chunks.

(** ** Data classes *)

(** A numpy vector of floats. *)
Definition vector : Type := list Q.

(** [Document.metadata], the dictionary built by [extract_metadata]. *)
Record DocMetadata := {
  word_count : nat;
  character_count : nat;
  md_source : string;
  extracted_at : Q;
  mitre_techniques : list string;
  security_frameworks : list string;
  cves : list string;
  referenced_urls : list string
}.

(** [DocumentChunk.metadata]: the chunk-specific keys of [create_chunks],
    updated with the document's metadata. *)
Record Metadata := {
  document_title : string;
  document_source_type : string;
  chunk_size : nat;
  chunk_words : nat;
  position_in_document : Q;
  inherited : DocMetadata
}.

Record DocumentChunk := {
  c_id : string;
  c_content : string;
  c_source : string;
  c_document_id : string;
  c_chunk_index : nat;
  c_metadata : Metadata;
  c_embedding : option vector;
  c_created_at : Q
}.

Record Document := {
  d_id : string;
  d_title : string;
  d_content : string;
  d_source : string;
  d_source_type : string;
  d_metadata : DocMetadata;
  d_authority_score : Q;
  d_created_at : Q;
  d_last_updated : Q
}.

Record RetrievalResult := {
  chunk : DocumentChunk;
  similarity_score : Q;
  authority_score : Q;
  temporal_score : Q;
  combined_score : Q;
  rank : nat
}.

(** [result.rank = r] *)
Definition set_rank (r : nat) (x : RetrievalResult) : RetrievalResult :=
  {| chunk := chunk x;
     similarity_score := similarity_score x;
     authority_score := authority_score x;
     temporal_score := temporal_score x;
     combined_score := combined_score x;
     rank := r |}.

(** The three lines that end every search:
    [results.sort(key=lambda x: x.combined_score, reverse=True)],
    [for i, result in enumerate(results[:top_k]): result.rank = i + 1],
    [return results[:top_k]]. *)
Definition sort_and_rank (top_k : Z) (results : list RetrievalResult)
  : list RetrievalResult :=
  let results := Py.sort_desc combined_score results in
  imap (fun i result => set_rank (i + 1) result) (Py.take top_k results).

(** ** EnhancedEmbeddingManager *)

(** The loaded sentence-transformer: [encode] on one text.  On a list of
    texts [encode] returns the encodings of its elements. *)
Record Model := {
  encode : string -> vector;
  get_sentence_embedding_dimension : nat
}.

(** The numpy global generator: the samples it will deliver and how many
    were consumed. *)
Record Rng := {
  tape : nat -> Q;
  cursor : nat
}.

(** [np.random.random(n)] *)
Definition np_random_random (n : nat) (g : Rng) : vector * Rng :=
  (map (tape g) (seq (cursor g) n),
   {| tape := tape g; cursor := cursor g + n |}).

(** The manager.  [np_random] is the process-wide generator it draws
    from; [encode_calls] counts the calls of [self.model.encode] and is
    read by no code. *)
Record EnhancedEmbeddingManager := {
  model : option Model;
  embedding_dim : nat;
  embedding_cache : gmap string vector;
  np_random : Rng;
  encode_calls : nat
}.

Definition with_rng (g : Rng) (em : EnhancedEmbeddingManager) :=
  {| model := model em; embedding_dim := embedding_dim em;
     embedding_cache := embedding_cache em;
     np_random := g; encode_calls := encode_calls em |}.

Definition with_cache (c : gmap string vector) (em : EnhancedEmbeddingManager) :=
  {| model := model em; embedding_dim := embedding_dim em;
     embedding_cache := c;
     np_random := np_random em; encode_calls := encode_calls em |}.

Definition count_encode (em : EnhancedEmbeddingManager) :=
  {| model := model em; embedding_dim := embedding_dim em;
     embedding_cache := embedding_cache em;
     np_random := np_random em; encode_calls := S (encode_calls em) |}.

(** [texts[i:i + batch_size] for i in range(0, len(texts), batch_size)] *)
Fixpoint batches_go {A} (fuel step : nat) (l : list A) : list (list A) :=
  match fuel, l with
  | S fuel', _ :: _ => firstn step l :: batches_go fuel' step (skipn step l)
  | _, _ => []
  end.

Definition batches {A} (step : positive) (l : list A) : list (list A) :=
  batches_go (List.length l) (Pos.to_nat step) l.

Section Embedding.
(** [hashlib.sha256(text.encode()).hexdigest()] *)
Variable sha256_hexdigest : string -> string.

Definition get_text_hash (text : string) : string :=
  Py.str_take 16 (sha256_hexdigest text).

Definition embed_text (em : EnhancedEmbeddingManager)
    (text : string) (use_cache : bool)
  : vector * EnhancedEmbeddingManager :=
  match model em with
  | None =>
      (* Return random embedding if model not available *)
      let '(v, g) := np_random_random (embedding_dim em) (np_random em) in
      (v, with_rng g em)
  | Some m =>
      let text_hash := get_text_hash text in
      match (if use_cache then embedding_cache em !! text_hash else None) with
      | Some cached => (cached, em)
      | None =>
          let embedding := encode m text in
          let em := count_encode em in
          (embedding,
           if use_cache
           then with_cache (<[text_hash := embedding]> (embedding_cache em)) em
           else em)
      end
  end.

(** One turn of [for i in range(0, len(texts), batch_size)]. *)
Definition encode_batch (m : Model)
    (acc : list vector * EnhancedEmbeddingManager) (batch : list string) :=
  let '(embeddings, em) := acc in
  (embeddings ++ map (encode m) batch, count_encode em).

(** One element of [[np.random.random(dim) for _ in texts]]. *)
Definition random_one
    (acc : list vector * EnhancedEmbeddingManager) (_ : string) :=
  let '(embeddings, em) := acc in
  let '(v, g) := np_random_random (embedding_dim em) (np_random em) in
  (embeddings ++ [v], with_rng g em).

(** [embed_batch(texts, batch_size)], for a positive [batch_size]. *)
Definition embed_batch (em : EnhancedEmbeddingManager)
    (texts : list string) (batch_size : positive)
  : list vector * EnhancedEmbeddingManager :=
  match model em with
  | None => fold_left random_one texts ([], em)
  | Some m => fold_left (encode_batch m) (batches batch_size texts) ([], em)
  end.
End Embedding.

(** The default [batch_size]. *)
Definition default_batch_size : positive := 32%positive.

(** ** DocumentProcessor.create_chunks *)

Record DocumentProcessor := {
  p_chunk_size : Z;
  p_chunk_overlap : Z
}.

(** [i / len(text_chunks)] *)
Definition ratio (i n : nat) : Q :=
  (inject_Z (Z.of_nat i) / inject_Z (Z.of_nat n))%Q.

(** [create_chunks(document)]; the chunks are stamped with the clock. *)
Definition create_chunks (self : DocumentProcessor) (document : Document)
    (now : Q) : list DocumentChunk :=
  let text_chunks := smart_chunk_text (p_chunk_size self) (d_content document) None in
  imap (fun i chunk_text =>
          {| c_id := d_id document +:+ "_chunk_" +:+ Py.format_04d i;
             c_content := chunk_text;
             c_source := d_source document;
             c_document_id := d_id document;
             c_chunk_index := i;
             c_metadata :=
               {| document_title := d_title document;
                  document_source_type := d_source_type document;
                  chunk_size := String.length chunk_text;
                  chunk_words := List.length (Py.split_ws chunk_text);
                  position_in_document := ratio i (List.length text_chunks);
                  inherited := d_metadata document |};
             c_embedding := None;
             c_created_at := now |})
       text_chunks.

End Core.

(* ================================================================== *)
(** * rag/vector_db.py *)
(* ================================================================== *)

Module VectorDb.
Import Core.

(** A value of [self.chunk_metadata], the dictionary written by
    [add_chunk_to_index]. *)
Record ChunkEntry := {
  e_chunk_id : string;
  e_content : string;
  e_source : string;
  e_document_id : string;
  e_chunk_index : nat;
  e_metadata : Metadata;
  e_created_at : Q;
  e_index_position : Z
}.

(** A value of [self.document_registry]. *)
Record DocInfo := {
  r_title : string;
  r_source : string;
  r_source_type : string;
  r_authority_score : Q;
  r_created_at : Q;
  r_last_updated : Q;
  r_metadata : DocMetadata
}.

(** The FAISS index: its dimension and the vectors added so far. *)
Record FaissIndex := {
  faiss_d : nat;
  faiss_xb : list vector
}.

Definition ntotal (ix : FaissIndex) : Z := Z.of_nat (List.length (faiss_xb ix)).

(** [index.add(embedding.reshape(1, -1))]: raises ([None]) on a vector of
    another dimension. *)
Definition faiss_add (ix : FaissIndex) (embedding : vector) : option FaissIndex :=
  if List.length embedding =? faiss_d ix
  then Some {| faiss_d := faiss_d ix; faiss_xb := faiss_xb ix ++ [embedding] |}
  else None.

Record EnhancedVectorDatabase := {
  embedding_manager : EnhancedEmbeddingManager;
  similarity_threshold : Q;
  index : option FaissIndex;
  chunk_metadata : list (Z * ChunkEntry);
  document_registry : list (string * DocInfo);
  next_index : Z
}.

(** ** Metadata filters *)

(** The values a filter compares: strings, numbers and lists of strings. *)
Inductive pyval :=
| PStr (s : string)
| PInt (z : Z)
| PFloat (q : Q)
| PStrList (l : list string).

(** [a == b] *)
Definition pyval_eqb (a b : pyval) : bool :=
  match a, b with
  | PStr x, PStr y => String.eqb x y
  | PInt x, PInt y => (x =? y)%Z
  | PInt x, PFloat y | PFloat y, PInt x => Qeq_bool (inject_Z x) y
  | PFloat x, PFloat y => Qeq_bool x y
  | PStrList x, PStrList y => bool_decide (x = y)
  | _, _ => false
  end.

(** The expected value of a filter key: one value, or a list of them. *)
Inductive expected :=
| One (v : pyval)
| OneOf (vs : list pyval).

Definition metadata_field (m : Metadata) (part : string) : option pyval :=
  if String.eqb part "document_title" then Some (PStr (document_title m))
  else if String.eqb part "document_source_type" then Some (PStr (document_source_type m))
  else if String.eqb part "chunk_size" then Some (PInt (Z.of_nat (chunk_size m)))
  else if String.eqb part "chunk_words" then Some (PInt (Z.of_nat (chunk_words m)))
  else if String.eqb part "position_in_document" then Some (PFloat (position_in_document m))
  else if String.eqb part "word_count" then Some (PInt (Z.of_nat (word_count (inherited m))))
  else if String.eqb part "character_count" then Some (PInt (Z.of_nat (character_count (inherited m))))
  else if String.eqb part "source" then Some (PStr (md_source (inherited m)))
  else if String.eqb part "extracted_at" then Some (PFloat (extracted_at (inherited m)))
  else if String.eqb part "mitre_techniques" then Some (PStrList (mitre_techniques (inherited m)))
  else if String.eqb part "security_frameworks" then Some (PStrList (security_frameworks (inherited m)))
  else if String.eqb part "cves" then Some (PStrList (cves (inherited m)))
  else if String.eqb part "referenced_urls" then Some (PStrList (referenced_urls (inherited m)))
  else None.

(** The walk [for part in key.split('.')] from the entry: the value
    reached, when it is not a dictionary.  [None] stands for the early
    [return False] and for a walk that ends on the nested dictionary,
    which equals no expected value. *)
Definition navigate (e : ChunkEntry) (parts : list string) : option pyval :=
  match parts with
  | [part] =>
      if String.eqb part "chunk_id" then Some (PStr (e_chunk_id e))
      else if String.eqb part "content" then Some (PStr (e_content e))
      else if String.eqb part "source" then Some (PStr (e_source e))
      else if String.eqb part "document_id" then Some (PStr (e_document_id e))
      else if String.eqb part "chunk_index" then Some (PInt (Z.of_nat (e_chunk_index e)))
      else if String.eqb part "created_at" then Some (PFloat (e_created_at e))
      else if String.eqb part "index_position" then Some (PInt (e_index_position e))
      else None
  | [meta; part] =>
      if String.eqb meta "metadata" then metadata_field (e_metadata e) part
      else None
  | _ => None
  end.

Definition _matches_filter (chunk_metadata : ChunkEntry)
    (filter_metadata : list (string * expected)) : bool :=
  forallb (fun '(key, expected_value) =>
             match navigate chunk_metadata (Py.split "." key) with
             | None => false
             | Some current =>
                 match expected_value with
                 | OneOf vs => existsb (pyval_eqb current) vs
                 | One v => pyval_eqb current v
                 end
             end)
          filter_metadata.

(** [filter_metadata and not self._matches_filter(...)] *)
Definition filtered_out (chunk_metadata : ChunkEntry)
    (filter_metadata : option (list (string * expected))) : bool :=
  match filter_metadata with
  | None | Some [] => false
  | Some f => negb (_matches_filter chunk_metadata f)
  end.

(** ** Scores *)

(** [source_scores.get(source_type, 0.5)] *)
Definition source_scores (source_type : string) : Q :=
  if String.eqb source_type "academic" then 0.9
  else if String.eqb source_type "github" then 0.7
  else if String.eqb source_type "cti" then 0.8
  else if String.eqb source_type "blog" then 0.6
  else if String.eqb source_type "manual" then 0.5
  else 0.5.

Definition mem (x : string) (l : list string) : bool :=
  existsb (String.eqb x) l.

(** The part of the authority score that both backends share: the
    increments after the initial value [score]. *)
Definition authority_from (score : Q) (source_type : string)
    (frameworks techniques cve_ids : list string) : Q :=
  let score := (score + source_scores source_type * 0.4)%Q in
  let score := if mem "MITRE_ATTACK" frameworks then (score + 0.3)%Q else score in
  let score := if existsb (fun fw => mem fw frameworks) ["NIST"; "OWASP"; "CIS"]
               then (score + 0.2)%Q else score in
  let score := match techniques with
               | [] => score
               | _ => (score + Py.qmin 0.2 (inject_Z (Z.of_nat (List.length techniques)) * 0.05))%Q
               end in
  let score := match cve_ids with
               | [] => score
               | _ => (score + Py.qmin 0.1 (inject_Z (Z.of_nat (List.length cve_ids)) * 0.02))%Q
               end in
  Py.qmin 1.0 score.

Definition _calculate_authority_score (chunk_metadata : ChunkEntry) : Q :=
  let metadata := e_metadata chunk_metadata in
  authority_from 0.0 (document_source_type metadata)
    (security_frameworks (inherited metadata))
    (mitre_techniques (inherited metadata))
    (cves (inherited metadata)).

(** [(current_time - created_at) / (24 * 3600)] *)
Definition age_days (created_at current_time : Q) : Q :=
  ((current_time - created_at) / (24 * 3600))%Q.

(** The decay function: newer content scores higher. *)
Definition decay (age_days : Q) : Q :=
  if Qle_bool age_days 30 then 1.0
  else if Qle_bool age_days 90 then 0.8
  else if Qle_bool age_days 365 then 0.6
  else if Qle_bool age_days 730 then 0.4
  else 0.2.

Definition _calculate_temporal_score (chunk_metadata : ChunkEntry) (now : Q) : Q :=
  decay (age_days (e_created_at chunk_metadata) now).

(** ** The database operations *)

Definition with_manager (em : EnhancedEmbeddingManager) (db : EnhancedVectorDatabase) :=
  {| embedding_manager := em;
     similarity_threshold := similarity_threshold db;
     index := index db;
     chunk_metadata := chunk_metadata db;
     document_registry := document_registry db;
     next_index := next_index db |}.

Definition get_chunk_count (self : EnhancedVectorDatabase) : nat :=
  List.length (chunk_metadata self).

Definition get_document_count (self : EnhancedVectorDatabase) : nat :=
  List.length (document_registry self).

(** The [DocumentChunk] rebuilt from a stored entry. *)
Definition chunk_of_entry (e : ChunkEntry) : DocumentChunk :=
  {| c_id := e_chunk_id e;
     c_content := e_content e;
     c_source := e_source e;
     c_document_id := e_document_id e;
     c_chunk_index := e_chunk_index e;
     c_metadata := e_metadata e;
     c_embedding := None;
     c_created_at := e_created_at e |}.

Section Operations.
(** The module flag set by [import faiss]. *)
Variable FAISS_AVAILABLE : bool.
(** [index.search(query, k)]: pairs of a distance and a position, the
    position [-1] standing for no neighbour. *)
Variable faiss_search : FaissIndex -> vector -> Z -> list (Q * Z).
Variable sha256_hexdigest : string -> string.

(** [self.index is not None and FAISS_AVAILABLE] *)
Definition usable_index (self : EnhancedVectorDatabase) : option FaissIndex :=
  if FAISS_AVAILABLE then index self else None.

(** [add_chunk_to_index]: the entry is stored first; when the index
    refuses the vector the exception is caught, the entry stays and
    [next_index] does not move. *)
Definition add_chunk_to_index (self : EnhancedVectorDatabase)
    (chunk : DocumentChunk) (embedding : vector)
  : bool * EnhancedVectorDatabase :=
  let entry :=
    {| e_chunk_id := c_id chunk;
       e_content := c_content chunk;
       e_source := c_source chunk;
       e_document_id := c_document_id chunk;
       e_chunk_index := c_chunk_index chunk;
       e_metadata := c_metadata chunk;
       e_created_at := c_created_at chunk;
       e_index_position := next_index self |} in
  let stored := Py.dict_set (next_index self) entry (chunk_metadata self) in
  match usable_index self with
  | Some ix =>
      match faiss_add ix embedding with
      | Some ix' =>
          (true,
           {| embedding_manager := embedding_manager self;
              similarity_threshold := similarity_threshold self;
              index := Some ix';
              chunk_metadata := stored;
              document_registry := document_registry self;
              next_index := (next_index self + 1)%Z |})
      | None =>
          (false,
           {| embedding_manager := embedding_manager self;
              similarity_threshold := similarity_threshold self;
              index := index self;
              chunk_metadata := stored;
              document_registry := document_registry self;
              next_index := next_index self |})
      end
  | None =>
      (true,
       {| embedding_manager := embedding_manager self;
          similarity_threshold := similarity_threshold self;
          index := index self;
          chunk_metadata := stored;
          document_registry := document_registry self;
          next_index := (next_index self + 1)%Z |})
  end.

(** Body of [for chunk, embedding in zip(chunks, embeddings)]. *)
Definition add_one (acc : nat * EnhancedVectorDatabase)
    (ce : DocumentChunk * vector) : nat * EnhancedVectorDatabase :=
  let '(chunk_count, self) := acc in
  let '(ok, self) := add_chunk_to_index self (fst ce) (snd ce) in
  (if ok then chunk_count + 1 else chunk_count, self).

Definition add_document (self : EnhancedVectorDatabase)
    (document : Document) (chunk_processor : DocumentProcessor) (now : Q)
  : nat * EnhancedVectorDatabase :=
  let self :=
    {| embedding_manager := embedding_manager self;
       similarity_threshold := similarity_threshold self;
       index := index self;
       chunk_metadata := chunk_metadata self;
       document_registry :=
         Py.dict_set (d_id document)
           {| r_title := d_title document;
              r_source := d_source document;
              r_source_type := d_source_type document;
              r_authority_score := d_authority_score document;
              r_created_at := d_created_at document;
              r_last_updated := d_last_updated document;
              r_metadata := d_metadata document |}
           (document_registry self);
       next_index := next_index self |} in
  let chunks := create_chunks chunk_processor document now in
  match chunks with
  | [] => (0, self)
  | _ =>
      let chunk_texts := map c_content chunks in
      let '(embeddings, em) :=
        embed_batch (embedding_manager self) chunk_texts default_batch_size in
      fold_left add_one (combine chunks embeddings) (0, with_manager em self)
  end.

(** The result built from an entry and its similarity, with the
    weights of the caller. *)
Definition make_result (w_sim w_auth w_temp : Q)
    (chunk_metadata : ChunkEntry) (similarity_score now : Q) : RetrievalResult :=
  let authority_score := _calculate_authority_score chunk_metadata in
  let temporal_score := _calculate_temporal_score chunk_metadata now in
  {| chunk := chunk_of_entry chunk_metadata;
     similarity_score := similarity_score;
     authority_score := authority_score;
     temporal_score := temporal_score;
     combined_score :=
       (similarity_score * w_sim + authority_score * w_auth + temporal_score * w_temp)%Q;
     rank := 0 |}.

(** Body of the loop of [_fallback_search] over
    [self.chunk_metadata.items()]; [None] is [continue]. *)
Definition fallback_candidate (query_lower : string)
    (filter_metadata : option (list (string * expected))) (now : Q)
    (item : Z * ChunkEntry) : option RetrievalResult :=
  let chunk_metadata := snd item in
  let content := Py.lower (e_content chunk_metadata) in
  let query_words : gset string := list_to_set (Py.split_ws query_lower) in
  let content_words : gset string := list_to_set (Py.split_ws content) in
  if size query_words =? 0 then None
  else
    let similarity_score :=
      (inject_Z (Z.of_nat (size (query_words ∩ content_words)))
       / inject_Z (Z.of_nat (size query_words)))%Q in
    if negb (Qle_bool 0.1 similarity_score) then None
    else if filtered_out chunk_metadata filter_metadata then None
    else Some (make_result 0.6 0.3 0.1 chunk_metadata similarity_score now).

Definition _fallback_search (self : EnhancedVectorDatabase) (query : string)
    (top_k : Z) (filter_metadata : option (list (string * expected))) (now : Q)
  : list RetrievalResult :=
  let query_lower := Py.lower query in
  let results :=
    omap (fallback_candidate query_lower filter_metadata now) (chunk_metadata self) in
  sort_and_rank top_k results.

(** Body of [for score, idx in zip(scores[0], indices[0])]. *)
Definition index_candidate (self : EnhancedVectorDatabase)
    (similarity_threshold : Q)
    (filter_metadata : option (list (string * expected))) (now : Q)
    (hit : Q * Z) : option RetrievalResult :=
  let '(score, idx) := hit in
  if (idx =? -1)%Z then None
  else
    let similarity_score := (1.0 - score / 2.0)%Q in
    if negb (Qle_bool similarity_threshold similarity_score) then None
    else
      match Py.dict_get idx (chunk_metadata self) with
      | None => None
      | Some chunk_metadata =>
          if filtered_out chunk_metadata filter_metadata then None
          else Some (make_result 0.5 0.3 0.2 chunk_metadata similarity_score now)
      end.

(** [self.index.search(query_2d, k)] through the Python wrapper of FAISS,
    which asserts that the query has the dimension of the index and that
    [k > 0] before it searches; [None] is the AssertionError. *)
Definition index_search (ix : FaissIndex) (query : vector) (k : Z)
  : option (list (Q * Z)) :=
  if (List.length query =? faiss_d ix) && (0 <? k)%Z
  then Some (faiss_search ix query k)
  else None.

(** [search_similar_chunks]: the call of [index.search] stands outside
    any [try], so its AssertionError leaves the method; [None] is that
    exception.  The query was embedded before. *)
Definition search_similar_chunks (self : EnhancedVectorDatabase)
    (query : string) (top_k : Z) (similarity_threshold : option Q)
    (filter_metadata : option (list (string * expected))) (now : Q)
  : option (list RetrievalResult) * EnhancedVectorDatabase :=
  let similarity_threshold :=
    default (VectorDb.similarity_threshold self) similarity_threshold in
  let '(query_embedding, em) :=
    embed_text sha256_hexdigest (embedding_manager self) query true in
  let self := with_manager em self in
  match usable_index self with
  | None => (Some (_fallback_search self query top_k filter_metadata now), self)
  | Some ix =>
      match index_search ix query_embedding (Z.min (top_k * 2) (ntotal ix)) with
      | None => (None, self)
      | Some hits =>
          let results :=
            omap (index_candidate self similarity_threshold filter_metadata now) hits in
          (Some (sort_and_rank top_k results), self)
      end
  end.
End Operations.

(** ** get_statistics *)

(** The dictionary returned by [get_statistics]. *)
Record Statistics := {
  total_chunks : nat;
  total_documents : nat;
  index_size : Z;
  embedding_dimension : nat;
  faiss_available : bool;
  source_type_distribution : list (string * nat);
  chunks_with_frameworks : nat;
  chunks_with_techniques : nat
}.

(** Body of [for doc_info in self.document_registry.values()]:
    [source_types[source_type] = source_types.get(source_type, 0) + 1]. *)
Definition count_source_type (source_types : list (string * nat))
    (item : string * DocInfo) : list (string * nat) :=
  let source_type := r_source_type (snd item) in
  Py.dict_set source_type
    (default 0 (Py.dict_get source_type source_types) + 1) source_types.

(** Body of [for chunk_meta in self.chunk_metadata.values()], with the
    two counters. *)
Definition count_coverage (counters : nat * nat) (item : Z * ChunkEntry)
  : nat * nat :=
  let '(framework_count, technique_count) := counters in
  let metadata := e_metadata (snd item) in
  (match security_frameworks (inherited metadata) with
   | [] => framework_count
   | _ => framework_count + 1
   end,
   match mitre_techniques (inherited metadata) with
   | [] => technique_count
   | _ => technique_count + 1
   end).

Section Statistics.
Variable FAISS_AVAILABLE : bool.

Definition get_statistics (self : EnhancedVectorDatabase) : Statistics :=
  let coverage := fold_left count_coverage (chunk_metadata self) (0, 0) in
  {| total_chunks := get_chunk_count self;
     total_documents := get_document_count self;
     index_size := match usable_index FAISS_AVAILABLE self with
                   | Some ix => ntotal ix
                   | None => 0%Z
                   end;
     embedding_dimension := embedding_dim (embedding_manager self);
     faiss_available := FAISS_AVAILABLE;
     source_type_distribution :=
       fold_left count_source_type (document_registry self) [];
     chunks_with_frameworks := fst coverage;
     chunks_with_techniques := snd coverage |}.
End Statistics.

End VectorDb.

(* ================================================================== *)
(** * rag/elasticsearch_db.py *)
(* ================================================================== *)

Module EsDb.
Import Core.

(** The body of an indexed document, [doc_body] in [add_document]. *)
Record EsSource := {
  s_chunk_id : string;
  s_content : string;
  s_content_vector : vector;
  s_source : string;
  s_document_id : string;
  s_document_title : string;
  s_chunk_index : nat;
  s_created_at : Q;
  s_source_type : string;
  s_authority_score : Q;
  s_mitre_techniques : list string;
  s_security_frameworks : list string;
  s_cves : list string;
  s_word_count : nat;
  s_character_count : nat;
  s_chunk_size : nat;
  s_position_in_document : Q;
  s_metadata : Metadata
}.

(** The client [self.es] and the index behind it: the documents by
    [_id], and whether the server answers.  A call to a server that does
    not answer raises. *)
Record Elasticsearch := {
  es_docs : gmap string EsSource;
  es_reachable : bool
}.

Record Hit := {
  _score : Q;
  _source : EsSource
}.

(** What [search_query] holds for the server. *)
Record SearchBody := {
  q_size : Z;
  q_query_vector : vector;
  q_min_score : Q;
  q_text : option string;
  q_filter : option (list (string * VectorDb.expected))
}.

Record ElasticsearchVectorDatabase := {
  embedding_manager : EnhancedEmbeddingManager;
  index_name : string;
  similarity_threshold : Q;
  es : option Elasticsearch
}.

Definition with_manager (em : EnhancedEmbeddingManager)
    (db : ElasticsearchVectorDatabase) :=
  {| embedding_manager := em;
     index_name := index_name db;
     similarity_threshold := similarity_threshold db;
     es := es db |}.

Definition with_client (c : Elasticsearch) (db : ElasticsearchVectorDatabase) :=
  {| embedding_manager := embedding_manager db;
     index_name := index_name db;
     similarity_threshold := similarity_threshold db;
     es := Some c |}.

(** [bulk(self.es, docs_to_index)] followed by the refresh: every action
    indexes its body under its [_id], replacing a document that has it.
    [None] is an exception. *)
Definition bulk (c : Elasticsearch) (docs_to_index : list (string * EsSource))
  : option (nat * Elasticsearch) :=
  if es_reachable c
  then Some (List.length docs_to_index,
             {| es_docs := fold_left (fun m '(_id, body) => <[_id := body]> m)
                                     docs_to_index (es_docs c);
                es_reachable := es_reachable c |})
  else None.

(** [self.es.delete_by_query] with the term query on [document_id]. *)
Definition delete_by_document_id (c : Elasticsearch) (document_id : string)
  : option (nat * Elasticsearch) :=
  if es_reachable c
  then
    let kept := filter (fun kv => s_document_id (snd kv) ≠ document_id) (es_docs c) in
    Some (size (es_docs c) - size kept,
          {| es_docs := kept; es_reachable := es_reachable c |})
  else None.

Definition _calculate_authority_score (source : EsSource) : Q :=
  VectorDb.authority_from (s_authority_score source) (s_source_type source)
    (s_security_frameworks source) (s_mitre_techniques source) (s_cves source).

(** [created_at] is stored in milliseconds. *)
Definition _calculate_temporal_score (source : EsSource) (now : Q) : Q :=
  VectorDb.decay (VectorDb.age_days (s_created_at source / 1000) now).

(** Body of [for hit in response["hits"]["hits"]]. *)
Definition hit_candidate (similarity_threshold now : Q) (hit : Hit)
  : option RetrievalResult :=
  let source := _source hit in
  let similarity_score := Py.qmax 0.0 (_score hit - 1.0) in
  if negb (Qle_bool similarity_threshold similarity_score) then None
  else
    let authority_score := _calculate_authority_score source in
    let temporal_score := _calculate_temporal_score source now in
    Some {| chunk :=
              {| c_id := s_chunk_id source;
                 c_content := s_content source;
                 c_source := s_source source;
                 c_document_id := s_document_id source;
                 c_chunk_index := s_chunk_index source;
                 c_metadata := s_metadata source;
                 c_embedding := None;
                 c_created_at := (s_created_at source / 1000)%Q |};
            similarity_score := similarity_score;
            authority_score := authority_score;
            temporal_score := temporal_score;
            combined_score :=
              (similarity_score * 0.5 + authority_score * 0.3 + temporal_score * 0.2)%Q;
            rank := 0 |}.

Section Operations.
(** The answer of a reachable server to a search: its hits, or an
    exception ([None]). *)
Variable es_search : Elasticsearch -> SearchBody -> option (list Hit).

Variable sha256_hexdigest : string -> string.

Definition search (c : Elasticsearch) (body : SearchBody) : option (list Hit) :=
  if es_reachable c then es_search c body else None.

(** [add_document]: the clock is read twice, by [create_chunks] when the
    chunks are built ([now]) and, after the embeddings were computed, when
    the bodies are built ([indexed_at]). *)
Definition add_document (self : ElasticsearchVectorDatabase)
    (document : Document) (chunk_processor : DocumentProcessor)
    (now indexed_at : Q)
  : nat * ElasticsearchVectorDatabase :=
  match es self with
  | None => (0, self)
  | Some client =>
      let chunks := create_chunks chunk_processor document now in
      match chunks with
      | [] => (0, self)
      | _ =>
          let chunk_texts := map c_content chunks in
          let '(embeddings, em) :=
            embed_batch (embedding_manager self) chunk_texts default_batch_size in
          let self := with_manager em self in
          let docs_to_index :=
            map (fun '(chunk, embedding) =>
                   (c_id chunk,
                    {| s_chunk_id := c_id chunk;
                       s_content := c_content chunk;
                       s_content_vector := embedding;
                       s_source := c_source chunk;
                       s_document_id := c_document_id chunk;
                       s_document_title := d_title document;
                       s_chunk_index := c_chunk_index chunk;
                       s_created_at := (indexed_at * 1000)%Q;
                       s_source_type := d_source_type document;
                       s_authority_score := d_authority_score document;
                       s_mitre_techniques := mitre_techniques (inherited (c_metadata chunk));
                       s_security_frameworks := security_frameworks (inherited (c_metadata chunk));
                       s_cves := cves (inherited (c_metadata chunk));
                       s_word_count := chunk_words (c_metadata chunk);
                       s_character_count := String.length (c_content chunk);
                       s_chunk_size := chunk_size (c_metadata chunk);
                       s_position_in_document := position_in_document (c_metadata chunk);
                       s_metadata := c_metadata chunk |}))
                (combine chunks embeddings) in
          match bulk client docs_to_index with
          | Some (success_count, client) => (success_count, with_client client self)
          | None => (0, self)
          end
      end
  end.

Definition search_similar_chunks (self : ElasticsearchVectorDatabase)
    (query : string) (top_k : Z) (similarity_threshold : option Q)
    (filter_metadata : option (list (string * VectorDb.expected)))
    (use_hybrid_search : bool) (now : Q)
  : list RetrievalResult * ElasticsearchVectorDatabase :=
  match es self with
  | None => ([], self)
  | Some client =>
      let similarity_threshold :=
        default (EsDb.similarity_threshold self) similarity_threshold in
      let '(query_embedding, em) :=
        embed_text sha256_hexdigest (embedding_manager self) query true in
      let self := with_manager em self in
      let search_query :=
        {| q_size := (top_k * 2)%Z;
           q_query_vector := query_embedding;
           q_min_score := (similarity_threshold + 1.0)%Q;
           q_text := if use_hybrid_search then Some query else None;
           q_filter := match filter_metadata with
                       | Some [] => None
                       | f => f
                       end |} in
      match search client search_query with
      | Some hits =>
          let results := omap (hit_candidate similarity_threshold now) hits in
          (sort_and_rank top_k results, self)
      | None => ([], self)
      end
  end.

Definition delete_document (self : ElasticsearchVectorDatabase)
    (document_id : string) : bool * ElasticsearchVectorDatabase :=
  match es self with
  | None => (false, self)
  | Some client =>
      match delete_by_document_id client document_id with
      | Some (_, client) => (true, with_client client self)
      | None => (false, self)
      end
  end.
End Operations.

(** [clear_index]: the delete-by-query with [match_all]. *)
Definition clear_index (self : ElasticsearchVectorDatabase)
  : bool * ElasticsearchVectorDatabase :=
  match es self with
  | None => (false, self)
  | Some client =>
      if es_reachable client
      then (true, with_client {| es_docs := ∅; es_reachable := es_reachable client |} self)
      else (false, self)
  end.

End EsDb.

(* ================================================================== *)
(** * rag/integration.py *)
(* ================================================================== *)

Module Integration.

Definition security_keywords : list string :=
  ["mitre"; "attack"; "technique"; "detection"; "exploit"; "vulnerability"].

(** [sum(1 for keyword in security_keywords
         if keyword.lower() in section.lower())] *)
Definition keyword_score (section : string) : nat :=
  List.length
    (filter (fun keyword =>
               Py.contains (Py.lower keyword) (Py.lower section) = true)
            security_keywords).

(** The packing loop of [compress_context] over the scored sections,
    with [compressed_parts] and [current_length]; the loop ends at the
    first section that does not fit. *)
Fixpoint pack (target_length : Z) (scored_sections : list (nat * string))
    (compressed_parts : list string) (current_length : Z) : list string :=
  match scored_sections with
  | [] => compressed_parts
  | (score, section) :: rest =>
      if (current_length + Py.len section <=? target_length)%Z
      then pack target_length rest
                (compressed_parts ++ [section])
                (current_length + Py.len section)%Z
      else
        let remaining := (target_length - current_length)%Z in
        if (remaining >? 100)%Z
        then compressed_parts ++ [Py.str_take remaining section +:+ "..."]
        else compressed_parts
  end.

Definition scored (context : string) : list (nat * string) :=
  let sections := Py.split Py.blank_line context in
  let scored_sections := map (fun section => (keyword_score section, section)) sections in
  Py.sort_desc (fun x => inject_Z (Z.of_nat (fst x))) scored_sections.

Definition compress_context (context : string) (target_length : Z) : string :=
  if (Py.len context <=? target_length)%Z then context
  else Py.join Py.blank_line (pack target_length (scored context) [] 0%Z).

(** ** ContextOptimizer.optimize_context *)

(** The members of [ModelRole] that the limits name; [OTHER_ROLE] stands
    for any other member of the enumeration, which is declared outside
    the files modelled here. *)
Inductive ModelRole :=
| ANALYSIS_AGENT
| CODE_EXPERT
| RESEARCH_SYNTHESIZER
| REDTEAM_SPECIALIST
| OTHER_ROLE.

(** [self.context_limits.get(model_role, 2000)] *)
Definition context_limit_of (model_role : ModelRole) : Z :=
  match model_role with
  | ANALYSIS_AGENT => 3000
  | CODE_EXPERT => 2500
  | RESEARCH_SYNTHESIZER => 3500
  | REDTEAM_SPECIALIST => 1500
  | OTHER_ROLE => 2000
  end%Z.

(** [len(chunk.content) // 4] *)
Definition chunk_tokens (result : Core.RetrievalResult) : Z :=
  (Py.len (Core.c_content (Core.chunk result)) / 4)%Z.

(** The text added for one result. *)
Definition context_part (result : Core.RetrievalResult) : string :=
  let chunk := Core.chunk result in
  let source_info := "[Source: " +:+ Core.c_source chunk +:+ "]" in
  let source_info :=
    match Core.mitre_techniques (Core.inherited (Core.c_metadata chunk)) with
    | [] => source_info
    | techniques =>
        source_info +:+ " [MITRE: " +:+ Py.join ", " techniques +:+ "]"
    end in
  source_info +:+ Py.newline +:+ Core.c_content chunk.

(** The loop of [optimize_context] over the sorted results, with
    [context_parts], [current_length] and [sources_used]; it ends at the
    first result that would pass the limit. *)
Fixpoint gather (context_limit : Z) (sorted_results : list Core.RetrievalResult)
    (context_parts : list string) (current_length : Z)
    (sources_used : gset string) : list string * Z * gset string :=
  match sorted_results with
  | [] => (context_parts, current_length, sources_used)
  | result :: rest =>
      if (current_length + chunk_tokens result >? context_limit)%Z
      then (context_parts, current_length, sources_used)
      else gather context_limit rest
             (context_parts ++ [context_part result])
             (current_length + chunk_tokens result)%Z
             ({[Core.c_source (Core.chunk result)]} ∪ sources_used)
  end.

(** [optimize_context(retrieval_results, model_role, query)].  The
    numbers of the summary are written with [str]; [current_length] is a
    sum of lengths and is not negative. *)
Definition optimize_context (retrieval_results : list Core.RetrievalResult)
    (model_role : ModelRole) (query : string) : string :=
  let context_limit := context_limit_of model_role in
  let sorted_results := Py.sort_desc Core.combined_score retrieval_results in
  let '(context_parts, current_length, sources_used) :=
    gather context_limit sorted_results [] 0%Z ∅ in
  let context :=
    (Py.blank_line +:+ Py.str_repeat "=" 50)
    +:+ Py.join Py.blank_line context_parts in
  let summary :=
    "CONTEXT SUMMARY: " +:+ Py.str_of_nat (List.length context_parts)
    +:+ " chunks from " +:+ Py.str_of_nat (size sources_used)
    +:+ " sources, ~" +:+ Py.str_of_nat (Z.to_nat current_length)
    +:+ " tokens" in
  summary +:+ Py.newline +:+ context.

(** ** StandaloneElasticsearchRAG *)

(** The system: the processor and the database.  The embedding manager of
    the system is the one the database holds. *)
Record StandaloneElasticsearchRAG := {
  document_processor : Core.DocumentProcessor;
  vector_db : EsDb.ElasticsearchVectorDatabase
}.

Definition with_vector_db (db : EsDb.ElasticsearchVectorDatabase)
    (self : StandaloneElasticsearchRAG) : StandaloneElasticsearchRAG :=
  {| document_processor := document_processor self; vector_db := db |}.

Section Rag.
Variable es_search : EsDb.Elasticsearch -> EsDb.SearchBody -> option (list EsDb.Hit).
Variable sha256_hexdigest : string -> string.
(** [DocumentProcessor.extract_metadata], a scan with regular expressions
    that is not modelled. *)
Variable extract_metadata : string -> string -> Core.DocMetadata.

(** [add_document_from_text(content, title, source, source_type)]; the
    clock is read when the document is built ([now]), when its chunks are
    ([chunked_at]) and when they are indexed ([indexed_at]). *)
Definition add_document_from_text (self : StandaloneElasticsearchRAG)
    (content title source source_type : string) (now chunked_at indexed_at : Q)
  : bool * StandaloneElasticsearchRAG :=
  let doc_id := Py.str_take 16 (sha256_hexdigest (source +:+ "_" +:+ title)) in
  let document :=
    {| Core.d_id := doc_id;
       Core.d_title := title;
       Core.d_content := content;
       Core.d_source := source;
       Core.d_source_type := source_type;
       Core.d_metadata := extract_metadata content source;
       Core.d_authority_score := 0.0;
       Core.d_created_at := now;
       Core.d_last_updated := now |} in
  let '(chunks_added, db) :=
    EsDb.add_document (vector_db self) document (document_processor self)
      chunked_at indexed_at in
  (0 <? chunks_added, with_vector_db db self).

(** [search(query, top_k)] *)
Definition search (self : StandaloneElasticsearchRAG) (query : string)
    (top_k : Z) (now : Q)
  : list Core.RetrievalResult * StandaloneElasticsearchRAG :=
  let '(results, db) :=
    EsDb.search_similar_chunks es_search sha256_hexdigest (vector_db self)
      query top_k None None true now in
  (results, with_vector_db db self).

(** [get_context_for_query(query, max_length)] *)
Definition get_context_for_query (self : StandaloneElasticsearchRAG)
    (query : string) (max_length : Z) (now : Q)
  : string * StandaloneElasticsearchRAG :=
  let '(results, self) := search self query 10 now in
  match results with
  | [] => ("No relevant context found.", self)
  | _ =>
      let context_parts :=
        map (fun result =>
               "[Source: " +:+ Core.c_source (Core.chunk result) +:+ "]"
               +:+ Py.newline +:+ Core.c_content (Core.chunk result))
            results in
      let context :=
        Py.join (Py.blank_line +:+ "---" +:+ Py.blank_line) context_parts in
      (compress_context context max_length, self)
  end.
End Rag.

End Integration.

(* ================================================================== *)
(** * Sample data for the concrete runs *)
(* ================================================================== *)

Module Sample.
Import Core.

(** A stand-in for the digest; no run below depends on its values. *)
Definition digest (text : string) : string := text.

(** A model of dimension 1: the length of the text. *)
Definition length_model : Model :=
  {| encode := fun text => [inject_Z (Z.of_nat (String.length text))];
     get_sentence_embedding_dimension := 1 |}.

(** A generator that delivers 0.000, 0.001, 0.002, ... *)
Definition counting_rng : Rng :=
  {| tape := fun i => (Z.of_nat i # 1000)%Q; cursor := 0 |}.

(** The manager built when sentence-transformers is missing. *)
Definition manager_without_model : EnhancedEmbeddingManager :=
  {| model := None;
     embedding_dim := 384;
     embedding_cache := ∅;
     np_random := counting_rng;
     encode_calls := 0 |}.

Definition manager_with_model : EnhancedEmbeddingManager :=
  {| model := Some length_model;
     embedding_dim := 1;
     embedding_cache := ∅;
     np_random := counting_rng;
     encode_calls := 0 |}.

Definition processor : DocumentProcessor :=
  {| p_chunk_size := 1024; p_chunk_overlap := 128 |}.

Definition no_metadata : DocMetadata :=
  {| word_count := 1; character_count := 5; md_source := "notes.txt";
     extracted_at := 0;
     mitre_techniques := []; security_frameworks := []; cves := [];
     referenced_urls := [] |}.

Definition document (content : string) : Document :=
  {| d_id := "0123456789abcdef";
     d_title := "notes";
     d_content := content;
     d_source := "notes.txt";
     d_source_type := "manual";
     d_metadata := no_metadata;
     d_authority_score := 0;
     d_created_at := 0;
     d_last_updated := 0 |}.

(** The local database right after construction, without FAISS. *)
Definition local_db : VectorDb.EnhancedVectorDatabase :=
  {| VectorDb.embedding_manager := manager_without_model;
     VectorDb.similarity_threshold := 0.7;
     VectorDb.index := None;
     VectorDb.chunk_metadata := [];
     VectorDb.document_registry := [];
     VectorDb.next_index := 0 |}.

(** The local database with an empty FAISS index of dimension 1. *)
Definition indexed_db : VectorDb.EnhancedVectorDatabase :=
  {| VectorDb.embedding_manager := manager_with_model;
     VectorDb.similarity_threshold := 0.7;
     VectorDb.index := Some {| VectorDb.faiss_d := 1; VectorDb.faiss_xb := [] |};
     VectorDb.chunk_metadata := [];
     VectorDb.document_registry := [];
     VectorDb.next_index := 0 |}.

(** An index that finds nothing. *)
Definition no_hits (_ : VectorDb.FaissIndex) (_ : vector) (_ : Z) : list (Q * Z) := [].

(** An index that always answers with the given hits. *)
Definition fixed_hits (hits : list (Q * Z))
    (_ : VectorDb.FaissIndex) (_ : vector) (_ : Z) : list (Q * Z) := hits.

(** The Elasticsearch database on an empty, reachable index. *)
Definition es_db : EsDb.ElasticsearchVectorDatabase :=
  {| EsDb.embedding_manager := manager_with_model;
     EsDb.index_name := "autonomous_research_rag";
     EsDb.similarity_threshold := 0.7;
     EsDb.es := Some {| EsDb.es_docs := ∅; EsDb.es_reachable := true |} |}.

(** The Elasticsearch database whose connection failed. *)
Definition es_db_unavailable : EsDb.ElasticsearchVectorDatabase :=
  {| EsDb.embedding_manager := manager_with_model;
     EsDb.index_name := "autonomous_research_rag";
     EsDb.similarity_threshold := 0.7;
     EsDb.es := None |}.

(** A paragraph of [n] letters. *)
Fixpoint paragraph_of (n : nat) : string :=
  match n with O => EmptyString | S n' => String "x" (paragraph_of n') end.

Definition no_es_hits (_ : EsDb.Elasticsearch) (_ : EsDb.SearchBody)
  : option (list EsDb.Hit) := Some [].

(** A document of two paragraphs, ingested by a processor that keeps
    them apart. *)
Definition two_chunks_db : VectorDb.EnhancedVectorDatabase :=
  snd (VectorDb.add_document true indexed_db
         (document ("alpha" +:+ Py.blank_line +:+ "gamma"))
         {| p_chunk_size := 5; p_chunk_overlap := 0 |} 0).

Definition plain_metadata : Metadata :=
  {| document_title := "notes";
     document_source_type := "manual";
     chunk_size := 5; chunk_words := 1;
     position_in_document := 0;
     inherited := no_metadata |}.

(** A result that carries only an id and a combined score. *)
Definition result_with (ident : string) (combined : Q) : RetrievalResult :=
  {| chunk := {| c_id := ident; c_content := "alpha"; c_source := "notes.txt";
                 c_document_id := "0123456789abcdef"; c_chunk_index := 0;
                 c_metadata := plain_metadata;
                 c_embedding := None; c_created_at := 0 |};
     similarity_score := combined; authority_score := 0; temporal_score := 0;
     combined_score := combined; rank := 0 |}.

(** A stored chunk created at the given time, in seconds. *)
Definition entry_created_at (t : Q) : VectorDb.ChunkEntry :=
  {| VectorDb.e_chunk_id := "0123456789abcdef_chunk_0000";
     VectorDb.e_content := "alpha";
     VectorDb.e_source := "notes.txt";
     VectorDb.e_document_id := "0123456789abcdef";
     VectorDb.e_chunk_index := 0;
     VectorDb.e_metadata := plain_metadata;
     VectorDb.e_created_at := t;
     VectorDb.e_index_position := 0 |}.

(** An indexed document created at the given time, in milliseconds. *)
Definition source_created_at (t : Q) : EsDb.EsSource :=
  {| EsDb.s_chunk_id := "0123456789abcdef_chunk_0000";
     EsDb.s_content := "alpha";
     EsDb.s_content_vector := [5%Q];
     EsDb.s_source := "notes.txt";
     EsDb.s_document_id := "0123456789abcdef";
     EsDb.s_document_title := "notes";
     EsDb.s_chunk_index := 0;
     EsDb.s_created_at := t;
     EsDb.s_source_type := "manual";
     EsDb.s_authority_score := 0;
     EsDb.s_mitre_techniques := [];
     EsDb.s_security_frameworks := [];
     EsDb.s_cves := [];
     EsDb.s_word_count := 1;
     EsDb.s_character_count := 5;
     EsDb.s_chunk_size := 5;
     EsDb.s_position_in_document := 0;
     EsDb.s_metadata := plain_metadata |}.

End Sample.

(* ================================================================== *)
(** * Vocabulary of the statements *)
(* ================================================================== *)

Section Vocabulary.
Context {A : Type} (key : A -> Q).

(** Each element is at least as large, in its key, as every later one. *)
Definition descending (l : list A) : Prop :=
  StronglySorted (fun a b => (key b <= key a)%Q) l.

(** The elements that have the key [q], in their order. *)
Definition with_key (q : Q) (l : list A) : list A :=
  filter (fun a => Qeq_bool (key a) q = true) l.

(** No two different elements have the same key. *)
Definition no_ties (l : list A) : Prop :=
  forall x y, x ∈ l -> y ∈ l -> (key x == key y)%Q -> x = y.
End Vocabulary.

(** A sentence of the text: a piece of one of its long paragraphs. *)
Definition sentence_of (content sentence : string) : Prop :=
  exists paragraph,
    paragraph ∈ Py.split Py.blank_line content
    /\ sentence ∈ Py.re_split_terminators paragraph.

(** Within the bound up to one separator, or one whole sentence. *)
Definition bounded_or_sentence (chunk_size : Z) (content text : string) : Prop :=
  (Py.len text <= chunk_size + 2)%Z
  \/ exists sentence, sentence_of content sentence /\ text = Py.strip sentence.

Definition chunker_ok (chunk_size : Z) (content : string) (st : Core.chunker)
  : Prop :=
  Forall (bounded_or_sentence chunk_size content) (fst st)
  /\ (snd st = EmptyString \/ bounded_or_sentence chunk_size content (snd st)).

(** The text has no character other than white space. *)
Fixpoint all_space (s : string) : bool :=
  match s with
  | EmptyString => true
  | String c s' => Py.isspace c && all_space s'
  end.

(** The chunker while it reads white space: only empty chunks, and a
    current chunk of white space. *)
Definition chunker_idle (st : Core.chunker) : Prop :=
  Forall (fun c => c = "") (fst st) /\ all_space (snd st) = true.

(** The five bands of the temporal decay. *)
Definition in_bands (age score : Q) : Prop :=
  ((age <= 30 -> score == 1)
   /\ (30 < age /\ age <= 90 -> score == 0.8)
   /\ (90 < age /\ age <= 365 -> score == 0.6)
   /\ (365 < age /\ age <= 730 -> score == 0.4)
   /\ (730 < age -> score == 0.2))%Q.

(** The summed length of the parts, separators not counted. *)
Definition total_len (parts : list string) : Z :=
  fold_right (fun part acc => (Py.len part + acc)%Z) 0%Z parts.

(** The Elasticsearch client is absent (the connection failed at
    construction) or the server does not answer. *)
Definition unavailable (db : EsDb.ElasticsearchVectorDatabase) : Prop :=
  match EsDb.es db with
  | None => True
  | Some client => EsDb.es_reachable client = false
  end.

(** Every stored position is below [next_index], as it is in a database
    that was built by the code. *)
Definition positions_below_next (db : VectorDb.EnhancedVectorDatabase) : Prop :=
  Forall (fun k => (k < VectorDb.next_index db)%Z)
         (map fst (VectorDb.chunk_metadata db)).

(** The number written by a string of decimal digits. *)
Definition int_of_string (s : string) : option nat :=
  Nat.of_uint <$> NilEmpty.uint_of_string s.

Definition is_digit (c : ascii) : bool :=
  let n := nat_of_ascii c in (48 <=? n) && (n <=? 57).

Fixpoint all_digits (s : string) : bool :=
  match s with
  | EmptyString => true
  | String c s' => is_digit c && all_digits s'
  end.

(** The digits that end a string. *)
Fixpoint digit_suffix (s : string) : string :=
  match s with
  | EmptyString => EmptyString
  | String c s' =>
      let r := digit_suffix s' in
      if is_digit c && (String.length r =? String.length s')
      then String c r else r
  end.

(** The entry that [add_chunk_to_index] writes for a chunk at a
    position. *)
Definition entry_of_chunk (position : Z) (chunk : Core.DocumentChunk)
  : VectorDb.ChunkEntry :=
  {| VectorDb.e_chunk_id := Core.c_id chunk;
     VectorDb.e_content := Core.c_content chunk;
     VectorDb.e_source := Core.c_source chunk;
     VectorDb.e_document_id := Core.c_document_id chunk;
     VectorDb.e_chunk_index := Core.c_chunk_index chunk;
     VectorDb.e_metadata := Core.c_metadata chunk;
     VectorDb.e_created_at := Core.c_created_at chunk;
     VectorDb.e_index_position := position |}.

(** The FAISS index in use holds one vector for each position that was
    handed out. *)
Definition index_aligned (FAISS_AVAILABLE : bool)
    (db : VectorDb.EnhancedVectorDatabase) : Prop :=
  match VectorDb.usable_index FAISS_AVAILABLE db with
  | Some ix => VectorDb.ntotal ix = VectorDb.next_index db
  | None => True
  end.

(** The bookkeeping of the local database: every position below
    [next_index] has an entry, no entry lies beyond [next_index], every
    entry records the position it is stored under, and the index is
    aligned with the positions. *)
Definition consistent (FAISS_AVAILABLE : bool)
    (db : VectorDb.EnhancedVectorDatabase) : Prop :=
  (0 <= VectorDb.next_index db)%Z
  /\ (forall k, (0 <= k < VectorDb.next_index db)%Z ->
       is_Some (Py.dict_get k (VectorDb.chunk_metadata db)))
  /\ Forall (fun item =>
               (fst item <= VectorDb.next_index db)%Z
               /\ VectorDb.e_index_position (snd item) = fst item)
            (VectorDb.chunk_metadata db)
  /\ index_aligned FAISS_AVAILABLE db.

(** The vectors that the embedding manager produces have the dimension
    of the FAISS index in use. *)
Definition dimensions_agree (FAISS_AVAILABLE : bool)
    (db : VectorDb.EnhancedVectorDatabase) : Prop :=
  match VectorDb.usable_index FAISS_AVAILABLE db with
  | None => True
  | Some ix =>
      match Core.model (VectorDb.embedding_manager db) with
      | None =>
          Core.embedding_dim (VectorDb.embedding_manager db) = VectorDb.faiss_d ix
      | Some m =>
          forall text, List.length (Core.encode m text) = VectorDb.faiss_d ix
      end
  end.

(** The token estimate of a list of results, as [optimize_context]
    sums it. *)
Definition tokens (results : list Core.RetrievalResult) : Z :=
  fold_right (fun r acc => (Integration.chunk_tokens r + acc)%Z) 0%Z results.

(** The sum of the counts of a distribution. *)
Definition counted (distribution : list (string * nat)) : nat :=
  fold_right (fun item acc => snd item + acc) 0 distribution.

(** The results of a search that returned; a search that raised has
    none. *)
Definition returned {A} (out : option (list A)) : list A := default [] out.

(** The candidates of a search of the local variant in the order in
    which the backend delivered them: one for each hit of the FAISS
    index, in the order of its answer, that passes the tests of the loop,
    or, on the fallback path, one for each stored entry that does, in the
    order of [chunk_metadata]. *)
Definition delivered (FAISS_AVAILABLE : bool)
    (faiss_search : VectorDb.FaissIndex -> Core.vector -> Z -> list (Q * Z))
    (sha256_hexdigest : string -> string)
    (db : VectorDb.EnhancedVectorDatabase) (query : string) (top_k : Z)
    (threshold : option Q)
    (flt : option (list (string * VectorDb.expected))) (now : Q)
  : list Core.RetrievalResult :=
  let floor := default (VectorDb.similarity_threshold db) threshold in
  let query_embedding :=
    fst (Core.embed_text sha256_hexdigest (VectorDb.embedding_manager db)
           query true) in
  match VectorDb.usable_index FAISS_AVAILABLE db with
  | Some ix =>
      omap (VectorDb.index_candidate db floor flt now)
           (faiss_search ix query_embedding
              (Z.min (top_k * 2) (VectorDb.ntotal ix)))
  | None =>
      omap (VectorDb.fallback_candidate (Py.lower query) flt now)
           (VectorDb.chunk_metadata db)
  end.

(** The same for the Elasticsearch variant: one candidate for each hit
    of the server's answer that passes the threshold, in the order of the
    answer; none when the client is absent or the call fails. *)
Definition es_delivered
    (es_search : EsDb.Elasticsearch -> EsDb.SearchBody -> option (list EsDb.Hit))
    (sha256_hexdigest : string -> string)
    (esdb : EsDb.ElasticsearchVectorDatabase) (query : string) (top_k : Z)
    (threshold : option Q)
    (flt : option (list (string * VectorDb.expected)))
    (hybrid : bool) (now : Q)
  : list Core.RetrievalResult :=
  let floor := default (EsDb.similarity_threshold esdb) threshold in
  let query_embedding :=
    fst (Core.embed_text sha256_hexdigest (EsDb.embedding_manager esdb)
           query true) in
  match EsDb.es esdb with
  | None => []
  | Some client =>
      match EsDb.search es_search client
              {| EsDb.q_size := (top_k * 2)%Z;
                 EsDb.q_query_vector := query_embedding;
                 EsDb.q_min_score := (floor + 1.0)%Q;
                 EsDb.q_text := if hybrid then Some query else None;
                 EsDb.q_filter := match flt with
                                  | Some [] => None
                                  | f => f
                                  end |} with
      | Some hits => omap (EsDb.hit_candidate floor now) hits
      | None => []
      end
  end.

(** The number of the six security keywords that occur in a section,
    whatever the case of its letters. *)
Definition keywords_in (section : string) : nat :=
  let text := Py.lower section in
  let occurs keyword := if Py.contains keyword text then 1 else 0 in
  occurs "mitre" + occurs "attack" + occurs "technique"
  + occurs "detection" + occurs "exploit" + occurs "vulnerability".

(* ================================================================== *)
(** * Properties *)
(* ================================================================== *)

Import Core.
Import Sample.

Lemma Qle_bool_false a b : Qle_bool a b = false -> (b < a)%Q.
Proof.
  intros H. apply Qnot_le_lt. intros Hle.
  apply Qle_bool_iff in Hle. congruence.
Qed.

(** Case analysis on the comparisons of the decay. *)
Ltac bands :=
  unfold VectorDb.decay;
  repeat match goal with
         | |- context [Qle_bool ?x ?y] =>
             let E := fresh "E" in
             destruct (Qle_bool x y) eqn:E;
             [apply Qle_bool_iff in E | apply Qle_bool_false in E]
         end.


(** ** Strings *)

Section Strings.
Lemma len_nonneg s : (0 <= Py.len s)%Z.
Proof. unfold Py.len. lia. Qed.

Lemma len_append s1 s2 : Py.len (s1 +:+ s2) = (Py.len s1 + Py.len s2)%Z.
Proof.
  unfold Py.len. induction s1 as [|c s1 IH]; simpl; [done|]. lia.
Qed.

Lemma length_substring_0 n s : String.length (String.substring 0 n s) <= n.
Proof.
  revert s. induction n as [|n IH]; intros [|c s]; simpl; try lia.
  specialize (IH s). lia.
Qed.

Lemma len_str_take n s : (0 <= n)%Z -> (Py.len (Py.str_take n s) <= n)%Z.
Proof.
  intros Hn. unfold Py.str_take, Py.len.
  destruct (n <? 0)%Z eqn:E; [lia|].
  pose proof (length_substring_0 (Z.to_nat n) s). lia.
Qed.

Lemma total_len_app l1 l2 :
  total_len (l1 ++ l2) = (total_len l1 + total_len l2)%Z.
Proof. induction l1 as [|x l1 IH]; simpl; lia. Qed.

Lemma total_len_singleton s : total_len [s] = Py.len s.
Proof. simpl. lia. Qed.

Lemma total_len_nonneg l : (0 <= total_len l)%Z.
Proof.
  induction l as [|x l IH]; simpl; [lia|]. pose proof (len_nonneg x). lia.
Qed.
End Strings.

Section StripFacts.
Lemma length_lstrip s : String.length (Py.lstrip s) <= String.length s.
Proof.
  induction s as [|c s IH]; simpl; [done|].
  destruct (Py.isspace c); simpl; lia.
Qed.

Lemma length_rstrip s : String.length (Py.rstrip s) <= String.length s.
Proof.
  induction s as [|c s IH]; simpl; [done|].
  destruct (Py.rstrip s); [destruct (Py.isspace c)|]; simpl in *; lia.
Qed.

Lemma len_strip s : (Py.len (Py.strip s) <= Py.len s)%Z.
Proof.
  unfold Py.len, Py.strip.
  pose proof (length_rstrip (Py.lstrip s)). pose proof (length_lstrip s). lia.
Qed.

Lemma lstrip_head s :
  Py.lstrip s = EmptyString
  \/ exists c t, Py.lstrip s = String c t /\ Py.isspace c = false.
Proof.
  induction s as [|c s IH]; simpl; [by left|].
  destruct (Py.isspace c) eqn:E; [done|]. right. by exists c, s.
Qed.

Lemma rstrip_head c t :
  Py.isspace c = false -> exists t', Py.rstrip (String c t) = String c t'.
Proof.
  intros E. simpl. destruct (Py.rstrip t); rewrite ?E; eauto.
Qed.

Lemma rstrip_idem s : Py.rstrip (Py.rstrip s) = Py.rstrip s.
Proof.
  induction s as [|c s IH]; simpl; [done|].
  destruct (Py.rstrip s) as [|d r] eqn:Er.
  - destruct (Py.isspace c) eqn:E; simpl; [done|]. by rewrite E.
  - simpl in *. by rewrite IH.
Qed.

Lemma strip_idem s : Py.strip (Py.strip s) = Py.strip s.
Proof.
  unfold Py.strip.
  destruct (lstrip_head s) as [->|(c & t & -> & E)]; [done|].
  destruct (rstrip_head c t E) as [t' Ht].
  rewrite Ht at 1. simpl Py.lstrip. rewrite E, <- Ht. apply rstrip_idem.
Qed.
End StripFacts.

(** ** Chunking (C1) *)

(** C1 on a text of three sentences and max_size 10.  The paragraph is
    longer than 10 and is split into the sentences "Hello", "World" and
    "Bye"; "Hello" and "World" pass the test 5 + 5 > 10 and are joined with
    a space that the test did not count.  The first chunk has 11
    characters and consists of two sentences, each shorter than 10. *)
Theorem smart_chunk_text_joins_past_max_size :
  Py.re_split_terminators "Hello. World. Bye" = ["Hello"; " World"; " Bye"]
  /\ smart_chunk_text 1024 "Hello. World. Bye" (Some 10%Z)
     = ["Hello World"; "Bye"]
  /\ Py.len "Hello World" = 11%Z
  /\ (Py.len "Hello" < 10)%Z /\ (Py.len "World" < 10)%Z.
Proof. repeat split; vm_compute; reflexivity. Qed.

Section ChunkBound.
Variable chunk_size : Z.
Variable content : string.

Lemma bounded_or_sentence_strip text :
  bounded_or_sentence chunk_size content text ->
  bounded_or_sentence chunk_size content (Py.strip text).
Proof.
  intros [H|(s & Hs & ->)].
  - left. pose proof (len_strip text). lia.
  - right. exists s. by rewrite strip_idem.
Qed.

Lemma flush_ok st :
  chunker_ok chunk_size content st ->
  Forall (bounded_or_sentence chunk_size content) (flush st).
Proof.
  destruct st as [chunks cur]. intros [Hc Hcur]. unfold flush. simpl in *.
  destruct Hcur as [->|Hcur]; [done|].
  destruct (Py.truthy cur); [|done].
  apply Forall_app. split; [done|].
  constructor; [|constructor]. by apply bounded_or_sentence_strip.
Qed.

Lemma sentence_step_ok st sentence :
  sentence_of content sentence ->
  chunker_ok chunk_size content st ->
  chunker_ok chunk_size content (sentence_step chunk_size st sentence).
Proof.
  intros Hs Hst. unfold sentence_step.
  destruct (Py.truthy (Py.strip sentence)); simpl; [|done].
  destruct st as [chunks cur].
  destruct (Py.len cur + Py.len (Py.strip sentence) >? chunk_size)%Z eqn:E.
  - split; [by apply flush_ok|]. right. right. by exists sentence.
  - rewrite Z.gtb_ltb in E. apply Z.ltb_ge in E. destruct Hst as [Hc _].
    split; [done|]. right. left. simpl.
    pose proof (len_nonneg cur). pose proof (len_nonneg (Py.strip sentence)).
    destruct (Py.truthy cur); [|lia].
    rewrite !len_append. change (Py.len " ") with 1%Z. lia.
Qed.

Lemma paragraph_step_ok st paragraph :
  paragraph ∈ Py.split Py.blank_line content ->
  chunker_ok chunk_size content st ->
  chunker_ok chunk_size content (paragraph_step chunk_size st paragraph).
Proof.
  intros Hp Hst. unfold paragraph_step.
  destruct (Py.len paragraph >? chunk_size)%Z eqn:El.
  - assert (forall sentences st',
              (forall s, s ∈ sentences -> sentence_of content s) ->
              chunker_ok chunk_size content st' ->
              chunker_ok chunk_size content
                (fold_left (sentence_step chunk_size) sentences st')) as Hfold.
    { induction sentences as [|s sentences IH]; intros st' Hin Hst'; simpl; [done|].
      apply IH.
      - intros s' Hs'. apply Hin, elem_of_cons. by right.
      - apply sentence_step_ok; [|done]. apply Hin, elem_of_cons. by left. }
    apply Hfold; [|done]. intros s Hs. by exists paragraph.
  - rewrite Z.gtb_ltb in El. apply Z.ltb_ge in El.
    destruct st as [chunks cur].
    destruct (Py.len cur + Py.len paragraph >? chunk_size)%Z eqn:E.
    + split; [by apply flush_ok|]. right. left. simpl. lia.
    + rewrite Z.gtb_ltb in E. apply Z.ltb_ge in E. destruct Hst as [Hc _].
      split; [done|]. right. left. simpl.
      pose proof (len_nonneg cur). pose proof (len_nonneg paragraph).
      destruct (Py.truthy cur); [|lia].
      rewrite !len_append. change (Py.len Py.blank_line) with 2%Z. lia.
Qed.
End ChunkBound.

(** What the chunker does guarantee: a chunk exceeds the chunk size by at
    most the two characters of a separator, unless it is one whole
    sentence of the text. *)
Lemma smart_chunk_text_overshoot default_chunk_size content chunk_size chunk :
  chunk ∈ smart_chunk_text default_chunk_size content chunk_size ->
  bounded_or_sentence (default default_chunk_size chunk_size) content chunk.
Proof.
  unfold smart_chunk_text. set (k := default default_chunk_size chunk_size).
  intros Hin. apply list_elem_of_filter in Hin as [_ Hin].
  revert chunk Hin. apply Forall_forall, flush_ok.
  assert (forall paragraphs st,
            (forall p, p ∈ paragraphs -> p ∈ Py.split Py.blank_line content) ->
            chunker_ok k content st ->
            chunker_ok k content (fold_left (paragraph_step k) paragraphs st))
    as Hfold.
  { induction paragraphs as [|p paragraphs IH]; intros st Hp Hst; simpl; [done|].
    apply IH.
    - intros p' Hp'. apply Hp, elem_of_cons. by right.
    - apply paragraph_step_ok; [|done]. apply Hp, elem_of_cons. by left. }
  apply Hfold; [done|]. split; [constructor|]. by left.
Qed.

(** ** The stable descending sort *)

Section SortFacts.
Context {A : Type} (key : A -> Q).

Lemma insert_desc_perm x l : Permutation (Py.insert_desc key x l) (x :: l).
Proof.
  induction l as [|y l IH]; simpl; [reflexivity|].
  destruct (Qle_bool (key y) (key x)); [reflexivity|].
  rewrite IH. apply perm_swap.
Qed.

Lemma sort_desc_perm l : Permutation (Py.sort_desc key l) l.
Proof.
  induction l as [|x l IH]; simpl; [reflexivity|].
  rewrite insert_desc_perm. by constructor.
Qed.

Lemma insert_desc_sorted x l :
  descending key l -> descending key (Py.insert_desc key x l).
Proof.
  unfold descending. induction 1 as [|y l Hl IH Hy]; simpl.
  - repeat constructor.
  - destruct (Qle_bool (key y) (key x)) eqn:E.
    + apply Qle_bool_iff in E.
      constructor; [by constructor|].
      constructor; [done|].
      eapply Forall_impl; [exact Hy|]. simpl. intros z Hz.
      by eapply Qle_trans.
    + apply Qle_bool_false in E.
      constructor; [done|].
      rewrite (insert_desc_perm x l).
      constructor; [by apply Qlt_le_weak | done].
Qed.

Lemma sort_desc_sorted l : descending key (Py.sort_desc key l).
Proof.
  induction l as [|x l IH]; simpl; [constructor|].
  by apply insert_desc_sorted.
Qed.

(** Stability: the elements of one key value keep their order. *)
Lemma insert_desc_stable q x l :
  with_key key q (Py.insert_desc key x l) = with_key key q (x :: l).
Proof.
  unfold with_key. induction l as [|y l IH]; simpl; [done|].
  destruct (Qle_bool (key y) (key x)) eqn:E; [done|].
  apply Qle_bool_false in E.
  rewrite filter_cons, IH, !filter_cons.
  destruct (decide (Qeq_bool (key y) q = true)) as [Hy|Hy];
    destruct (decide (Qeq_bool (key x) q = true)) as [Hx|Hx]; try done.
  apply Qeq_bool_iff in Hy, Hx. rewrite Hy, Hx in E.
  by apply Qlt_irrefl in E.
Qed.

Lemma sort_desc_stable q l :
  with_key key q (Py.sort_desc key l) = with_key key q l.
Proof.
  induction l as [|x l IH]; simpl; [done|].
  rewrite insert_desc_stable. unfold with_key in *.
  by rewrite !filter_cons, IH.
Qed.

Lemma descending_take k l : descending key l -> descending key (Py.take k l).
Proof.
  unfold Py.take. intros H.
  assert (forall n, descending key (firstn n l)) as Hn.
  { clear k. induction H as [|y l Hl IH Hy]; intros [|n]; simpl; try constructor.
    - apply IH.
    - by apply Forall_take. }
  destruct (k <? 0)%Z; apply Hn.
Qed.
End SortFacts.

(** ** The end of every search: sort, rank, truncate *)

Section SortAndRank.

Lemma set_rank_set_rank n m r : set_rank n (set_rank m r) = set_rank n r.
Proof. reflexivity. Qed.

Lemma imap_set_rank_unranked (f : nat -> nat) (l : list RetrievalResult) :
  map (set_rank 0) (imap (fun i r => set_rank (f i) r) l) = map (set_rank 0) l.
Proof.
  revert f. induction l as [|x l IH]; intros f; simpl; [done|].
  f_equal. apply (IH (f ∘ S)).
Qed.


Lemma sort_and_rank_nil k : sort_and_rank k [] = [].
Proof.
  unfold sort_and_rank, Py.take. simpl.
  by destruct (k <? 0)%Z, (Z.to_nat k).
Qed.

Lemma sort_and_rank_unranked k l :
  map (set_rank 0) (sort_and_rank k l)
  = map (set_rank 0) (Py.take k (Py.sort_desc combined_score l)).
Proof. apply imap_set_rank_unranked. Qed.




Lemma Forall_py_take {A} (P : A -> Prop) k l :
  Forall P l -> Forall P (Py.take k l).
Proof. unfold Py.take. destruct (k <? 0)%Z; apply Forall_take. Qed.

(** A property that does not read the rank passes from the candidates
    to the results. *)
Lemma sort_and_rank_Forall (P : RetrievalResult -> Prop) k l :
  (forall n r, P r -> P (set_rank n r)) ->
  Forall P l -> Forall P (sort_and_rank k l).
Proof.
  intros HP Hl. unfold sort_and_rank.
  apply Forall_forall. intros x Hx.
  apply elem_of_lookup_imap in Hx as (i & y & -> & Hy).
  apply HP. apply list_elem_of_lookup_2 in Hy.
  revert y Hy. apply Forall_forall, Forall_py_take.
  by rewrite (sort_desc_perm combined_score l).
Qed.

Lemma imap_set_rank_descending (f : nat -> nat) l :
  descending combined_score l ->
  descending combined_score (imap (fun i r => set_rank (f i) r) l).
Proof.
  intros H. revert f. induction H as [|x l Hl IH Hx]; intros f; simpl.
  - constructor.
  - constructor; [apply (IH (f ∘ S))|].
    apply Forall_forall. intros y Hy.
    apply elem_of_lookup_imap in Hy as (i & z & -> & Hz). simpl.
    apply list_elem_of_lookup_2 in Hz.
    revert z Hz. by apply Forall_forall.
Qed.

Lemma sort_and_rank_descending k l :
  descending combined_score (sort_and_rank k l).
Proof.
  apply imap_set_rank_descending, descending_take, sort_desc_sorted.
Qed.

Lemma Forall_omap_Some {A B} (f : A -> option B) (P : B -> Prop) l :
  (forall x y, f x = Some y -> P y) -> Forall P (omap f l).
Proof.
  intros H. apply Forall_forall. intros y Hy.
  apply list_elem_of_omap in Hy as (x & _ & Hx). eauto.
Qed.
End SortAndRank.

(** ** What one candidate carries *)

Section Candidates.

Lemma index_candidate_props self threshold flt now hit r :
  VectorDb.index_candidate self threshold flt now hit = Some r ->
  (threshold <= similarity_score r)%Q
  /\ (combined_score r ==
      0.5 * similarity_score r + 0.3 * authority_score r + 0.2 * temporal_score r)%Q.
Proof.
  unfold VectorDb.index_candidate. destruct hit as [score idx].
  destruct (idx =? -1)%Z; [discriminate|].
  destruct (Qle_bool threshold (1.0 - score / 2.0)) eqn:E; simpl; [|discriminate].
  destruct (Py.dict_get idx (VectorDb.chunk_metadata self)); [|discriminate].
  destruct (VectorDb.filtered_out _ _); [discriminate|].
  intros [= <-]. split.
  - by apply Qle_bool_iff in E.
  - simpl. ring.
Qed.

Lemma fallback_candidate_props query_lower flt now item r :
  VectorDb.fallback_candidate query_lower flt now item = Some r ->
  (0.1 <= similarity_score r)%Q
  /\ (combined_score r ==
      0.6 * similarity_score r + 0.3 * authority_score r + 0.1 * temporal_score r)%Q.
Proof.
  unfold VectorDb.fallback_candidate.
  destruct (size _ =? 0); [discriminate|].
  match goal with |- context [Qle_bool 0.1 ?s] =>
    destruct (Qle_bool 0.1 s) eqn:E end; simpl; [|discriminate].
  destruct (VectorDb.filtered_out _ _); [discriminate|].
  intros [= <-]. split.
  - by apply Qle_bool_iff in E.
  - simpl. ring.
Qed.

Lemma hit_candidate_props threshold now hit r :
  EsDb.hit_candidate threshold now hit = Some r ->
  (threshold <= similarity_score r)%Q
  /\ (combined_score r ==
      0.5 * similarity_score r + 0.3 * authority_score r + 0.2 * temporal_score r)%Q.
Proof.
  unfold EsDb.hit_candidate.
  match goal with |- context [Qle_bool threshold ?s] =>
    destruct (Qle_bool threshold s) eqn:E end; simpl; [|discriminate].
  intros [= <-]. split.
  - by apply Qle_bool_iff in E.
  - simpl. ring.
Qed.

End Candidates.

(** The shape of the searches: [sort_and_rank] applied to the candidates
    in the order of their delivery, unless the index raises. *)
Section SearchShape.

Lemma local_search_outcome FAISS_AVAILABLE faiss_search sha256_hexdigest
    (db : VectorDb.EnhancedVectorDatabase) query top_k threshold flt now :
  fst (VectorDb.search_similar_chunks FAISS_AVAILABLE faiss_search
         sha256_hexdigest db query top_k threshold flt now)
  = match VectorDb.usable_index FAISS_AVAILABLE db with
    | None =>
        Some (sort_and_rank top_k
                (delivered FAISS_AVAILABLE faiss_search sha256_hexdigest db
                   query top_k threshold flt now))
    | Some ix =>
        if (List.length
              (fst (embed_text sha256_hexdigest (VectorDb.embedding_manager db)
                      query true)) =? VectorDb.faiss_d ix)
           && (0 <? Z.min (top_k * 2) (VectorDb.ntotal ix))%Z
        then Some (sort_and_rank top_k
                     (delivered FAISS_AVAILABLE faiss_search sha256_hexdigest db
                        query top_k threshold flt now))
        else None
    end.
Proof.
  unfold VectorDb.search_similar_chunks, delivered, VectorDb.index_search.
  destruct (embed_text _ _ _ _) as [qe em]. cbn [fst].
  change (VectorDb.usable_index FAISS_AVAILABLE (VectorDb.with_manager em db))
    with (VectorDb.usable_index FAISS_AVAILABLE db).
  destruct (VectorDb.usable_index FAISS_AVAILABLE db) as [ix|]; [|done].
  by destruct (_ && _).
Qed.

Lemma es_search_outcome es_search sha256_hexdigest
    (esdb : EsDb.ElasticsearchVectorDatabase) query top_k threshold flt
    hybrid now :
  fst (EsDb.search_similar_chunks es_search sha256_hexdigest esdb query
         top_k threshold flt hybrid now)
  = sort_and_rank top_k
      (es_delivered es_search sha256_hexdigest esdb query top_k threshold
         flt hybrid now).
Proof.
  unfold EsDb.search_similar_chunks, es_delivered.
  destruct (EsDb.es esdb) as [client|]; [|by rewrite sort_and_rank_nil].
  destruct (embed_text _ _ _ _) as [qe em]. cbn [fst].
  destruct (EsDb.search _ _ _) as [hits|]; [done|by rewrite sort_and_rank_nil].
Qed.

(** A candidate leaves its loop with the rank 0. *)
Lemma index_candidate_unranked self threshold flt now hit r :
  VectorDb.index_candidate self threshold flt now hit = Some r ->
  set_rank 0 r = r.
Proof.
  unfold VectorDb.index_candidate. destruct hit as [score idx].
  destruct (idx =? -1)%Z; [discriminate|].
  destruct (negb _); [discriminate|].
  destruct (Py.dict_get idx (VectorDb.chunk_metadata self)); [|discriminate].
  destruct (VectorDb.filtered_out _ _); [discriminate|]. by intros [= <-].
Qed.

Lemma fallback_candidate_unranked query_lower flt now item r :
  VectorDb.fallback_candidate query_lower flt now item = Some r ->
  set_rank 0 r = r.
Proof.
  unfold VectorDb.fallback_candidate.
  destruct (size _ =? 0); [discriminate|].
  destruct (negb _); [discriminate|].
  destruct (VectorDb.filtered_out _ _); [discriminate|]. by intros [= <-].
Qed.

Lemma hit_candidate_unranked threshold now hit r :
  EsDb.hit_candidate threshold now hit = Some r -> set_rank 0 r = r.
Proof.
  unfold EsDb.hit_candidate.
  destruct (negb _); [discriminate|]. by intros [= <-].
Qed.

Lemma map_unranked (l : list RetrievalResult) :
  Forall (fun r => set_rank 0 r = r) l -> map (set_rank 0) l = l.
Proof.
  induction 1 as [|r l Hr Hl IH]; simpl; [done|]. by rewrite Hr, IH.
Qed.

Lemma delivered_unranked FAISS_AVAILABLE faiss_search sha256_hexdigest
    db query top_k threshold flt now :
  Forall (fun r => set_rank 0 r = r)
         (delivered FAISS_AVAILABLE faiss_search sha256_hexdigest db query
            top_k threshold flt now).
Proof.
  unfold delivered. destruct (VectorDb.usable_index _ _).
  - apply Forall_omap_Some. intros hit r. apply index_candidate_unranked.
  - apply Forall_omap_Some. intros item r. apply fallback_candidate_unranked.
Qed.

Lemma es_delivered_unranked es_search sha256_hexdigest esdb query top_k
    threshold flt hybrid now :
  Forall (fun r => set_rank 0 r = r)
         (es_delivered es_search sha256_hexdigest esdb query top_k threshold
            flt hybrid now).
Proof.
  unfold es_delivered. destruct (EsDb.es esdb); [|constructor].
  destruct (EsDb.search _ _ _); [|constructor].
  apply Forall_omap_Some. intros hit r. apply hit_candidate_unranked.
Qed.

Lemma Forall_unranked_sorted_take k (l : list RetrievalResult) :
  Forall (fun r => set_rank 0 r = r) l ->
  Forall (fun r => set_rank 0 r = r) (Py.take k (Py.sort_desc combined_score l)).
Proof.
  intros H. apply Forall_py_take. by rewrite (sort_desc_perm combined_score l).
Qed.

(** The result of [sort_and_rank] without its ranks. *)
Lemma sort_and_rank_of_unranked k l :
  Forall (fun r => set_rank 0 r = r) l ->
  map (set_rank 0) (sort_and_rank k l)
  = Py.take k (Py.sort_desc combined_score l).
Proof.
  intros H. rewrite sort_and_rank_unranked.
  by apply map_unranked, Forall_unranked_sorted_take.
Qed.

(** The score floor of the candidates of each path. *)
Lemma delivered_floor FAISS_AVAILABLE faiss_search sha256_hexdigest
    (db : VectorDb.EnhancedVectorDatabase) query top_k threshold flt now :
  Forall (fun r =>
            (match VectorDb.usable_index FAISS_AVAILABLE db with
             | Some _ => default (VectorDb.similarity_threshold db) threshold
             | None => 0.1
             end <= similarity_score r)%Q
            /\ match VectorDb.usable_index FAISS_AVAILABLE db with
               | Some _ =>
                   combined_score r ==
                   0.5 * similarity_score r + 0.3 * authority_score r
                   + 0.2 * temporal_score r
               | None =>
                   combined_score r ==
                   0.6 * similarity_score r + 0.3 * authority_score r
                   + 0.1 * temporal_score r
               end)%Q
         (delivered FAISS_AVAILABLE faiss_search sha256_hexdigest db query
            top_k threshold flt now).
Proof.
  unfold delivered. destruct (VectorDb.usable_index _ _).
  - apply Forall_omap_Some. intros hit r Hr.
    by apply index_candidate_props in Hr.
  - apply Forall_omap_Some. intros item r Hr.
    by apply fallback_candidate_props in Hr.
Qed.

Lemma es_delivered_floor es_search sha256_hexdigest
    (esdb : EsDb.ElasticsearchVectorDatabase) query top_k threshold flt
    hybrid now :
  Forall (fun r =>
            (default (EsDb.similarity_threshold esdb) threshold
             <= similarity_score r)%Q
            /\ (combined_score r ==
                0.5 * similarity_score r + 0.3 * authority_score r
                + 0.2 * temporal_score r)%Q)
         (es_delivered es_search sha256_hexdigest esdb query top_k threshold
            flt hybrid now).
Proof.
  unfold es_delivered. destruct (EsDb.es esdb); [|constructor].
  destruct (EsDb.search _ _ _); [|constructor].
  apply Forall_omap_Some. intros hit r Hr.
  by apply hit_candidate_props in Hr.
Qed.

(** A property of the candidates that the rank does not touch holds of
    the results that a local search returns. *)
Lemma returned_Forall FAISS_AVAILABLE faiss_search sha256_hexdigest
    (db : VectorDb.EnhancedVectorDatabase) query top_k threshold flt now
    (P : RetrievalResult -> Prop) :
  (forall n r, P r -> P (set_rank n r)) ->
  Forall P (delivered FAISS_AVAILABLE faiss_search sha256_hexdigest db query
              top_k threshold flt now) ->
  Forall P (returned
              (fst (VectorDb.search_similar_chunks FAISS_AVAILABLE faiss_search
                      sha256_hexdigest db query top_k threshold flt now))).
Proof.
  intros Hrank Hd. rewrite local_search_outcome.
  destruct (VectorDb.usable_index _ _) as [ix|].
  - destruct (_ && _); [|constructor]. by apply sort_and_rank_Forall.
  - by apply sort_and_rank_Forall.
Qed.
End SearchShape.

(** ** Score fusion (C2) *)

(** C2, as stated, fails on the degraded path: with FAISS missing, the
    chunk "alpha" answers the query "alpha beta" with similarity 0.5,
    authority 0.2 and temporal score 1, and its combined score is
    0.6 * 0.5 + 0.3 * 0.2 + 0.1 * 1 = 0.46, not
    0.5 * 0.5 + 0.3 * 0.2 + 0.2 * 1 = 0.51. *)
Lemma fallback_combined_score_is_not_50_30_20 :
  let db := snd (VectorDb.add_document false local_db (document "alpha") processor 0) in
  exists r,
    fst (VectorDb.search_similar_chunks false no_hits digest db
           "alpha beta" 10 None None 0) = Some [r]
    /\ (similarity_score r == 0.5)%Q
    /\ (authority_score r == 0.2)%Q
    /\ (temporal_score r == 1)%Q
    /\ (combined_score r == 0.46)%Q
    /\ ~ (combined_score r ==
          0.5 * similarity_score r + 0.3 * authority_score r + 0.2 * temporal_score r)%Q.
Proof.
  eexists. split; [vm_compute; reflexivity|].
  repeat split; try (vm_compute; reflexivity).
  intros H. vm_compute in H. discriminate.
Qed.

(** C2, amended: on the indexed path of the local variant and in the
    Elasticsearch variant every returned combined_score equals
    0.5 * similarity_score + 0.3 * authority_score + 0.2 * temporal_score;
    on the degraded fallback path of the local variant it equals
    0.6 * similarity_score + 0.3 * authority_score + 0.1 * temporal_score. *)
Theorem combined_score_weights_by_path :
  forall FAISS_AVAILABLE faiss_search es_search sha256_hexdigest
         (db : VectorDb.EnhancedVectorDatabase)
         (esdb : EsDb.ElasticsearchVectorDatabase)
         query top_k threshold flt hybrid now,
    Forall (fun r =>
              match VectorDb.usable_index FAISS_AVAILABLE db with
              | Some _ =>
                  combined_score r ==
                  0.5 * similarity_score r + 0.3 * authority_score r
                  + 0.2 * temporal_score r
              | None =>
                  combined_score r ==
                  0.6 * similarity_score r + 0.3 * authority_score r
                  + 0.1 * temporal_score r
              end)%Q
           (returned
              (fst (VectorDb.search_similar_chunks FAISS_AVAILABLE faiss_search
                      sha256_hexdigest db query top_k threshold flt now)))
    /\ Forall (fun r =>
                 combined_score r ==
                 0.5 * similarity_score r + 0.3 * authority_score r
                 + 0.2 * temporal_score r)%Q
              (fst (EsDb.search_similar_chunks es_search sha256_hexdigest esdb
                      query top_k threshold flt hybrid now)).
Proof.
  intros. split.
  - apply returned_Forall.
    { intros n r. by destruct (VectorDb.usable_index _ _). }
    eapply Forall_impl; [apply delivered_floor|]. by intros r [_ ?].
  - rewrite es_search_outcome. apply sort_and_rank_Forall; [done|].
    eapply Forall_impl; [apply es_delivered_floor|]. by intros r [_ ?].
Qed.

(** ** Threshold, ranks and truncation (C4) *)




(** ** The order of the results (C3) *)

Section Ties.
Context {A : Type} (key : A -> Q).

Lemma no_ties_perm l1 l2 : Permutation l1 l2 -> no_ties key l1 -> no_ties key l2.
Proof.
  intros Hp H x y Hx Hy. apply H; by rewrite Hp.
Qed.

Lemma no_ties_tail x l : no_ties key (x :: l) -> no_ties key l.
Proof.
  intros H a b Ha Hb. apply H; apply elem_of_cons; by right.
Qed.

(** Two descending arrangements of the same candidates are equal when
    there are no ties. *)
Lemma descending_unique l1 l2 :
  Permutation l1 l2 -> no_ties key l1 ->
  descending key l1 -> descending key l2 -> l1 = l2.
Proof.
  revert l2. induction l1 as [|x1 t1 IH]; intros l2 Hp Hn H1 H2.
  - by apply Permutation_nil in Hp.
  - destruct l2 as [|x2 t2].
    { symmetry in Hp. by apply Permutation_nil in Hp. }
    assert (x1 = x2) as ->.
    { assert (x1 ∈ x2 :: t2) as Hx1 by (rewrite <- Hp; apply elem_of_cons; by left).
      assert (x2 ∈ x1 :: t1) as Hx2 by (rewrite Hp; apply elem_of_cons; by left).
      apply elem_of_cons in Hx1 as [?|Hx1]; [done|].
      apply elem_of_cons in Hx2 as [?|Hx2]; [done|].
      apply StronglySorted_inv in H1 as [_ H1], H2 as [_ H2].
      rewrite Forall_forall in H1, H2.
      apply Hn; [apply elem_of_cons; by left | rewrite Hp; apply elem_of_cons; by left |].
      apply Qle_antisym; [by apply H2 | by apply H1]. }
    f_equal. apply IH.
    + by apply Permutation_cons_inv in Hp.
    + by eapply no_ties_tail.
    + by apply StronglySorted_inv in H1 as [? _].
    + by apply StronglySorted_inv in H2 as [? _].
Qed.

Lemma sort_desc_perm_invariant l1 l2 :
  Permutation l1 l2 -> no_ties key l1 ->
  Py.sort_desc key l1 = Py.sort_desc key l2.
Proof.
  intros Hp Hn. apply descending_unique.
  - by rewrite !sort_desc_perm.
  - eapply no_ties_perm; [|exact Hn]. by rewrite sort_desc_perm.
  - apply sort_desc_sorted.
  - apply sort_desc_sorted.
Qed.

(** Cutting a list keeps, of the elements with a given key, the first
    ones. *)
Lemma with_key_take_prefix q k l :
  with_key key q (Py.take k l) `prefix_of` with_key key q l.
Proof.
  assert (forall n, with_key key q (firstn n l) `prefix_of` with_key key q l)
    as Hn.
  { intros n. exists (with_key key q (skipn n l)). unfold with_key.
    by rewrite <- filter_app, firstn_skipn. }
  unfold Py.take. destruct (k <? 0)%Z; apply Hn.
Qed.
End Ties.

Section TiedResults.

Lemma with_key_unranked q (l : list RetrievalResult) :
  with_key combined_score q (map (set_rank 0) l)
  = map (set_rank 0) (with_key combined_score q l).
Proof.
  unfold with_key. induction l as [|r l IH]; [done|].
  cbn [map]. rewrite !filter_cons. cbn [combined_score set_rank].
  destruct (decide _); cbn [map]; by rewrite IH.
Qed.

(** The results that tie on a score are the first of the candidates that
    tie on it, in the order of the candidates. *)
Lemma sort_and_rank_ties k q (l : list RetrievalResult) :
  Forall (fun r => set_rank 0 r = r) l ->
  map (set_rank 0) (with_key combined_score q (sort_and_rank k l))
  `prefix_of` with_key combined_score q l.
Proof.
  intros Hl. rewrite <- with_key_unranked, sort_and_rank_of_unranked by done.
  rewrite <- (sort_desc_stable combined_score q l).
  apply with_key_take_prefix.
Qed.

Lemma local_search_returned FAISS_AVAILABLE faiss_search sha256_hexdigest
    (db : VectorDb.EnhancedVectorDatabase) query top_k threshold flt now
    results :
  fst (VectorDb.search_similar_chunks FAISS_AVAILABLE faiss_search
         sha256_hexdigest db query top_k threshold flt now) = Some results ->
  results
  = sort_and_rank top_k
      (delivered FAISS_AVAILABLE faiss_search sha256_hexdigest db query
         top_k threshold flt now).
Proof.
  rewrite local_search_outcome.
  destruct (VectorDb.usable_index _ _) as [ix|]; [|by intros [= <-]].
  destruct (_ && _); [by intros [= <-]|discriminate].
Qed.
End TiedResults.

(** C3, as stated, fails: two candidates that tie on combined_score and on
    similarity_score are returned in the order in which the index
    delivered them, not in an order of their chunk ids.  The same two
    candidates, delivered in the two possible orders, come back in two
    different orders. *)
Lemma tied_results_keep_arrival_order :
  let run hits :=
    returned
      (fst (VectorDb.search_similar_chunks true (fixed_hits hits) digest
              two_chunks_db "alpha" 10 None None 0)) in
  map (fun r => c_id (chunk r)) (run [(0.2, 0%Z); (0.2, 1%Z)]%Q)
  = ["0123456789abcdef_chunk_0000"; "0123456789abcdef_chunk_0001"]
  /\ map (fun r => c_id (chunk r)) (run [(0.2, 1%Z); (0.2, 0%Z)]%Q)
     = ["0123456789abcdef_chunk_0001"; "0123456789abcdef_chunk_0000"]
  /\ map similarity_score (run [(0.2, 1%Z); (0.2, 0%Z)]%Q)
     = map similarity_score (run [(0.2, 0%Z); (0.2, 1%Z)]%Q)
  /\ Forall (fun r => combined_score r == 0.71 /\ similarity_score r == 0.9)%Q
            (run [(0.2, 1%Z); (0.2, 0%Z)]%Q).
Proof.
  repeat split; try (vm_compute; reflexivity).
  vm_compute. repeat constructor.
Qed.

(** C3, amended: every search returns its results in descending
    combined_score.  The sort reads no other key: the results that tie on
    a combined_score are, in their order, the first of the candidates with
    that score in the order in which the backend delivered them (the hits
    of the FAISS index or of Elasticsearch in the order of the answer, the
    stored entries in the order of chunk_metadata on the fallback path);
    neither similarity_score nor the chunk id is consulted.  Hence two
    searches whose backends deliver the same candidates return the same
    list when the candidates arrive in the same order, and also when they
    arrive in different orders provided no two different candidates tie on
    combined_score. *)
Theorem results_descending_and_stable :
  forall FAISS_AVAILABLE faiss_search es_search sha256_hexdigest
         (db : VectorDb.EnhancedVectorDatabase)
         (esdb : EsDb.ElasticsearchVectorDatabase)
         query top_k threshold flt hybrid now,
    let out := returned
                 (fst (VectorDb.search_similar_chunks FAISS_AVAILABLE
                         faiss_search sha256_hexdigest db query top_k
                         threshold flt now)) in
    let es_out := fst (EsDb.search_similar_chunks es_search sha256_hexdigest esdb
                         query top_k threshold flt hybrid now) in
    let arrived := delivered FAISS_AVAILABLE faiss_search sha256_hexdigest db
                     query top_k threshold flt now in
    let es_arrived := es_delivered es_search sha256_hexdigest esdb query
                        top_k threshold flt hybrid now in
    descending combined_score out
    /\ descending combined_score es_out
    /\ (forall q,
          map (set_rank 0) (with_key combined_score q out)
          `prefix_of` with_key combined_score q arrived)
    /\ (forall q,
          map (set_rank 0) (with_key combined_score q es_out)
          `prefix_of` with_key combined_score q es_arrived)
    /\ (forall FAISS_AVAILABLE' faiss_search' sha256_hexdigest'
               (db' : VectorDb.EnhancedVectorDatabase)
               query' threshold' flt' now' results results',
          fst (VectorDb.search_similar_chunks FAISS_AVAILABLE faiss_search
                 sha256_hexdigest db query top_k threshold flt now)
          = Some results ->
          fst (VectorDb.search_similar_chunks FAISS_AVAILABLE' faiss_search'
                 sha256_hexdigest' db' query' top_k threshold' flt' now')
          = Some results' ->
          let arrived' := delivered FAISS_AVAILABLE' faiss_search'
                            sha256_hexdigest' db' query' top_k threshold'
                            flt' now' in
          (arrived = arrived' -> results = results')
          /\ (Permutation arrived arrived' ->
              no_ties combined_score arrived ->
              results = results'))
    /\ (forall es_search' sha256_hexdigest'
               (esdb' : EsDb.ElasticsearchVectorDatabase)
               query' threshold' flt' hybrid' now',
          let es_arrived' := es_delivered es_search' sha256_hexdigest' esdb'
                               query' top_k threshold' flt' hybrid' now' in
          let es_out' := fst (EsDb.search_similar_chunks es_search'
                                sha256_hexdigest' esdb' query' top_k
                                threshold' flt' hybrid' now') in
          (es_arrived = es_arrived' -> es_out = es_out')
          /\ (Permutation es_arrived es_arrived' ->
              no_ties combined_score es_arrived ->
              es_out = es_out')).
Proof.
  intros FA fs es_search sha db esdb query top_k threshold flt hybrid now
    out es_out arrived es_arrived.
  assert (out = [] \/ out = sort_and_rank top_k arrived) as Hout.
  { subst out.
    destruct (fst (VectorDb.search_similar_chunks FA fs sha db query top_k
                     threshold flt now)) as [results|] eqn:E; [|by left].
    right. by apply local_search_returned in E. }
  assert (es_out = sort_and_rank top_k es_arrived) as Hes
    by apply es_search_outcome.
  split_and!.
  - destruct Hout as [->| ->]; [constructor|apply sort_and_rank_descending].
  - rewrite Hes. apply sort_and_rank_descending.
  - intros q. destruct Hout as [->| ->]; [apply prefix_nil|].
    apply sort_and_rank_ties, delivered_unranked.
  - intros q. rewrite Hes. apply sort_and_rank_ties, es_delivered_unranked.
  - intros FA' fs' sha' db' query' threshold' flt' now' results results'
      E E' arrived'.
    apply local_search_returned in E, E'. fold arrived in E.
    fold arrived' in E'. subst results results'. split.
    + by intros ->.
    + intros Hp Hn. unfold sort_and_rank.
      by rewrite (sort_desc_perm_invariant combined_score arrived arrived').
  - intros es_search' sha' esdb' query' threshold' flt' hybrid' now'
      es_arrived' es_out'.
    assert (es_out' = sort_and_rank top_k es_arrived') as ->
      by apply es_search_outcome.
    rewrite Hes. split.
    + by intros ->.
    + intros Hp Hn. unfold sort_and_rank.
      by rewrite (sort_desc_perm_invariant combined_score es_arrived es_arrived').
Qed.

Lemma results_descending_and_stable_witness :
  let run hits :=
    fst (VectorDb.search_similar_chunks true (fixed_hits hits) digest
           two_chunks_db "alpha" 10 None None 0) in
  let arrived hits :=
    delivered true (fixed_hits hits) digest two_chunks_db "alpha" 10 None
      None 0 in
  let one := [(0.2, 0%Z); (0.4, 1%Z)]%Q in
  let other := [(0.4, 1%Z); (0.2, 0%Z)]%Q in
  Permutation (arrived one) (arrived other)
  /\ no_ties combined_score (arrived one)
  /\ List.length (arrived one) = 2
  /\ is_Some (run one)
  /\ run one = run other.
Proof.
  intros run arrived one other.
  assert (Permutation (arrived one) (arrived other)) as Hp
    by (vm_compute; apply perm_swap).
  assert (no_ties combined_score (arrived one)) as Hn.
  { intros x y Hx Hy Hq. vm_compute in Hx, Hy.
    apply elem_of_cons in Hx as [->|Hx];
      [|apply list_elem_of_singleton in Hx as ->];
      (apply elem_of_cons in Hy as [->|Hy];
       [|apply list_elem_of_singleton in Hy as ->]);
      try reflexivity; exfalso; vm_compute in Hq; discriminate. }
  split; [exact Hp|]. split; [exact Hn|].
  split; [vm_compute; reflexivity|].
  destruct (run one) as [results|] eqn:E;
    [|exfalso; vm_compute in E; discriminate].
  destruct (run other) as [results'|] eqn:E';
    [|exfalso; vm_compute in E'; discriminate].
  split; [by eexists|]. f_equal.
  exact (proj2 (proj1 (proj2 (proj2 (proj2 (proj2
           (results_descending_and_stable true (fixed_hits one) no_es_hits
              digest two_chunks_db es_db "alpha" 10%Z None None true 0%Q)))))
           true (fixed_hits other) digest two_chunks_db "alpha" None None
           0%Q results results' E E') Hp Hn).
Defined.

(** ** The temporal score (C6) *)

Lemma decay_in_bands age : in_bands age (VectorDb.decay age).
Proof. unfold in_bands. bands; repeat split; intros; lra. Qed.

Lemma decay_range age : (0 <= VectorDb.decay age <= 1)%Q.
Proof. bands; lra. Qed.

Lemma decay_antitone a b :
  (a <= b)%Q -> (VectorDb.decay b <= VectorDb.decay a)%Q.
Proof. intros H. bands; lra. Qed.

(** The age that the code computes: the time since the creation, in
    days of 86400 seconds. *)
Lemma age_days_seconds created_at current_time :
  (VectorDb.age_days created_at current_time
   == (current_time - created_at) / 86400)%Q.
Proof. unfold VectorDb.age_days. field. Qed.

Lemma decay_antitone_at a b a' b' :
  (a == a')%Q -> (b == b')%Q -> (a' <= b')%Q ->
  (VectorDb.decay b <= VectorDb.decay a)%Q.
Proof. intros Ha Hb H. apply decay_antitone. lra. Qed.

Lemma in_bands_at a a' score : (a == a')%Q -> in_bands a score -> in_bands a' score.
Proof.
  unfold in_bands. intros Ha (H1 & H2 & H3 & H4 & H5).
  split_and!; intros Hb; [apply H1|apply H2|apply H3|apply H4|apply H5]; lra.
Qed.

(** C6: in both variants the temporal score is a step function of the
    age of the chunk in days, the time between its creation and the clock
    divided by 86400 seconds (the creation time of the Elasticsearch
    variant being stored in milliseconds), and reads nothing else; its
    values lie in [0, 1]: 1.0 up to 30 days, 0.8 up to 90, 0.6 up to 365,
    0.4 up to 730 and the floor 0.2 beyond; it never increases with age,
    and equal ages give equal scores. *)
Theorem temporal_score_step_function :
  forall (e : VectorDb.ChunkEntry) (s : EsDb.EsSource) (now : Q),
    let age := ((now - VectorDb.e_created_at e) / 86400)%Q in
    let score := VectorDb._calculate_temporal_score e now in
    let es_age := ((now - EsDb.s_created_at s / 1000) / 86400)%Q in
    let es_score := EsDb._calculate_temporal_score s now in
    in_bands age score
    /\ in_bands es_age es_score
    /\ (0 <= score <= 1)%Q
    /\ (0 <= es_score <= 1)%Q
    /\ (forall e' now',
          (age <= (now' - VectorDb.e_created_at e') / 86400)%Q ->
          (VectorDb._calculate_temporal_score e' now' <= score)%Q)
    /\ (forall s' now',
          (es_age <= (now' - EsDb.s_created_at s' / 1000) / 86400)%Q ->
          (EsDb._calculate_temporal_score s' now' <= es_score)%Q)
    /\ (forall e' now',
          (age == (now' - VectorDb.e_created_at e') / 86400)%Q ->
          (VectorDb._calculate_temporal_score e' now' == score)%Q)
    /\ (forall s' now',
          (es_age == (now' - EsDb.s_created_at s' / 1000) / 86400)%Q ->
          (EsDb._calculate_temporal_score s' now' == es_score)%Q).
Proof.
  intros e s now age score es_age es_score.
  pose proof (age_days_seconds (VectorDb.e_created_at e) now) as Ha.
  pose proof (age_days_seconds (EsDb.s_created_at s / 1000) now) as Hes.
  fold age in Ha. fold es_age in Hes.
  split; [|split; [|split; [|split; [|split; [|split; [|split]]]]]].
  - eapply in_bands_at; [exact Ha|apply decay_in_bands].
  - eapply in_bands_at; [exact Hes|apply decay_in_bands].
  - apply decay_range.
  - apply decay_range.
  - intros e' now' H.
    eapply decay_antitone_at; [exact Ha|apply age_days_seconds|exact H].
  - intros s' now' H.
    eapply decay_antitone_at; [exact Hes|apply age_days_seconds|exact H].
  - intros e' now' H. apply Qle_antisym.
    + eapply decay_antitone_at; [exact Ha|apply age_days_seconds|].
      rewrite H. apply Qle_refl.
    + eapply decay_antitone_at; [apply age_days_seconds|exact Ha|].
      rewrite H. apply Qle_refl.
  - intros s' now' H. apply Qle_antisym.
    + eapply decay_antitone_at; [exact Hes|apply age_days_seconds|].
      rewrite H. apply Qle_refl.
    + eapply decay_antitone_at; [apply age_days_seconds|exact Hes|].
      rewrite H. apply Qle_refl.
Qed.

Lemma temporal_score_step_function_witness :
  let age := ((8640000 - VectorDb.e_created_at (entry_created_at 0)) / 86400)%Q in
  ((90 < age)%Q /\ (age <= 365)%Q)
  /\ (VectorDb._calculate_temporal_score (entry_created_at 0) 8640000 == 0.6)%Q.
Proof.
  intros age.
  assert ((90 < age)%Q /\ (age <= 365)%Q) as H
    by (split; vm_compute; [reflexivity|discriminate]).
  split; [exact H|].
  exact (proj1 (proj2 (proj2 (proj1
           (temporal_score_step_function (entry_created_at 0)
              (source_created_at 0) 8640000%Q)))) H).
Defined.

(** ** Context compression (C5) *)


(** What the packing loop returns: the sections that fit whole, in order,
    then at most one cut section. *)
Lemma pack_spec target scored_sections parts current :
  exists kept rest tail,
    scored_sections = kept ++ rest
    /\ Integration.pack target scored_sections parts current
       = parts ++ map snd kept ++ tail
    /\ (kept = [] \/ (current + total_len (map snd kept) <= target)%Z)
    /\ match rest with
       | [] => tail = []
       | (_, section) :: _ =>
           let remaining := (target - (current + total_len (map snd kept)))%Z in
           (remaining < Py.len section)%Z
           /\ tail = if (remaining >? 100)%Z
                     then [Py.str_take remaining section +:+ "..."]
                     else []
       end.
Proof.
  revert parts current.
  induction scored_sections as [|[score section] l IH]; intros parts current.
  - exists [], [], []. simpl. rewrite app_nil_r. by repeat split; try left.
  - simpl.
    destruct (current + Py.len section <=? target)%Z eqn:E.
    + apply Z.leb_le in E.
      destruct (IH (parts ++ [section]) (current + Py.len section)%Z)
        as (kept & rest & tail & -> & Hp & Hk & Hr).
      exists ((score, section) :: kept), rest, tail.
      split; [done|]. split; [by rewrite Hp, <- app_assoc|].
      split.
      * right. simpl. destruct Hk as [->|Hk]; simpl; lia.
      * destruct rest as [|[sc sec] rest]; [done|].
        simpl in *.
        replace (current + (Py.len section + total_len (map snd kept)))%Z
          with (current + Py.len section + total_len (map snd kept))%Z by lia.
        done.
    + apply Z.leb_gt in E.
      exists [], ((score, section) :: l),
        (if (target - current >? 100)%Z
         then [Py.str_take (target - current) section +:+ "..."] else []).
      simpl. split; [done|]. split.
      { destruct (target - current >? 100)%Z; [done|by rewrite app_nil_r]. }
      split; [by left|].
      rewrite Z.add_0_r. split; [lia|done].
Qed.

(** C5, as stated, fails twice.  The separators that join the kept
    paragraphs are not numbered against the budget: six one-letter
    paragraphs compressed to 5 characters come back as 13 characters, more
    than 5 plus the 3 of the marker.  And where exactly 100 characters of
    budget remain the paragraph is dropped, not cut and marked: a context
    of one paragraph of 101 characters, compressed to 100, becomes the
    empty string. *)
Lemma compress_context_budget_and_cut :
  let letters := Py.join Py.blank_line ["a"; "b"; "c"; "d"; "e"; "f"] in
  let context := paragraph_of 101 in
  Integration.compress_context letters 5
  = Py.join Py.blank_line ["a"; "b"; "c"; "d"; "e"]
  /\ Py.len (Integration.compress_context letters 5) = 13%Z
  /\ (13 > 5 + Py.len "...")%Z
  /\ Integration.scored context = [(0, context)]
  /\ (100 - 0 >= 100)%Z
  /\ Integration.compress_context context 100 = ""
  /\ Integration.compress_context context 100
     <> Py.str_take 100 context +:+ "...".
Proof.
  repeat split; try (vm_compute; reflexivity); try (vm_compute; discriminate).
Qed.

Section ScoredSections.

Lemma keyword_score_keywords_in section :
  Integration.keyword_score section = keywords_in section.
Proof.
  unfold Integration.keyword_score, keywords_in, Integration.security_keywords.
  rewrite !filter_cons, filter_nil.
  change (Py.lower "mitre") with "mitre".
  change (Py.lower "attack") with "attack".
  change (Py.lower "technique") with "technique".
  change (Py.lower "detection") with "detection".
  change (Py.lower "exploit") with "exploit".
  change (Py.lower "vulnerability") with "vulnerability".
  repeat match goal with
         | |- context [Py.contains ?k (Py.lower section)] =>
             destruct (Py.contains k (Py.lower section))
         end;
    repeat case_decide; try congruence; reflexivity.
Qed.

(** The sections in the order of the packing loop: each with its number
    of keywords, highest first, equal numbers in the order of the text. *)
Lemma scored_spec context :
  let sections := Py.split Py.blank_line context in
  let numbered := map (fun section => (keywords_in section, section)) sections in
  let score (x : nat * string) := inject_Z (Z.of_nat (fst x)) in
  Permutation (Integration.scored context) numbered
  /\ descending score (Integration.scored context)
  /\ forall q, with_key score q (Integration.scored context)
               = with_key score q numbered.
Proof.
  intros sections numbered score. unfold Integration.scored.
  fold sections.
  assert (map (fun section => (Integration.keyword_score section, section))
              sections = numbered) as ->.
  { apply map_ext. intros section. by rewrite keyword_score_keywords_in. }
  split; [apply sort_desc_perm|]. split; [apply sort_desc_sorted|].
  intros q. apply sort_desc_stable.
Qed.
End ScoredSections.

(** C5, amended: a context that fits is returned unchanged.  Otherwise
    the paragraphs are taken in descending number of security keywords
    that occur in them (mitre, attack, technique, detection, exploit,
    vulnerability, whatever the case), paragraphs with the same number in
    the order of the text; the result joins, with blank lines, the
    paragraphs that fit whole, in that order, up to the first one that
    does not fit; that paragraph is cut to the remaining budget and
    followed by the three-character marker "..." only when more than 100
    characters of budget remain, and dropped otherwise, and every later
    paragraph is dropped.  The kept paragraphs, without the separators
    between them, have at most target_length characters in total, and at
    most target_length + 3 together with the cut one. *)
Theorem compress_context_truncation_rule :
  forall (context : string) (target_length : Z),
  exists kept rest tail,
    let sections := Py.split Py.blank_line context in
    let numbered := map (fun section => (keywords_in section, section)) sections in
    let score (x : nat * string) := inject_Z (Z.of_nat (fst x)) in
    Permutation (kept ++ rest) numbered
    /\ descending score (kept ++ rest)
    /\ (forall q, with_key score q (kept ++ rest) = with_key score q numbered)
    /\ Integration.compress_context context target_length
       = (if (Py.len context <=? target_length)%Z then context
          else Py.join Py.blank_line (map snd kept ++ tail))
    /\ (kept = [] \/ (total_len (map snd kept) <= target_length)%Z)
    /\ match rest with
       | [] => tail = []
       | (_, section) :: _ =>
           let remaining := (target_length - total_len (map snd kept))%Z in
           (remaining < Py.len section)%Z
           /\ tail = if (remaining >? 100)%Z
                     then [Py.str_take remaining section +:+ "..."]
                     else []
       end
    /\ (total_len (map snd kept ++ tail) <= Z.max 0 (target_length + 3))%Z.
Proof.
  intros context target_length.
  destruct (pack_spec target_length (Integration.scored context) [] 0%Z)
    as (kept & rest & tail & Hs & Hp & Hk & Hr).
  exists kept, rest, tail.
  rewrite Z.add_0_l in Hk, Hr. simpl in Hp.
  destruct (scored_spec context) as (Hperm & Hdesc & Hstable).
  rewrite Hs in Hperm, Hdesc, Hstable.
  split; [done|]. split; [done|]. split; [done|]. split.
  { unfold Integration.compress_context.
    destruct (Py.len context <=? target_length)%Z; [done|]. by rewrite Hp. }
  split; [done|]. split; [done|].
  rewrite total_len_app.
  pose proof (total_len_nonneg (map snd kept)) as Hnn.
  destruct rest as [|[sc section] rest].
  - subst tail. simpl. destruct Hk as [->|Hk]; simpl; lia.
  - destruct Hr as [_ ->].
    destruct (target_length - total_len (map snd kept) >? 100)%Z eqn:E.
    + apply Z.gtb_lt in E. rewrite total_len_singleton, len_append.
      pose proof (len_str_take (target_length - total_len (map snd kept)) section).
      change (Py.len "...") with 3%Z. lia.
    + simpl. destruct Hk as [->|Hk]; simpl; lia.
Qed.

(** ** Embeddings (C7, C8) *)

Section EmbeddingFacts.
Variable sha256_hexdigest : string -> string.

Lemma batches_go_concat {A} fuel step (l : list A) :
  0 < step -> List.length l <= fuel ->
  concat (batches_go fuel step l) = l.
Proof.
  intros Hs. revert l. induction fuel as [|fuel IH]; intros [|x l] Hl;
    simpl in *; try done; try lia.
  destruct step as [|step]; [lia|].
  change (x :: firstn step l ++ concat (batches_go fuel (S step) (skipn step l))
          = x :: l).
  rewrite IH.
  - by rewrite firstn_skipn.
  - rewrite length_skipn. lia.
Qed.

Lemma batches_concat {A} step (l : list A) : concat (batches step l) = l.
Proof. apply batches_go_concat; lia. Qed.

Lemma fold_encode_batch m bs acc em :
  fold_left (encode_batch m) bs (acc, em)
  = (acc ++ map (encode m) (concat bs), Nat.iter (List.length bs) count_encode em).
Proof.
  revert acc em. induction bs as [|b bs IH]; intros acc em; simpl.
  - by rewrite app_nil_r.
  - rewrite IH, map_app, app_assoc. f_equal.
    clear. induction (List.length bs) as [|n IHn]; simpl; [done|].
    by rewrite IHn.
Qed.

Lemma iter_count_encode n em :
  embedding_cache (Nat.iter n count_encode em) = embedding_cache em
  /\ encode_calls (Nat.iter n count_encode em) = encode_calls em + n.
Proof.
  induction n as [|n [IH1 IH2]]; simpl; [split; [done|lia]|].
  split; [done|lia].
Qed.

Lemma embed_batch_with_model em m texts batch_size :
  model em = Some m ->
  fst (embed_batch em texts batch_size) = map (encode m) texts
  /\ embedding_cache (snd (embed_batch em texts batch_size)) = embedding_cache em
  /\ encode_calls (snd (embed_batch em texts batch_size))
     = encode_calls em + List.length (batches batch_size texts).
Proof.
  intros Hm. unfold embed_batch. rewrite Hm, fold_encode_batch. simpl.
  rewrite batches_concat. split; [done|]. apply iter_count_encode.
Qed.

Lemma embed_text_hit em m text stored :
  model em = Some m ->
  embedding_cache em !! get_text_hash sha256_hexdigest text = Some stored ->
  embed_text sha256_hexdigest em text true = (stored, em).
Proof. intros Hm Hc. unfold embed_text. by rewrite Hm, Hc. Qed.

Lemma embed_text_miss em m text :
  model em = Some m ->
  embedding_cache em !! get_text_hash sha256_hexdigest text = None ->
  fst (embed_text sha256_hexdigest em text true) = encode m text.
Proof. intros Hm Hc. unfold embed_text. by rewrite Hm, Hc. Qed.
End EmbeddingFacts.

(** C7, as stated, fails without a model: the manager built when
    sentence-transformers is missing answers two calls on the same text
    with two successive draws of the random generator. *)
Lemma embed_text_without_model_differs :
  let first := embed_text digest manager_without_model "credential dumping" true in
  let second := embed_text digest (snd first) "credential dumping" true in
  hd 0%Q (fst first) = (0 # 1000)%Q
  /\ hd 0%Q (fst second) = (384 # 1000)%Q
  /\ fst first <> fst second.
Proof.
  split; [vm_compute; reflexivity|]. split; [vm_compute; reflexivity|].
  intros H. apply (f_equal (hd 0%Q)) in H. vm_compute in H. discriminate.
Qed.

(** C7, amended: when the model is loaded, two invocations of embed_text
    with the same text return equal vectors (the model being a function of
    the text); when it is not, each invocation returns the next
    embedding_dim samples of the random generator, so the second vector
    is the draw that follows the first. *)
Theorem embed_text_twice :
  forall sha256_hexdigest (em : EnhancedEmbeddingManager) text use_cache,
    let first := embed_text sha256_hexdigest em text use_cache in
    let second := embed_text sha256_hexdigest (snd first) text use_cache in
    (is_Some (model em) -> fst first = fst second)
    /\ (model em = None ->
        fst first
        = map (tape (np_random em))
              (seq (cursor (np_random em)) (embedding_dim em))
        /\ fst second
           = map (tape (np_random em))
                 (seq (cursor (np_random em) + embedding_dim em) (embedding_dim em))).
Proof.
  intros sha em text use_cache first second. subst first second. split.
  - intros [m Hm]. unfold embed_text. rewrite Hm.
    destruct use_cache.
    + destruct (embedding_cache em !! get_text_hash sha text) as [v|] eqn:Hc;
        simpl; rewrite Hm; simpl.
      * by rewrite Hc.
      * by rewrite lookup_insert_eq.
    + simpl. by rewrite Hm.
  - intros Hm. unfold embed_text. rewrite Hm. simpl. by rewrite Hm.
Qed.

Lemma embed_text_twice_witness :
  is_Some (model manager_with_model)
  /\ fst (embed_text digest manager_with_model "credential dumping" true)
     = fst (embed_text digest
              (snd (embed_text digest manager_with_model "credential dumping" true))
              "credential dumping" true).
Proof.
  assert (is_Some (model manager_with_model)) as H by (by eexists).
  split; [exact H|].
  exact (proj1 (embed_text_twice digest manager_with_model
                  "credential dumping" true) H).
Defined.

(** C8, as stated, fails.  With the model loaded, a text that embed_text
    has just cached is encoded again by embed_batch, which never looks
    into the cache.  Without a model, the batch vector and the single
    vector of the same text are two different random draws. *)
Lemma embed_batch_bypasses_cache :
  let cached := snd (embed_text digest manager_with_model "lsass" true) in
  let batch := embed_batch cached ["lsass"] default_batch_size in
  let degraded := embed_batch manager_without_model ["lsass"] default_batch_size in
  is_Some (embedding_cache cached !! get_text_hash digest "lsass")
  /\ encode_calls cached = 1
  /\ encode_calls (snd batch) = 2
  /\ fst degraded !! 0
     <> Some (fst (embed_text digest (snd degraded) "lsass" true)).
Proof.
  split; [vm_compute; by eexists|].
  split; [vm_compute; reflexivity|]. split; [vm_compute; reflexivity|].
  intros H. apply (f_equal (fun o => hd 0%Q (default [] o))) in H.
  vm_compute in H. discriminate.
Qed.

(** C8, amended: with the model loaded, embed_batch(texts)[i] is the
    model's encoding of texts[i] for every position i; embed_batch never
    reads or writes the cache and invokes the model once per batch.
    embed_text returns the stored vector, without invoking the model, for
    a text whose content hash is in the cache.  Hence
    embed_batch(texts)[i] equals embed_text(texts[i]) whenever the cache
    holds nothing under the hash of texts[i], or holds the model's
    encoding of texts[i]. *)
Theorem batch_and_single_embedding :
  forall sha256_hexdigest (em : EnhancedEmbeddingManager) m texts batch_size,
    model em = Some m ->
    let batch := embed_batch em texts batch_size in
    fst batch = map (encode m) texts
    /\ embedding_cache (snd batch) = embedding_cache em
    /\ encode_calls (snd batch)
       = encode_calls em + List.length (batches batch_size texts)
    /\ forall i text,
         texts !! i = Some text ->
         let key := get_text_hash sha256_hexdigest text in
         (forall stored,
            embedding_cache em !! key = Some stored ->
            embed_text sha256_hexdigest em text true = (stored, em))
         /\ (embedding_cache em !! key = None
             \/ embedding_cache em !! key = Some (encode m text) ->
             fst batch !! i
             = Some (fst (embed_text sha256_hexdigest em text true))).
Proof.
  intros sha em m texts batch_size Hm batch. subst batch.
  destruct (embed_batch_with_model em m texts batch_size Hm) as (Hv & Hc & Hn).
  split; [done|]. split; [done|]. split; [done|].
  intros i text Hi key. split.
  - intros stored Hs. by eapply embed_text_hit.
  - intros H. rewrite Hv.
    assert (fst (embed_text sha em text true) = encode m text) as ->.
    { destruct H as [H|H].
      - by eapply embed_text_miss.
      - by erewrite embed_text_hit. }
    change (map (encode m) texts) with (encode m <$> texts).
    by rewrite list_lookup_fmap, Hi.
Qed.

Lemma batch_and_single_embedding_witness :
  model manager_with_model = Some length_model
  /\ fst (embed_batch manager_with_model ["lsass"; "mimikatz"] default_batch_size)
     = map (encode length_model) ["lsass"; "mimikatz"].
Proof.
  split; [reflexivity|].
  exact (proj1 (batch_and_single_embedding digest manager_with_model length_model
                  ["lsass"; "mimikatz"] default_batch_size eq_refl)).
Defined.

(** ** The unavailable backend (C10) *)

(** C10: when the Elasticsearch backend is unavailable, add_document
    returns 0, search_similar_chunks returns the empty list and
    delete_document returns False; each is an ordinary return value, the
    exception of a failed call being caught inside the operation.  With
    the client absent the database is left as it was. *)
Theorem unavailable_backend_results :
  forall es_search sha256_hexdigest (db : EsDb.ElasticsearchVectorDatabase)
         document chunk_processor query top_k threshold flt hybrid
         document_id now indexed_at,
    unavailable db ->
    let added := EsDb.add_document db document chunk_processor now
                   indexed_at in
    let found := EsDb.search_similar_chunks es_search sha256_hexdigest db
                   query top_k threshold flt hybrid now in
    let deleted := EsDb.delete_document db document_id in
    fst added = 0
    /\ fst found = []
    /\ fst deleted = false
    /\ (EsDb.es db = None ->
        snd added = db /\ snd found = db /\ snd deleted = db).
Proof.
  intros es_search sha db document chunk_processor query top_k threshold flt
    hybrid document_id now indexed_at Hu added found deleted.
  subst added found deleted. unfold unavailable in Hu.
  unfold EsDb.add_document, EsDb.search_similar_chunks, EsDb.delete_document,
    EsDb.search, EsDb.bulk, EsDb.delete_by_document_id.
  destruct (EsDb.es db) as [client|]; [|done].
  rewrite Hu. repeat split; try done.
  - destruct (create_chunks _ _ _); [done|].
    by destruct (embed_batch _ _ _).
  - by destruct (embed_text _ _ _ _).
Qed.

Lemma unavailable_backend_results_witness :
  unavailable es_db_unavailable
  /\ fst (EsDb.add_document es_db_unavailable (document "alpha") processor
            0 1) = 0
  /\ fst (EsDb.search_similar_chunks no_es_hits digest es_db_unavailable
            "alpha" 10 None None true 0) = []
  /\ fst (EsDb.delete_document es_db_unavailable "0123456789abcdef") = false.
Proof.
  assert (unavailable es_db_unavailable) as H by exact I.
  split; [exact H|].
  pose proof (unavailable_backend_results no_es_hits digest es_db_unavailable
                (document "alpha") processor "alpha" 10%Z None None true
                "0123456789abcdef" 0%Q 1%Q H) as (Ha & Hf & Hd & _).
  by repeat split.
Defined.

(** ** Re-ingestion (C9) *)

Section DictFacts.
Context {K V : Type} `{EqDecision K}.

Lemma dict_set_fresh (k : K) (v : V) d :
  k ∉ map fst d -> Py.dict_set k v d = d ++ [(k, v)].
Proof.
  induction d as [|[k' v'] d IH]; simpl; intros Hk; [done|].
  apply not_elem_of_cons in Hk as [Hne Hk].
  destruct (decide (k = k')); [done|]. by rewrite IH.
Qed.


Lemma dict_set_key (k : K) (v : V) d : k ∈ map fst (Py.dict_set k v d).
Proof.
  induction d as [|[k' v'] d IH]; simpl.
  - apply elem_of_cons. by left.
  - destruct (decide (k = k')); simpl; apply elem_of_cons; auto.
Qed.
End DictFacts.

Section LocalIngestion.
Variable FAISS_AVAILABLE : bool.

Lemma add_chunk_to_index_ok db chunk embedding db' :
  positions_below_next db ->
  VectorDb.add_chunk_to_index FAISS_AVAILABLE db chunk embedding = (true, db') ->
  positions_below_next db'
  /\ VectorDb.get_chunk_count db' = VectorDb.get_chunk_count db + 1
  /\ VectorDb.document_registry db' = VectorDb.document_registry db.
Proof.
  intros Hwf. unfold VectorDb.add_chunk_to_index.
  assert (VectorDb.next_index db ∉ map fst (VectorDb.chunk_metadata db)) as Hfresh.
  { intros Hin. unfold positions_below_next in Hwf.
    rewrite Forall_forall in Hwf. apply Hwf in Hin. lia. }
  rewrite (dict_set_fresh _ _ _ Hfresh).
  assert (forall db'',
            VectorDb.chunk_metadata db''
            = VectorDb.chunk_metadata db ++ [(VectorDb.next_index db,
                {| VectorDb.e_chunk_id := c_id chunk;
                   VectorDb.e_content := c_content chunk;
                   VectorDb.e_source := c_source chunk;
                   VectorDb.e_document_id := c_document_id chunk;
                   VectorDb.e_chunk_index := c_chunk_index chunk;
                   VectorDb.e_metadata := c_metadata chunk;
                   VectorDb.e_created_at := c_created_at chunk;
                   VectorDb.e_index_position := VectorDb.next_index db |})] ->
            VectorDb.next_index db'' = (VectorDb.next_index db + 1)%Z ->
            positions_below_next db''
            /\ VectorDb.get_chunk_count db'' = VectorDb.get_chunk_count db + 1) as Hstep.
  { intros db'' Hm Hn. unfold positions_below_next, VectorDb.get_chunk_count.
    rewrite Hm, Hn, map_app, length_app. simpl. split; [|done].
    apply Forall_app. split.
    - eapply Forall_impl; [exact Hwf|]. simpl. intros. lia.
    - repeat constructor. lia. }
  destruct (VectorDb.usable_index FAISS_AVAILABLE db) as [ix|].
  - destruct (VectorDb.faiss_add ix embedding); intros [= <-].
    split_and!; [by apply Hstep..|done].
  - intros [= <-]. split_and!; [by apply Hstep..|done].
Qed.

Lemma add_chunk_to_index_registry db chunk embedding :
  VectorDb.document_registry
    (snd (VectorDb.add_chunk_to_index FAISS_AVAILABLE db chunk embedding))
  = VectorDb.document_registry db.
Proof.
  unfold VectorDb.add_chunk_to_index.
  destruct (VectorDb.usable_index FAISS_AVAILABLE db) as [ix|]; [|done].
  by destruct (VectorDb.faiss_add ix embedding).
Qed.

(** The loop over the chunks: it cannot count more than it was given,
    and when it counts them all, each went to a fresh position. *)
Lemma fold_add_one l : forall chunk_count db chunk_count' db',
  fold_left (VectorDb.add_one FAISS_AVAILABLE) l (chunk_count, db)
  = (chunk_count', db') ->
  chunk_count' <= chunk_count + List.length l
  /\ VectorDb.document_registry db' = VectorDb.document_registry db
  /\ (chunk_count' = chunk_count + List.length l ->
      positions_below_next db ->
      positions_below_next db'
      /\ VectorDb.get_chunk_count db'
         = VectorDb.get_chunk_count db + List.length l).
Proof.
  induction l as [|[chunk embedding] l IH]; intros c db c' db' Hf; simpl in *.
  - injection Hf as <- <-. split; [lia|]. split; [done|]. intros _ Hwf.
    split; [done|lia].
  - pose proof (add_chunk_to_index_registry db chunk embedding) as Hreg.
    destruct (VectorDb.add_chunk_to_index FAISS_AVAILABLE db chunk embedding)
      as [ok db1] eqn:Hadd.
    apply IH in Hf as (Hle & Hr & Hall). simpl in Hreg.
    split; [destruct ok; lia|]. split; [congruence|].
    intros Hc Hwf. destruct ok; simpl in *; [|lia].
    apply add_chunk_to_index_ok in Hadd as (Hwf1 & Hn1 & _); [|done].
    destruct Hall as [Hwf' Hn']; [lia|done|].
    split; [done|lia].
Qed.

End LocalIngestion.

Section EsIngestion.

Lemma fold_random_one_length texts : forall acc em,
  List.length (fst (fold_left random_one texts (acc, em)))
  = List.length acc + List.length texts.
Proof.
  induction texts as [|t texts IH]; intros acc em; simpl; [lia|].
  destruct (np_random_random (embedding_dim em) (np_random em)) as [v g].
  rewrite IH, length_app. simpl. lia.
Qed.

Lemma embed_batch_length em texts batch_size :
  List.length (fst (embed_batch em texts batch_size)) = List.length texts.
Proof.
  destruct (model em) as [m|] eqn:Hm.
  - destruct (embed_batch_with_model em m texts batch_size Hm) as [-> _].
    apply length_map.
  - unfold embed_batch. rewrite Hm. by rewrite fold_random_one_length.
Qed.


Lemma bulk_dom (docs : list (string * EsDb.EsSource)) :
  forall m : gmap string EsDb.EsSource,
    dom (fold_left (fun m '(_id, body) => <[_id := body]> m) docs m)
    =@{gset string} dom m ∪ list_to_set (map fst docs).
Proof.
  induction docs as [|[k v] docs IH]; intros m; simpl.
  - set_solver.
  - rewrite IH, dom_insert_L. set_solver.
Qed.

Lemma map_fst_combine_full {A B} (l : list A) (l' : list B) :
  List.length l = List.length l' -> map fst (combine l l') = l.
Proof.
  revert l'. induction l as [|x l IH]; intros [|y l'] Hl; simpl in *;
    try done. f_equal. apply IH. lia.
Qed.

(** What one ingestion does to a reachable index: nothing for a
    document without chunks, and otherwise the addition of the
    document's chunk ids to the ids of the index. *)
Lemma es_add_document_dom db client document chunk_processor now indexed_at :
  EsDb.es db = Some client ->
  EsDb.es_reachable client = true ->
  let added := EsDb.add_document db document chunk_processor now indexed_at in
  let ids := map c_id (create_chunks chunk_processor document now) in
  fst added = List.length ids
  /\ exists client',
       EsDb.es (snd added) = Some client'
       /\ EsDb.es_reachable client' = true
       /\ dom (EsDb.es_docs client')
          = dom (EsDb.es_docs client) ∪ list_to_set ids.
Proof.
  intros He Hr. unfold EsDb.add_document. rewrite He.
  destruct (create_chunks chunk_processor document now) as [|c0 chunks] eqn:Hc.
  { simpl. split; [done|]. exists client. rewrite He. split_and!; try done.
    set_solver. }
  pose proof (embed_batch_length (EsDb.embedding_manager db)
                (map c_content (c0 :: chunks)) default_batch_size) as Hlen.
  destruct (embed_batch _ _ _) as [embeddings em].
  rewrite length_map in Hlen. cbn [fst] in Hlen.
  cbv beta match.
  remember (c0 :: chunks) as cs eqn:Hcs.
  unfold EsDb.bulk. rewrite Hr.
  match goal with |- context [map ?f (combine cs embeddings)] =>
    set (body := f) end.
  assert (map fst (map body (combine cs embeddings)) = map c_id cs) as Hids.
  { transitivity (map c_id (map fst (combine cs embeddings))).
    - rewrite !map_map. apply map_ext. by intros [chunk embedding].
    - by rewrite map_fst_combine_full. }
  cbn [fst snd].
  split.
  - rewrite <- Hids. by rewrite !length_map.
  - eexists. split; [reflexivity|]. split; [done|]. cbn [EsDb.es_docs].
    by rewrite bulk_dom, Hids.
Qed.
End EsIngestion.




(* ================================================================== *)
(** * Further properties of the code *)
(* ================================================================== *)

(** ** Chunking *)

Lemma smart_chunk_text_overshoot_witness :
  "Hello World" ∈ smart_chunk_text 1024 "Hello. World. Bye" (Some 10%Z)
  /\ bounded_or_sentence 10 "Hello. World. Bye" "Hello World".
Proof.
  assert ("Hello World" ∈ smart_chunk_text 1024 "Hello. World. Bye" (Some 10%Z))
    as H by (vm_compute; apply elem_of_cons; by left).
  split; [exact H|].
  exact (smart_chunk_text_overshoot 1024 "Hello. World. Bye" (Some 10%Z)
           "Hello World" H).
Defined.

Section ChunkShape.
Variable chunk_size : Z.

Lemma flush_stripped st :
  Forall (fun c => Py.strip c = c) (fst st) ->
  Forall (fun c => Py.strip c = c) (flush st).
Proof.
  destruct st as [chunks cur]. simpl. intros H. unfold flush.
  destruct (Py.truthy cur); [|done].
  apply Forall_app. split; [done|].
  constructor; [apply strip_idem|constructor].
Qed.

Lemma sentence_step_stripped st sentence :
  Forall (fun c => Py.strip c = c) (fst st) ->
  Forall (fun c => Py.strip c = c) (fst (sentence_step chunk_size st sentence)).
Proof.
  intros H. unfold sentence_step.
  destruct (Py.truthy (Py.strip sentence)); simpl; [|done].
  destruct st as [chunks cur].
  destruct (_ >? _)%Z; simpl; [by apply (flush_stripped (chunks, cur))|done].
Qed.

Lemma paragraph_step_stripped st paragraph :
  Forall (fun c => Py.strip c = c) (fst st) ->
  Forall (fun c => Py.strip c = c) (fst (paragraph_step chunk_size st paragraph)).
Proof.
  intros H. unfold paragraph_step.
  destruct (Py.len paragraph >? chunk_size)%Z.
  - revert st H. induction (Py.re_split_terminators paragraph) as [|s l IH];
      intros st H; simpl; [done|].
    by apply IH, sentence_step_stripped.
  - destruct st as [chunks cur].
    destruct (_ >? _)%Z; simpl; [by apply (flush_stripped (chunks, cur))|done].
Qed.
End ChunkShape.

(** Every chunk that smart_chunk_text returns is non-empty and has no
    white space at either end. *)
Theorem smart_chunk_text_chunks_stripped :
  forall default_chunk_size content chunk_size chunk,
    chunk ∈ smart_chunk_text default_chunk_size content chunk_size ->
    chunk <> "" /\ Py.strip chunk = chunk.
Proof.
  intros d content k chunk. unfold smart_chunk_text.
  intros Hin. apply list_elem_of_filter in Hin as [Ht Hin].
  assert (Py.strip chunk = chunk) as Hs.
  { revert chunk Hin Ht. cut (forall st,
        Forall (fun c => Py.strip c = c) (fst st) ->
        Forall (fun c => Py.strip c = c)
          (flush (fold_left (paragraph_step (default d k))
                    (Py.split Py.blank_line content) st))).
    { intros HF chunk Hin _.
      specialize (HF ([], EmptyString) (List.Forall_nil _)).
      rewrite Forall_forall in HF. by apply HF. }
    induction (Py.split Py.blank_line content) as [|p ps IH];
      intros st Hst; simpl; [by apply flush_stripped|].
    by apply IH, paragraph_step_stripped. }
  split; [|done]. intros ->. by rewrite <- Hs in Ht.
Qed.

Lemma smart_chunk_text_chunks_stripped_witness :
  "Hello World" ∈ smart_chunk_text 1024 "Hello. World. Bye" (Some 10%Z)
  /\ "Hello World" <> "" /\ Py.strip "Hello World" = "Hello World".
Proof.
  assert ("Hello World" ∈ smart_chunk_text 1024 "Hello. World. Bye" (Some 10%Z))
    as H by (vm_compute; apply elem_of_cons; by left).
  split; [exact H|].
  exact (smart_chunk_text_chunks_stripped 1024 "Hello. World. Bye" (Some 10%Z)
           "Hello World" H).
Defined.

Section Blank.

Lemma all_space_append s1 s2 :
  all_space (s1 +:+ s2) = all_space s1 && all_space s2.
Proof.
  induction s1 as [|c s1 IH]; simpl; [done|].
  rewrite IH. by destruct (Py.isspace c).
Qed.

Lemma all_space_strip s : all_space s = true -> Py.strip s = "".
Proof.
  unfold Py.strip. induction s as [|c s IH]; simpl; [done|].
  intros [Hc Hs]%andb_prop. rewrite Hc. by apply IH.
Qed.

Lemma cons_head_all_space c ps :
  Py.isspace c = true ->
  Forall (fun p => all_space p = true) ps ->
  Forall (fun p => all_space p = true) (Py.cons_head c ps).
Proof.
  intros Hc [|p ps' Hp Hps]; simpl.
  - repeat constructor. simpl. by rewrite Hc.
  - constructor; [|done]. simpl. by rewrite Hc, Hp.
Qed.

Lemma split_go_all_space sep s : forall skip,
  all_space s = true ->
  Forall (fun p => all_space p = true) (Py.split_go sep skip s).
Proof.
  induction s as [|c s IH]; intros skip; simpl.
  - by repeat constructor.
  - intros [Hc Hs]%andb_prop. destruct skip as [|skip]; [|by apply IH].
    match goal with |- context [if ?b then _ else _] => destruct b end.
    + constructor; [done|]. by apply IH.
    + apply cons_head_all_space; [done|]. by apply IH.
Qed.

Lemma re_split_all_space s : forall in_run,
  all_space s = true ->
  Forall (fun p => all_space p = true) (Py.re_split_terminators_go in_run s).
Proof.
  induction s as [|c s IH]; intros in_run; simpl.
  - by repeat constructor.
  - intros [Hc Hs]%andb_prop.
    destruct (Py.is_terminator c).
    + destruct in_run; [by apply IH|]. constructor; [done|]. by apply IH.
    + apply cons_head_all_space; [done|]. by apply IH.
Qed.

Lemma flush_idle st : chunker_idle st -> Forall (fun c => c = "") (flush st).
Proof.
  destruct st as [chunks cur]. intros [Hc Hs]. simpl in *. unfold flush.
  destruct (Py.truthy cur); [|done].
  apply Forall_app. split; [done|].
  constructor; [by apply all_space_strip|constructor].
Qed.

Lemma sentence_step_idle chunk_size st sentence :
  all_space sentence = true -> chunker_idle st ->
  chunker_idle (sentence_step chunk_size st sentence).
Proof.
  intros Hs Hst. unfold sentence_step. by rewrite (all_space_strip _ Hs).
Qed.

Lemma paragraph_step_idle chunk_size st paragraph :
  all_space paragraph = true -> chunker_idle st ->
  chunker_idle (paragraph_step chunk_size st paragraph).
Proof.
  intros Hp Hst. unfold paragraph_step.
  destruct (Py.len paragraph >? chunk_size)%Z.
  - pose proof (re_split_all_space paragraph false Hp) as Hall.
    unfold Py.re_split_terminators.
    revert st Hst. induction Hall as [|s l Hs Hl IH]; intros st Hst; simpl; [done|].
    by apply IH, sentence_step_idle.
  - destruct st as [chunks cur].
    destruct (_ >? _)%Z.
    + split; [by apply (flush_idle (chunks, cur))|done].
    + destruct Hst as [Hc Hcur]. split; [done|]. simpl in *.
      destruct (Py.truthy cur); [|done].
      by rewrite !all_space_append, Hcur, Hp.
Qed.

Lemma smart_chunk_text_blank default_chunk_size content chunk_size :
  all_space content = true ->
  smart_chunk_text default_chunk_size content chunk_size = [].
Proof.
  intros Hc. unfold smart_chunk_text.
  pose proof (split_go_all_space Py.blank_line content 0 Hc) as Hall.
  fold (Py.split Py.blank_line content) in Hall.
  assert (forall st, chunker_idle st ->
            chunker_idle (fold_left (paragraph_step (default default_chunk_size chunk_size))
                    (Py.split Py.blank_line content) st)) as Hfold.
  { induction Hall as [|p ps Hp Hps IH]; intros st Hst; simpl; [done|].
    by apply IH, paragraph_step_idle. }
  specialize (Hfold ([], "")). 
  assert (chunker_idle ([], "")) as H0 by (split; [constructor|done]).
  apply Hfold, flush_idle in H0.
  induction H0 as [|c l -> Hl IH]; [done|].
  rewrite filter_cons. by destruct (decide _).
Qed.
End Blank.

(** A document whose text is only white space has no chunks: both
    add_document operations report 0 chunks, the indices keep their
    content, and the local variant still registers the document. *)
Theorem blank_document_adds_nothing :
  forall FAISS_AVAILABLE (db : VectorDb.EnhancedVectorDatabase)
         (esdb : EsDb.ElasticsearchVectorDatabase)
         document chunk_processor now indexed_at,
    all_space (d_content document) = true ->
    let added := VectorDb.add_document FAISS_AVAILABLE db document
                   chunk_processor now in
    create_chunks chunk_processor document now = []
    /\ fst added = 0
    /\ VectorDb.chunk_metadata (snd added) = VectorDb.chunk_metadata db
    /\ VectorDb.index (snd added) = VectorDb.index db
    /\ d_id document ∈ map fst (VectorDb.document_registry (snd added))
    /\ EsDb.add_document esdb document chunk_processor now indexed_at
       = (0, esdb).
Proof.
  intros FA db esdb document chunk_processor now indexed_at Hb added.
  assert (create_chunks chunk_processor document now = []) as Hc.
  { unfold create_chunks. by rewrite smart_chunk_text_blank. }
  subst added. unfold VectorDb.add_document, EsDb.add_document. rewrite Hc.
  simpl. split_and!; try done.
  - apply dict_set_key.
  - by destruct (EsDb.es esdb).
Qed.

Lemma blank_document_adds_nothing_witness :
  all_space (d_content (document "  ")) = true
  /\ create_chunks processor (document "  ") 0 = []
  /\ fst (VectorDb.add_document false local_db (document "  ") processor 0) = 0.
Proof.
  assert (all_space (d_content (document "  ")) = true) as H by reflexivity.
  pose proof (blank_document_adds_nothing false local_db es_db
                (document "  ") processor 0%Q 1%Q H) as (H1 & H2 & _).
  split; [exact H|]. split; [exact H1 | exact H2].
Defined.

(** ** Chunks and their ids *)

Section ChunkIds.

Lemma all_digits_append s1 s2 :
  all_digits (s1 +:+ s2) = all_digits s1 && all_digits s2.
Proof.
  induction s1 as [|c s1 IH]; simpl; [done|].
  rewrite IH. by destruct (is_digit c).
Qed.

Lemma all_digits_zeros n : all_digits (Py.zeros n) = true.
Proof. induction n as [|n IH]; simpl; [done|]. by rewrite IH. Qed.

Lemma all_digits_string_of_uint d :
  all_digits (NilEmpty.string_of_uint d) = true.
Proof. induction d; simpl; try done; by rewrite IHd. Qed.

Lemma all_digits_format_04d i : all_digits (Py.format_04d i) = true.
Proof.
  unfold Py.format_04d, Py.str_of_nat.
  by rewrite all_digits_append, all_digits_zeros, all_digits_string_of_uint.
Qed.

Lemma int_of_string_zeros n s :
  int_of_string (Py.zeros n +:+ s) = int_of_string s.
Proof.
  induction n as [|n IH]; simpl; [done|].
  unfold int_of_string in *. simpl.
  destruct (NilEmpty.uint_of_string (Py.zeros n +:+ s)) as [d|];
    destruct (NilEmpty.uint_of_string s) as [d'|]; simpl in *; try done.
Qed.

(** Reading back a formatted index gives the index. *)
Lemma int_of_string_format_04d i : int_of_string (Py.format_04d i) = Some i.
Proof.
  unfold Py.format_04d, Py.str_of_nat. rewrite int_of_string_zeros.
  unfold int_of_string. rewrite NilEmpty.usu. simpl.
  by rewrite DecimalNat.Unsigned.of_to.
Qed.

Lemma format_04d_inj i j : Py.format_04d i = Py.format_04d j -> i = j.
Proof.
  intros H. apply (f_equal int_of_string) in H.
  rewrite !int_of_string_format_04d in H. by injection H.
Qed.

Lemma length_append (s1 s2 : string) :
  String.length (s1 +:+ s2) = String.length s1 + String.length s2.
Proof. induction s1 as [|c s1 IH]; simpl; [done|]. by rewrite IH. Qed.

Lemma length_digit_suffix s : String.length (digit_suffix s) <= String.length s.
Proof.
  induction s as [|c s IH]; simpl; [done|].
  destruct (is_digit c && _); simpl; lia.
Qed.

Lemma digit_suffix_all_digits t : all_digits t = true -> digit_suffix t = t.
Proof.
  induction t as [|c t IH]; simpl; [done|].
  intros [Hc Ht]%andb_prop. rewrite (IH Ht), Hc, Nat.eqb_refl. done.
Qed.

Lemma digit_suffix_append s c t :
  is_digit c = false -> all_digits t = true ->
  digit_suffix (s +:+ String c t) = t.
Proof.
  intros Hc Ht. induction s as [|a s IH]; simpl.
  - rewrite Hc. simpl. by apply digit_suffix_all_digits.
  - rewrite IH.
    assert ((String.length t =? String.length (s +:+ String c t)) = false) as ->.
    { apply Nat.eqb_neq. rewrite length_append. simpl. lia. }
    by rewrite andb_false_r.
Qed.

Lemma append_assoc (s1 s2 s3 : string) :
  (s1 +:+ s2) +:+ s3 = s1 +:+ (s2 +:+ s3).
Proof.
  induction s1 as [|c s1 IH]; [done|].
  change (String c ((s1 +:+ s2) +:+ s3) = String c (s1 +:+ (s2 +:+ s3))).
  by rewrite IH.
Qed.

Lemma append_inj_r (s1 s2 t : string) : s1 +:+ t = s2 +:+ t -> s1 = s2.
Proof.
  revert s2. induction s1 as [|c s1 IH]; intros [|c2 s2] H;
    cbv delta [String.append] in H; cbv beta iota in H;
    fold String.append in H.
  - done.
  - apply (f_equal String.length) in H. simpl in H.
    rewrite length_append in H. lia.
  - apply (f_equal String.length) in H. simpl in H.
    rewrite length_append in H. lia.
  - injection H as -> H. f_equal. by apply IH.
Qed.

(** A chunk id names its document and its index. *)
Lemma chunk_id_inj d1 d2 i j :
  d1 +:+ "_chunk_" +:+ Py.format_04d i = d2 +:+ "_chunk_" +:+ Py.format_04d j ->
  d1 = d2 /\ i = j.
Proof.
  intros H.
  assert (forall d k, d +:+ "_chunk_" +:+ Py.format_04d k
                      = (d +:+ "_chunk") +:+ String "_" (Py.format_04d k)) as Hs.
  { intros d k. by rewrite append_assoc. }
  pose proof H as H'. rewrite !Hs in H'.
  apply (f_equal digit_suffix) in H'.
  rewrite !digit_suffix_append in H' by (done || apply all_digits_format_04d).
  pose proof (format_04d_inj _ _ H') as ->. split; [|done].
  rewrite <- !append_assoc in H. apply append_inj_r in H.
  by apply append_inj_r in H.
Qed.

Lemma create_chunks_lookup chunk_processor document now i c :
  create_chunks chunk_processor document now !! i = Some c ->
  exists chunk_text,
    smart_chunk_text (p_chunk_size chunk_processor) (d_content document) None !! i
    = Some chunk_text
    /\ i < List.length (smart_chunk_text (p_chunk_size chunk_processor)
                          (d_content document) None)
    /\ c_id c = d_id document +:+ "_chunk_" +:+ Py.format_04d i
    /\ c_content c = chunk_text
    /\ c_source c = d_source document
    /\ c_document_id c = d_id document
    /\ c_chunk_index c = i
    /\ position_in_document (c_metadata c)
       = ratio i (List.length (smart_chunk_text (p_chunk_size chunk_processor)
                                 (d_content document) None))
    /\ chunk_size (c_metadata c) = String.length chunk_text
    /\ inherited (c_metadata c) = d_metadata document
    /\ c_created_at c = now.
Proof.
  unfold create_chunks. rewrite list_lookup_imap.
  destruct (smart_chunk_text _ _ _ !! i) as [chunk_text|] eqn:Ht; [|done].
  intros [= <-]. exists chunk_text. split; [done|].
  split; [by eapply lookup_lt_Some|]. by repeat split.
Qed.

Lemma create_chunks_no_embedding chunk_processor document now :
  Forall (fun c => c_embedding c = None)
         (create_chunks chunk_processor document now).
Proof.
  apply Forall_lookup. intros i c. unfold create_chunks.
  rewrite list_lookup_imap.
  destruct (smart_chunk_text _ _ _ !! i); [|done]. by intros [= <-].
Qed.

Lemma create_chunks_NoDup chunk_processor document now :
  NoDup (map c_id (create_chunks chunk_processor document now)).
Proof.
  apply NoDup_alt. intros i j id Hi Hj.
  change (map c_id ?l) with (c_id <$> l) in Hi, Hj.
  rewrite list_lookup_fmap in Hi, Hj.
  destruct (create_chunks chunk_processor document now !! i) as [ci|] eqn:Ei;
    [|done].
  destruct (create_chunks chunk_processor document now !! j) as [cj|] eqn:Ej;
    [|done].
  simpl in Hi, Hj.
  apply create_chunks_lookup in Ei as (_ & _ & _ & Hci & _).
  apply create_chunks_lookup in Ej as (_ & _ & _ & Hcj & _).
  assert (c_id ci = c_id cj) as H by congruence.
  rewrite Hci, Hcj in H. by apply chunk_id_inj in H as [_ ?].
Qed.
End ChunkIds.

(** The chunks of a document are the texts of smart_chunk_text in their
    order: the i-th chunk has the i-th text, the chunk index i, the id and
    the source of the document, no embedding, and a position in the
    document that lies in [0, 1). *)
Theorem create_chunks_layout :
  forall chunk_processor document now,
    let chunks := create_chunks chunk_processor document now in
    map c_content chunks
    = smart_chunk_text (p_chunk_size chunk_processor) (d_content document) None
    /\ map c_chunk_index chunks = seq 0 (List.length chunks)
    /\ Forall (fun c =>
                 c_document_id c = d_id document
                 /\ c_source c = d_source document
                 /\ c_embedding c = None
                 /\ c_created_at c = now
                 /\ chunk_size (c_metadata c) = String.length (c_content c)
                 /\ (0 <= position_in_document (c_metadata c))%Q
                 /\ (position_in_document (c_metadata c) < 1)%Q)
              chunks.
Proof.
  intros chunk_processor document now chunks. subst chunks.
  split_and!.
  - unfold create_chunks.
    change (@map DocumentChunk string) with (@fmap list _ DocumentChunk string).
    apply list_eq. intros i. rewrite list_lookup_fmap, list_lookup_imap.
    by destruct (smart_chunk_text _ _ _ !! i).
  - unfold create_chunks.
    change (@map DocumentChunk nat) with (@fmap list _ DocumentChunk nat).
    rewrite length_imap. apply list_eq. intros i.
    rewrite list_lookup_fmap, list_lookup_imap.
    destruct (smart_chunk_text _ _ _ !! i) as [t|] eqn:Ht; simpl.
    + symmetry. apply lookup_seq. split; [done|]. by eapply lookup_lt_Some.
    + symmetry. apply lookup_seq_ge. by apply lookup_ge_None.
  - apply Forall_lookup. intros i c Hc.
    pose proof Hc as Hc'. unfold create_chunks in Hc'.
    rewrite list_lookup_imap in Hc'.
    destruct (smart_chunk_text _ _ _ !! i) as [chunk_text|] eqn:Ht; [|done].
    injection Hc' as <-. simpl.
    apply lookup_lt_Some in Ht.
    set (n := List.length _) in *.
    repeat split; try done.
    + unfold ratio. apply Qle_shift_div_l.
      * unfold Qlt. simpl. lia.
      * unfold Qle. simpl. lia.
    + unfold ratio. apply Qlt_shift_div_r.
      * unfold Qlt. simpl. lia.
      * unfold Qlt. simpl. lia.
Qed.

(** The id of a chunk names its document and its index: two chunks, of
    one document or of two, that carry the same id have the same document
    id and the same chunk index, and within one document they are the same
    chunk. *)
Theorem chunk_id_names_document_and_index :
  forall processor1 processor2 document1 document2 now1 now2 c1 c2,
    c1 ∈ create_chunks processor1 document1 now1 ->
    c2 ∈ create_chunks processor2 document2 now2 ->
    c_id c1 = c_id c2 ->
    c_document_id c1 = c_document_id c2
    /\ c_chunk_index c1 = c_chunk_index c2
    /\ (processor1 = processor2 -> document1 = document2 -> now1 = now2 ->
        c1 = c2).
Proof.
  intros p1 p2 doc1 doc2 now1 now2 c1 c2 H1 H2 Hid.
  apply list_elem_of_lookup in H1 as [i Hi]. apply list_elem_of_lookup in H2 as [j Hj].
  pose proof (create_chunks_lookup _ _ _ _ _ Hi)
    as (t1 & _ & _ & Hid1 & _ & _ & Hd1 & Hx1 & _).
  pose proof (create_chunks_lookup _ _ _ _ _ Hj)
    as (t2 & _ & _ & Hid2 & _ & _ & Hd2 & Hx2 & _).
  rewrite Hid1, Hid2 in Hid. apply chunk_id_inj in Hid as [Hd Hij].
  split; [congruence|]. split; [congruence|].
  intros -> -> ->. subst j. congruence.
Qed.

Lemma chunk_id_names_document_and_index_witness :
  let small := {| p_chunk_size := 5; p_chunk_overlap := 0 |} in
  let chunks := create_chunks small
                  (document ("alpha" +:+ Py.blank_line +:+ "gamma")) 0 in
  exists c1 c2,
    c1 ∈ chunks /\ c2 ∈ chunks /\ c_id c1 = c_id c2
    /\ c_document_id c1 = c_document_id c2
    /\ c_chunk_index c1 = c_chunk_index c2.
Proof.
  intros small chunks.
  destruct chunks as [|c chunks'] eqn:Hc; [discriminate|].
  assert (c ∈ chunks) as Hin by (rewrite Hc; apply elem_of_cons; by left).
  exists c, c. rewrite <- Hc. split; [exact Hin|]. split; [exact Hin|].
  split; [reflexivity|].
  pose proof (chunk_id_names_document_and_index small small _ _ 0%Q 0%Q c c
                Hin Hin eq_refl) as (H1 & H2 & _).
  split; [exact H1 | exact H2].
Defined.
(** ** The Elasticsearch index *)

Section EsIndex.

Lemma bulk_lookup_other (docs : list (string * EsDb.EsSource)) :
  forall (m : gmap string EsDb.EsSource) k,
    k ∉ map fst docs ->
    fold_left (fun m '(_id, body) => <[_id := body]> m) docs m !! k = m !! k.
Proof.
  induction docs as [|[k' v] docs IH]; intros m k Hk; simpl; [done|].
  simpl in Hk. apply not_elem_of_cons in Hk as [Hne Hk].
  rewrite IH by done. by rewrite lookup_insert_ne.
Qed.

Lemma bulk_lookup_in (docs : list (string * EsDb.EsSource)) :
  forall (m : gmap string EsDb.EsSource) k v,
    NoDup (map fst docs) -> (k, v) ∈ docs ->
    fold_left (fun m '(_id, body) => <[_id := body]> m) docs m !! k = Some v.
Proof.
  induction docs as [|[k' v'] docs IH]; intros m k v Hnd Hin; simpl.
  - by apply elem_of_nil in Hin.
  - simpl in Hnd. apply NoDup_cons in Hnd as [Hk' Hnd].
    apply elem_of_cons in Hin as [[= -> ->]|Hin].
    + rewrite bulk_lookup_other by done. by rewrite lookup_insert_eq.
    + by apply IH.
Qed.

(** The index after one ingestion into a reachable server. *)
Lemma es_add_document_docs db client document chunk_processor now indexed_at :
  EsDb.es db = Some client ->
  EsDb.es_reachable client = true ->
  let added := EsDb.add_document db document chunk_processor now indexed_at in
  let chunks := create_chunks chunk_processor document now in
  exists client',
    EsDb.es (snd added) = Some client'
    /\ EsDb.es_reachable client' = true
    /\ (forall c, c ∈ chunks ->
        exists s,
          EsDb.es_docs client' !! c_id c = Some s
          /\ EsDb.s_chunk_id s = c_id c
          /\ EsDb.s_content s = c_content c
          /\ EsDb.s_source s = c_source c
          /\ EsDb.s_document_id s = d_id document
          /\ EsDb.s_document_title s = d_title document
          /\ EsDb.s_chunk_index s = c_chunk_index c
          /\ EsDb.s_metadata s = c_metadata c
          /\ EsDb.s_created_at s = (indexed_at * 1000)%Q)
    /\ (forall id, id ∉ map c_id chunks ->
        EsDb.es_docs client' !! id = EsDb.es_docs client !! id).
Proof.
  intros He Hr. cbv zeta.
  pose proof (create_chunks_NoDup chunk_processor document now) as Hnd.
  assert (Forall (fun c => c_document_id c = d_id document)
            (create_chunks chunk_processor document now)) as Hdoc.
  { apply Forall_lookup. intros i c Hc.
    by apply create_chunks_lookup in Hc as (_ & _ & _ & _ & _ & _ & ? & _). }
  unfold EsDb.add_document. rewrite He.
  destruct (create_chunks chunk_processor document now) as [|c0 chunks'] eqn:Hc.
  { exists client. cbn [fst snd]. split_and!; try done.
    intros c Hin. by apply elem_of_nil in Hin. }
  pose proof (embed_batch_length (EsDb.embedding_manager db)
                (map c_content (c0 :: chunks')) default_batch_size) as Hlen.
  destruct (embed_batch _ _ _) as [embeddings em].
  rewrite length_map in Hlen. cbn [fst] in Hlen.
  cbv beta match.
  remember (c0 :: chunks') as chunks eqn:Hcs.
  unfold EsDb.bulk. rewrite Hr.
  match goal with |- context [map ?f (combine chunks embeddings)] =>
    set (body := f) end.
  assert (map fst (map body (combine chunks embeddings)) = map c_id chunks) as Hids.
  { transitivity (map c_id (map fst (combine chunks embeddings))).
    - rewrite !map_map. apply map_ext. by intros [chunk embedding].
    - by rewrite map_fst_combine_full. }
  cbn [fst snd].
  eexists. split; [reflexivity|]. split; [done|]. cbn [EsDb.es_docs]. split.
  - intros c Hin. apply list_elem_of_lookup in Hin as [i Hi].
    destruct (embeddings !! i) as [e|] eqn:Hei.
    2: { apply lookup_ge_None in Hei. apply lookup_lt_Some in Hi. lia. }
    assert ((c, e) ∈ combine chunks embeddings) as Hce.
    { apply list_elem_of_lookup. exists i.
      change (combine chunks embeddings) with (zip chunks embeddings).
      rewrite lookup_zip_with, Hi. simpl. by rewrite Hei. }
    eexists. split.
    + apply bulk_lookup_in with (v := snd (body (c, e))); [by rewrite Hids|].
      change (map body ?l) with (body <$> l).
      apply list_elem_of_fmap. by exists (c, e).
    + rewrite Forall_forall in Hdoc.
      repeat split; try done. simpl. apply Hdoc.
      by apply list_elem_of_lookup_2 in Hi.
  - intros id Hid. apply bulk_lookup_other. by rewrite Hids.
Qed.

Lemma es_delete_document_docs db client document_id :
  EsDb.es db = Some client ->
  EsDb.es_reachable client = true ->
  let deleted := EsDb.delete_document db document_id in
  fst deleted = true
  /\ exists client',
       EsDb.es (snd deleted) = Some client'
       /\ EsDb.es_reachable client' = true
       /\ EsDb.embedding_manager (snd deleted) = EsDb.embedding_manager db
       /\ forall id s,
            EsDb.es_docs client' !! id = Some s
            <-> EsDb.es_docs client !! id = Some s
                /\ EsDb.s_document_id s <> document_id.
Proof.
  intros He Hr. unfold EsDb.delete_document, EsDb.delete_by_document_id.
  rewrite He, Hr. simpl. split; [done|].
  eexists. split; [reflexivity|]. split; [done|]. split; [done|].
  intros id s. simpl. by rewrite map_lookup_filter_Some.
Qed.
End EsIndex.

(** Ingestion into a reachable Elasticsearch server, then lookup by id:
    add_document reports the number of chunks of the document, and every
    chunk is found under its chunk id, with the content, the source, the
    document id, the title, the chunk index and the metadata of the chunk,
    stamped with the time of the indexing in milliseconds; every other id of the index
    holds what it held before, so that the ids of the index are the old
    ids and the chunk ids of the document. *)
Theorem es_add_document_then_lookup :
  forall (db : EsDb.ElasticsearchVectorDatabase) client
         document chunk_processor now indexed_at,
    EsDb.es db = Some client ->
    EsDb.es_reachable client = true ->
    let added := EsDb.add_document db document chunk_processor now indexed_at in
    let chunks := create_chunks chunk_processor document now in
    fst added = List.length chunks
    /\ exists client',
         EsDb.es (snd added) = Some client'
         /\ EsDb.es_reachable client' = true
         /\ (forall c, c ∈ chunks ->
             exists s,
               EsDb.es_docs client' !! c_id c = Some s
               /\ EsDb.s_chunk_id s = c_id c
               /\ EsDb.s_content s = c_content c
               /\ EsDb.s_source s = c_source c
               /\ EsDb.s_document_id s = d_id document
               /\ EsDb.s_document_title s = d_title document
               /\ EsDb.s_chunk_index s = c_chunk_index c
               /\ EsDb.s_metadata s = c_metadata c
               /\ EsDb.s_created_at s = (indexed_at * 1000)%Q)
         /\ (forall id, id ∉ map c_id chunks ->
             EsDb.es_docs client' !! id = EsDb.es_docs client !! id)
         /\ dom (EsDb.es_docs client')
            = dom (EsDb.es_docs client) ∪ list_to_set (map c_id chunks).
Proof.
  intros db client document p now indexed_at He Hr added chunks.
  destruct (es_add_document_dom db client document p now indexed_at He Hr)
    as (Hn & client1 & He1 & _ & Hdom).
  destruct (es_add_document_docs db client document p now indexed_at He Hr)
    as (client' & He' & Hr' & Hin & Hother).
  fold added in Hn, He1, He'. fold chunks in Hn, Hdom, Hin, Hother.
  assert (client1 = client') as -> by congruence.
  split; [by rewrite Hn, length_map|].
  exists client'. by split_and!.
Qed.

Lemma es_add_document_then_lookup_witness :
  exists client' s,
    EsDb.es (snd (EsDb.add_document es_db (document "alpha") processor 0 1))
    = Some client'
    /\ EsDb.es_docs client' !! "0123456789abcdef_chunk_0000" = Some s
    /\ EsDb.s_content s = "alpha".
Proof.
  pose proof (es_add_document_then_lookup es_db
                {| EsDb.es_docs := ∅; EsDb.es_reachable := true |}
                (document "alpha") processor 0%Q 1%Q eq_refl eq_refl)
    as (_ & client' & He & _ & Hin & _).
  destruct (create_chunks processor (document "alpha") 0) as [|c chunks] eqn:Hc;
    [discriminate|].
  destruct (Hin c) as (s & Hs & _ & Hcontent & _);
    [apply elem_of_cons; by left|].
  injection Hc as <- _. 
  exists client', s. split; [exact He|]. split; [exact Hs | exact Hcontent].
Defined.

(** Two documents with different ids do not overwrite each other in the
    Elasticsearch index: after the ingestion of a first and then of a
    second document, every chunk of the first is still found under its
    chunk id, with its content and its document id. *)
Theorem es_documents_keep_their_chunks :
  forall (db : EsDb.ElasticsearchVectorDatabase) client
         first second processor1 processor2 now1 now2 indexed1 indexed2,
    EsDb.es db = Some client ->
    EsDb.es_reachable client = true ->
    d_id first <> d_id second ->
    let db1 := snd (EsDb.add_document db first processor1 now1 indexed1) in
    let db2 := snd (EsDb.add_document db1 second processor2 now2 indexed2) in
    exists client2,
      EsDb.es db2 = Some client2
      /\ forall c, c ∈ create_chunks processor1 first now1 ->
           exists s,
             EsDb.es_docs client2 !! c_id c = Some s
             /\ EsDb.s_content s = c_content c
             /\ EsDb.s_document_id s = d_id first
             /\ EsDb.s_chunk_index s = c_chunk_index c.
Proof.
  intros db client first second p1 p2 now1 now2 indexed1 indexed2 He Hr Hne
    db1 db2.
  destruct (es_add_document_docs db client first p1 now1 indexed1 He Hr)
    as (client1 & He1 & Hr1 & Hin1 & _).
  destruct (es_add_document_docs db1 client1 second p2 now2 indexed2 He1 Hr1)
    as (client2 & He2 & _ & _ & Hother).
  exists client2. split; [done|]. intros c Hc.
  destruct (Hin1 c Hc) as (s & Hs & _ & Hcontent & _ & Hdoc & _ & Hidx & _).
  exists s. split; [|done].
  rewrite Hother; [done|]. intros Hin.
  change (map c_id ?l) with (c_id <$> l) in Hin.
  apply list_elem_of_fmap in Hin as (c' & Hid & Hc').
  apply list_elem_of_lookup in Hc as [i Hi].
  apply list_elem_of_lookup in Hc' as [j Hj].
  apply create_chunks_lookup in Hi as (_ & _ & _ & Hci & _).
  apply create_chunks_lookup in Hj as (_ & _ & _ & Hcj & _).
  rewrite Hci, Hcj in Hid. by apply chunk_id_inj in Hid as [? _].
Qed.

Lemma es_documents_keep_their_chunks_witness :
  let second :=
    {| d_id := "fedcba9876543210"; d_title := "more"; d_content := "gamma";
       d_source := "more.txt"; d_source_type := "manual";
       d_metadata := no_metadata; d_authority_score := 0;
       d_created_at := 0; d_last_updated := 0 |} in
  exists client2 s,
    EsDb.es (snd (EsDb.add_document
                    (snd (EsDb.add_document es_db (document "alpha") processor 0 1))
                    second processor 2 3)) = Some client2
    /\ EsDb.es_docs client2 !! "0123456789abcdef_chunk_0000" = Some s
    /\ EsDb.s_content s = "alpha".
Proof.
  intros second.
  assert (d_id (document "alpha") <> d_id second) as Hne by discriminate.
  pose proof (es_documents_keep_their_chunks es_db
                {| EsDb.es_docs := ∅; EsDb.es_reachable := true |}
                (document "alpha") second processor processor 0%Q 2%Q 1%Q 3%Q
                eq_refl eq_refl Hne) as (client2 & He & Hin).
  destruct (create_chunks processor (document "alpha") 0) as [|c chunks] eqn:Hc;
    [discriminate|].
  destruct (Hin c) as (s & Hs & Hcontent & _); [apply elem_of_cons; by left|].
  injection Hc as <- _.
  exists client2, s. split; [exact He|]. split; [exact Hs | exact Hcontent].
Defined.

(** Ingestion followed by the deletion of the same document, on a
    reachable server: no chunk of the document is left, and whatever the
    index holds afterwards it held before the ingestion, under another
    document id. *)
Theorem es_add_then_delete :
  forall (db : EsDb.ElasticsearchVectorDatabase) client
         document chunk_processor now indexed_at,
    EsDb.es db = Some client ->
    EsDb.es_reachable client = true ->
    let added := snd (EsDb.add_document db document chunk_processor now indexed_at) in
    let deleted := EsDb.delete_document added (d_id document) in
    fst deleted = true
    /\ exists client',
         EsDb.es (snd deleted) = Some client'
         /\ (forall c, c ∈ create_chunks chunk_processor document now ->
             EsDb.es_docs client' !! c_id c = None)
         /\ (forall id s,
               EsDb.es_docs client' !! id = Some s ->
               EsDb.es_docs client !! id = Some s
               /\ EsDb.s_document_id s <> d_id document).
Proof.
  intros db client document p now indexed_at He Hr added deleted.
  destruct (es_add_document_docs db client document p now indexed_at He Hr)
    as (client1 & He1 & Hr1 & Hin & Hother).
  destruct (es_delete_document_docs added client1 (d_id document) He1 Hr1)
    as (Hok & client2 & He2 & _ & _ & Hdel).
  split; [done|]. exists client2. split; [done|]. split.
  - intros c Hc. destruct (Hin c Hc) as (s & Hs & _ & _ & _ & Hdoc & _).
    destruct (EsDb.es_docs client2 !! c_id c) as [s'|] eqn:Hs'; [|done].
    apply Hdel in Hs' as [Hs1 Hne]. congruence.
  - intros id s Hs. apply Hdel in Hs as [Hs Hne]. split; [|done].
    rewrite <- Hother; [done|]. intros Hid.
    change (map c_id ?l) with (c_id <$> l) in Hid.
    apply list_elem_of_fmap in Hid as (c & -> & Hc).
    destruct (Hin c Hc) as (s' & Hs' & _ & _ & _ & Hdoc & _). congruence.
Qed.

Lemma es_add_then_delete_witness :
  EsDb.es es_db = Some {| EsDb.es_docs := ∅; EsDb.es_reachable := true |}
  /\ fst (EsDb.delete_document
         (snd (EsDb.add_document es_db (document "alpha") processor 0 1))
         (d_id (document "alpha"))) = true.
Proof.
  split; [reflexivity|].
  exact (proj1 (es_add_then_delete es_db
                  {| EsDb.es_docs := ∅; EsDb.es_reachable := true |}
                  (document "alpha") processor 0%Q 1%Q eq_refl eq_refl)).
Defined.

(** clear_index followed by an ingestion, on a reachable server: the
    index then holds the chunks of the document and nothing else, one
    entry for each chunk. *)
Theorem es_clear_then_add_holds_the_document :
  forall (db : EsDb.ElasticsearchVectorDatabase) client
         document chunk_processor now indexed_at,
    EsDb.es db = Some client ->
    EsDb.es_reachable client = true ->
    let cleared := EsDb.clear_index db in
    let added := EsDb.add_document (snd cleared) document chunk_processor now indexed_at in
    let chunks := create_chunks chunk_processor document now in
    fst cleared = true
    /\ fst added = List.length chunks
    /\ exists client',
         EsDb.es (snd added) = Some client'
         /\ dom (EsDb.es_docs client') = list_to_set (map c_id chunks)
         /\ size (EsDb.es_docs client') = List.length chunks.
Proof.
  intros db client document p now indexed_at He Hr cleared added chunks.
  assert (fst cleared = true
          /\ EsDb.es (snd cleared)
             = Some {| EsDb.es_docs := ∅; EsDb.es_reachable := true |})
    as [Hok Hc].
  { subst cleared. unfold EsDb.clear_index. by rewrite He, Hr. }
  destruct (es_add_document_dom (snd cleared) _ document p now indexed_at Hc
              eq_refl)
    as (Hn & client' & He' & _ & Hd).
  fold added chunks in Hn, He'. fold chunks in Hd.
  rewrite length_map in Hn.
  split; [done|]. split; [done|]. exists client'. split; [done|].
  assert (dom (EsDb.es_docs client') =@{gset string} list_to_set (map c_id chunks))
    as Hdom.
  { rewrite Hd. simpl. rewrite dom_empty_L. set_solver. }
  split; [done|].
  rewrite <- size_dom, Hdom, size_list_to_set; [apply length_map|].
  apply create_chunks_NoDup.
Qed.

Lemma es_clear_then_add_holds_the_document_witness :
  EsDb.es es_db = Some {| EsDb.es_docs := ∅; EsDb.es_reachable := true |}
  /\ fst (EsDb.add_document (snd (EsDb.clear_index es_db))
            (document "alpha") processor 0 1)
     = List.length (create_chunks processor (document "alpha") 0).
Proof.
  split; [reflexivity|].
  exact (proj1 (proj2 (es_clear_then_add_holds_the_document es_db
                         {| EsDb.es_docs := ∅; EsDb.es_reachable := true |}
                         (document "alpha") processor 0%Q 1%Q eq_refl eq_refl))).
Defined.
(** ** The embedding manager *)

Section RandomEmbeddings.

(** The loop of embed_batch without a model: the vectors are the
    successive draws of the generator. *)
Lemma fold_random_one texts : forall acc em,
  let r := fold_left random_one texts (acc, em) in
  concat (fst r)
  = concat acc
    ++ map (tape (np_random em))
         (seq (cursor (np_random em)) (List.length texts * embedding_dim em))
  /\ (Forall (fun v => List.length v = embedding_dim em) acc ->
      Forall (fun v => List.length v = embedding_dim em) (fst r))
  /\ cursor (np_random (snd r))
     = cursor (np_random em) + List.length texts * embedding_dim em
  /\ tape (np_random (snd r)) = tape (np_random em)
  /\ embedding_dim (snd r) = embedding_dim em
  /\ embedding_cache (snd r) = embedding_cache em
  /\ encode_calls (snd r) = encode_calls em
  /\ model (snd r) = model em.
Proof.
  induction texts as [|t texts IH]; intros acc em; simpl.
  - rewrite app_nil_r. split_and!; try done; lia.
  - unfold np_random_random.
    specialize (IH (acc ++ [map (tape (np_random em))
                              (seq (cursor (np_random em)) (embedding_dim em))])
                   (with_rng {| tape := tape (np_random em);
                                cursor := cursor (np_random em) + embedding_dim em |}
                             em)).
    simpl in IH. destruct IH as (Hc & Hf & Hcur & Ht & Hd & Hca & He & Hm).
    split_and!; try done.
    + etransitivity; [exact Hc|].
      rewrite concat_app. simpl. rewrite app_nil_r, <- app_assoc.
      f_equal. by rewrite seq_app, map_app.
    + intros Hacc. apply Hf. apply Forall_app. split; [done|].
      constructor; [|constructor]. by rewrite length_map, length_seq.
    + etransitivity; [exact Hcur|]. lia.
Qed.
End RandomEmbeddings.

(** The cache discipline of embed_text with the model loaded.  With
    use_cache the vector returned is the one the cache holds under the
    hash of the text afterwards, entries that were in the cache are never
    replaced, no other key appears, and the model is invoked only on a
    miss.  Without use_cache the cache is neither read nor written: the
    model is invoked and its encoding returned whatever the cache holds. *)
Theorem embed_text_cache_discipline :
  forall sha256_hexdigest (em : EnhancedEmbeddingManager) m text,
    model em = Some m ->
    let key := get_text_hash sha256_hexdigest text in
    let cached := embed_text sha256_hexdigest em text true in
    let direct := embed_text sha256_hexdigest em text false in
    embedding_cache (snd cached) !! key = Some (fst cached)
    /\ embedding_cache em ⊆ embedding_cache (snd cached)
    /\ (forall k, k <> key ->
        embedding_cache (snd cached) !! k = embedding_cache em !! k)
    /\ encode_calls (snd cached)
       = encode_calls em
         + match embedding_cache em !! key with Some _ => 0 | None => 1 end
    /\ fst direct = encode m text
    /\ embedding_cache (snd direct) = embedding_cache em
    /\ encode_calls (snd direct) = encode_calls em + 1.
Proof.
  intros sha em m text Hm key cached direct. subst cached direct.
  unfold embed_text. rewrite Hm. fold key.
  destruct (embedding_cache em !! key) as [v|] eqn:Hc; simpl.
  - split_and!; try done; lia.
  - split_and!; try done; try lia.
    + by rewrite lookup_insert_eq.
    + by apply insert_subseteq.
    + intros k Hk. by rewrite lookup_insert_ne.
Qed.

Lemma embed_text_cache_discipline_witness :
  model manager_with_model = Some length_model
  /\ embedding_cache
       (snd (embed_text digest manager_with_model "lsass" true))
     !! get_text_hash digest "lsass"
     = Some (fst (embed_text digest manager_with_model "lsass" true)).
Proof.
  split; [reflexivity|].
  exact (proj1 (embed_text_cache_discipline digest manager_with_model
                  length_model "lsass" eq_refl)).
Defined.

(** Without a model, the vectors are the next samples of the random
    generator: embed_text returns embedding_dim of them, embed_batch
    returns one vector of embedding_dim samples for each text, drawn one
    after the other without overlap, and leaves the cache alone. *)
Theorem embeddings_without_model :
  forall sha256_hexdigest (em : EnhancedEmbeddingManager)
         text use_cache texts batch_size,
    model em = None ->
    let single := embed_text sha256_hexdigest em text use_cache in
    let batch := embed_batch em texts batch_size in
    List.length (fst single) = embedding_dim em
    /\ List.length (fst batch) = List.length texts
    /\ Forall (fun v => List.length v = embedding_dim em) (fst batch)
    /\ concat (fst batch)
       = map (tape (np_random em))
           (seq (cursor (np_random em))
                (List.length texts * embedding_dim em))
    /\ cursor (np_random (snd batch))
       = cursor (np_random em) + List.length texts * embedding_dim em
    /\ embedding_cache (snd batch) = embedding_cache em
    /\ embedding_cache (snd single) = embedding_cache em.
Proof.
  intros sha em text use_cache texts batch_size Hm single batch.
  subst single batch. unfold embed_text, embed_batch. rewrite Hm. simpl.
  destruct (fold_random_one texts [] em) as (Hc & Hf & Hcur & _ & _ & Hca & _).
  split_and!; try done.
  - by rewrite length_map, length_seq.
  - by rewrite fold_random_one_length.
  - by apply Hf.
Qed.

Lemma embeddings_without_model_witness :
  model manager_without_model = None
  /\ List.length (fst (embed_batch manager_without_model
                         ["lsass"; "mimikatz"] default_batch_size)) = 2.
Proof.
  split; [reflexivity|].
  exact (proj1 (proj2 (embeddings_without_model digest manager_without_model
                         "lsass" true ["lsass"; "mimikatz"] default_batch_size
                         eq_refl))).
Defined.
(** ** The ranges of the scores *)

Section ScoreRanges.

Lemma qmin_le_l a b : (Py.qmin a b <= a)%Q.
Proof.
  unfold Py.qmin. destruct (Qle_bool a b) eqn:E; [apply Qle_refl|].
  apply Qle_bool_false in E. by apply Qlt_le_weak.
Qed.

Lemma qmin_glb a b c : (c <= a)%Q -> (c <= b)%Q -> (c <= Py.qmin a b)%Q.
Proof. intros Ha Hb. unfold Py.qmin. by destruct (Qle_bool a b). Qed.

Lemma source_scores_range source_type :
  (0.5 <= VectorDb.source_scores source_type <= 0.9)%Q.
Proof.
  unfold VectorDb.source_scores.
  repeat match goal with |- context [String.eqb ?a ?b] =>
    destruct (String.eqb a b) end; lra.
Qed.

Lemma count_nonneg {A} (l : list A) : (0 <= inject_Z (Z.of_nat (List.length l)))%Q.
Proof. unfold Qle. simpl. lia. Qed.

Lemma qmin_le_r a b : (Py.qmin a b <= b)%Q.
Proof.
  unfold Py.qmin. destruct (Qle_bool a b) eqn:E; [|apply Qle_refl].
  by apply Qle_bool_iff in E.
Qed.

Lemma authority_from_range score source_type frameworks techniques cve_ids :
  (VectorDb.authority_from score source_type frameworks techniques cve_ids <= 1)%Q
  /\ (Py.qmin 1 (score + 0.2)
      <= VectorDb.authority_from score source_type frameworks
           techniques cve_ids)%Q.
Proof.
  unfold VectorDb.authority_from.
  split; [eapply Qle_trans; [apply qmin_le_l|lra]|].
  pose proof (qmin_le_l 1 (score + 0.2)) as H1.
  pose proof (qmin_le_r 1 (score + 0.2)) as H2.
  apply qmin_glb; [lra|].
  pose proof (source_scores_range source_type) as [Hlo _].
  assert (0 <= Py.qmin 0.2 (inject_Z (Z.of_nat (List.length techniques)) * 0.05))%Q
    as Ht.
  { apply qmin_glb; [lra|]. pose proof (count_nonneg techniques). nra. }
  assert (0 <= Py.qmin 0.1 (inject_Z (Z.of_nat (List.length cve_ids)) * 0.02))%Q
    as Hv.
  { apply qmin_glb; [lra|]. pose proof (count_nonneg cve_ids). nra. }
  destruct (VectorDb.mem _ _); destruct (existsb _ _);
    destruct techniques; destruct cve_ids; lra.
Qed.

Lemma local_authority_range entry :
  (0.2 <= VectorDb._calculate_authority_score entry)%Q
  /\ (VectorDb._calculate_authority_score entry <= 1)%Q.
Proof.
  unfold VectorDb._calculate_authority_score.
  match goal with |- context [VectorDb.authority_from ?a ?b ?c ?d ?e] =>
    destruct (authority_from_range a b c d e) as [H1 H2] end.
  split; [|done]. eapply Qle_trans; [|exact H2]. apply qmin_glb; lra.
Qed.

Lemma decay_floor age : (0.2 <= VectorDb.decay age)%Q.
Proof. bands; lra. Qed.

Lemma overlap_ratio (query_words content_words : gset string) :
  size query_words <> 0 ->
  (inject_Z (Z.of_nat (size (query_words ∩ content_words)))
   / inject_Z (Z.of_nat (size query_words)) <= 1)%Q.
Proof.
  intros Hq.
  assert (size (query_words ∩ content_words) <= size query_words) as Hle.
  { apply subseteq_size. set_solver. }
  apply Qle_shift_div_r.
  - unfold Qlt. simpl. lia.
  - unfold Qle. simpl. lia.
Qed.

Lemma fallback_candidate_range query_lower flt now item r :
  VectorDb.fallback_candidate query_lower flt now item = Some r ->
  (0.1 <= similarity_score r)%Q /\ (similarity_score r <= 1)%Q
  /\ (0.2 <= authority_score r)%Q /\ (authority_score r <= 1)%Q
  /\ (0.2 <= temporal_score r)%Q /\ (temporal_score r <= 1)%Q
  /\ (0.14 <= combined_score r)%Q /\ (combined_score r <= 1)%Q.
Proof.
  intros Hr. pose proof (fallback_candidate_props _ _ _ _ _ Hr) as [Hlo Hcomb].
  revert Hr. unfold VectorDb.fallback_candidate.
  destruct (size _ =? 0) eqn:Hz; [discriminate|]. apply Nat.eqb_neq in Hz.
  destruct (negb _); [discriminate|].
  destruct (VectorDb.filtered_out _ _); [discriminate|].
  intros [= Hr].
  assert (similarity_score r <= 1)%Q as Hhi.
  { rewrite <- Hr. simpl. by apply overlap_ratio. }
  assert (0.2 <= authority_score r /\ authority_score r <= 1)%Q as [Ha1 Ha2].
  { rewrite <- Hr. simpl. apply local_authority_range. }
  assert (0.2 <= temporal_score r /\ temporal_score r <= 1)%Q as [Ht1 Ht2].
  { rewrite <- Hr. simpl. unfold VectorDb._calculate_temporal_score.
    split; [apply decay_floor|apply decay_range]. }
  split_and!; try done; rewrite Hcomb; lra.
Qed.
End ScoreRanges.

(** The authority score is capped at 1.  In the local variant, which
    starts from 0, it is at least 0.2, since every source type counts for
    at least 0.5 * 0.4; the Elasticsearch variant starts from the stored
    authority score of the document, and its score is at least that score
    plus 0.2, or 1. *)
Theorem authority_score_range :
  forall (chunk_metadata : VectorDb.ChunkEntry) (source : EsDb.EsSource),
    (0.2 <= VectorDb._calculate_authority_score chunk_metadata)%Q
    /\ (VectorDb._calculate_authority_score chunk_metadata <= 1)%Q
    /\ (EsDb._calculate_authority_score source <= 1)%Q
    /\ (Py.qmin 1 (EsDb.s_authority_score source + 0.2)
        <= EsDb._calculate_authority_score source)%Q.
Proof.
  intros e s. split; [apply local_authority_range|].
  split; [apply local_authority_range|].
  unfold EsDb._calculate_authority_score. apply authority_from_range.
Qed.

(** Every result of the fallback search has a similarity in [0.1, 1],
    an authority score and a temporal score in [0.2, 1], and a combined
    score in [0.14, 1]. *)
Theorem fallback_search_score_ranges :
  forall (db : VectorDb.EnhancedVectorDatabase) query top_k flt now,
    Forall (fun r =>
              (0.1 <= similarity_score r)%Q /\ (similarity_score r <= 1)%Q
              /\ (0.2 <= authority_score r)%Q /\ (authority_score r <= 1)%Q
              /\ (0.2 <= temporal_score r)%Q /\ (temporal_score r <= 1)%Q
              /\ (0.14 <= combined_score r)%Q /\ (combined_score r <= 1)%Q)
           (VectorDb._fallback_search db query top_k flt now).
Proof.
  intros db query top_k flt now. unfold VectorDb._fallback_search.
  apply sort_and_rank_Forall; [done|].
  apply Forall_omap_Some. intros item r Hr.
  by eapply fallback_candidate_range.
Qed.
(** ** What a search returns and what it leaves alone *)

Section SearchFacts.

Lemma dict_get_elem {K V} `{EqDecision K} (k : K) (v : V) d :
  Py.dict_get k d = Some v -> (k, v) ∈ d.
Proof.
  induction d as [|[k' v'] d IH]; simpl; [done|].
  destruct (decide (k = k')) as [->|Hne].
  - intros [= ->]. apply elem_of_cons. by left.
  - intros H. apply elem_of_cons. right. by apply IH.
Qed.

Lemma isspace_lower_char c : Py.isspace c = true -> Py.lower_char c = c.
Proof.
  destruct c as [[] [] [] [] [] [] [] []]; vm_compute; congruence.
Qed.

Lemma all_space_lower s : all_space s = true -> Py.lower s = s.
Proof.
  induction s as [|c s IH]; simpl; [done|].
  intros [Hc Hs]%andb_prop. by rewrite (isspace_lower_char c Hc), IH.
Qed.

Lemma split_ws_go_all_space s :
  all_space s = true -> Py.split_ws_go s = (EmptyString, []).
Proof.
  induction s as [|c s IH]; simpl; [done|].
  intros [Hc Hs]%andb_prop. by rewrite (IH Hs), Hc.
Qed.

Lemma split_ws_all_space s : all_space s = true -> Py.split_ws s = [].
Proof. intros Hs. unfold Py.split_ws. by rewrite split_ws_go_all_space. Qed.

Lemma Forall_omap_elem {A B} (f : A -> option B) (P : B -> Prop) l :
  (forall x y, x ∈ l -> f x = Some y -> P y) -> Forall P (omap f l).
Proof.
  intros H. apply Forall_forall. intros y Hy.
  apply list_elem_of_omap in Hy as (x & Hx & Hf). by eapply H.
Qed.

(** A property holds of every result of a local search when it holds of
    the result built from any stored entry that passes the filter, and
    does not depend on the rank. *)
Lemma local_search_Forall FAISS_AVAILABLE faiss_search sha256_hexdigest
    (db : VectorDb.EnhancedVectorDatabase) query top_k threshold flt now
    (P : RetrievalResult -> Prop) :
  (forall n r, P r -> P (set_rank n r)) ->
  (forall position entry w_sim w_auth w_temp similarity,
     (position, entry) ∈ VectorDb.chunk_metadata db ->
     VectorDb.filtered_out entry flt = false ->
     P (VectorDb.make_result w_sim w_auth w_temp entry similarity now)) ->
  Forall P (returned
              (fst (VectorDb.search_similar_chunks FAISS_AVAILABLE faiss_search
                      sha256_hexdigest db query top_k threshold flt now))).
Proof.
  intros Hrank Hentry. apply returned_Forall; [done|]. unfold delivered.
  destruct (VectorDb.usable_index FAISS_AVAILABLE db) as [ix|].
  - apply Forall_omap_Some. intros [score idx] r.
    unfold VectorDb.index_candidate.
    destruct (idx =? -1)%Z; [discriminate|].
    destruct (negb _); [discriminate|].
    destruct (Py.dict_get idx (VectorDb.chunk_metadata db)) as [e|] eqn:Hg;
      [|discriminate].
    destruct (VectorDb.filtered_out e flt) eqn:Hf; [discriminate|].
    intros [= <-]. apply dict_get_elem in Hg. by eapply Hentry.
  - apply Forall_omap_elem. intros [position e] r Hin.
    unfold VectorDb.fallback_candidate. cbn [snd].
    destruct (size _ =? 0); [discriminate|].
    destruct (negb _); [discriminate|].
    destruct (VectorDb.filtered_out e flt) eqn:Hf; [discriminate|].
    intros [= <-]. by eapply Hentry.
Qed.

Lemma filter_on_document_id entry document_id f :
  ("document_id", VectorDb.One (VectorDb.PStr document_id)) ∈ f ->
  VectorDb.filtered_out entry (Some f) = false ->
  VectorDb.e_document_id entry = document_id.
Proof.
  intros Hin. unfold VectorDb.filtered_out.
  destruct f as [|p f']; [by apply elem_of_nil in Hin|].
  intros Hm. apply negb_false_iff in Hm.
  unfold VectorDb._matches_filter in Hm.
  rewrite forallb_forall in Hm.
  apply list_elem_of_In in Hin. specialize (Hm _ Hin).
  change (Py.split "." "document_id") with ["document_id"] in Hm.
  simpl in Hm. by apply String.eqb_eq in Hm.
Qed.
End SearchFacts.

(** Every result that a search of the local variant returns, on the
    indexed path as on the fallback path, is built from an entry of
    chunk_metadata
    that passes the metadata filter: its chunk is that entry read back,
    and its authority and temporal scores are the scores of that entry. *)
Theorem local_results_are_stored_entries :
  forall FAISS_AVAILABLE faiss_search sha256_hexdigest
         (db : VectorDb.EnhancedVectorDatabase) query top_k threshold flt now,
    Forall (fun r =>
              exists position entry,
                (position, entry) ∈ VectorDb.chunk_metadata db
                /\ chunk r = VectorDb.chunk_of_entry entry
                /\ VectorDb.filtered_out entry flt = false
                /\ authority_score r = VectorDb._calculate_authority_score entry
                /\ temporal_score r
                   = VectorDb._calculate_temporal_score entry now)
           (returned
              (fst (VectorDb.search_similar_chunks FAISS_AVAILABLE faiss_search
                      sha256_hexdigest db query top_k threshold flt now))).
Proof.
  intros FA fs sha db query top_k threshold flt now.
  apply local_search_Forall.
  - intros n r (position & entry & Hin & Hc & Hf & Ha & Ht).
    by exists position, entry.
  - intros position entry w_sim w_auth w_temp similarity Hin Hf.
    by exists position, entry.
Qed.

(** A metadata filter that asks for a document id keeps the search of
    the local variant within that document: every result that the
    search returns is a chunk of the document. *)
Theorem local_search_within_document :
  forall FAISS_AVAILABLE faiss_search sha256_hexdigest
         (db : VectorDb.EnhancedVectorDatabase) query top_k threshold
         filter_metadata document_id now,
    ("document_id", VectorDb.One (VectorDb.PStr document_id)) ∈ filter_metadata ->
    Forall (fun r => c_document_id (chunk r) = document_id)
           (returned
              (fst (VectorDb.search_similar_chunks FAISS_AVAILABLE faiss_search
                      sha256_hexdigest db query top_k threshold
                      (Some filter_metadata) now))).
Proof.
  intros FA fs sha db query top_k threshold f d now Hin.
  apply local_search_Forall; [done|].
  intros position entry w_sim w_auth w_temp similarity _ Hf. simpl.
  by eapply filter_on_document_id.
Qed.

Lemma local_search_within_document_witness :
  let f := [("document_id", VectorDb.One (VectorDb.PStr "0123456789abcdef"))] in
  let db := snd (VectorDb.add_document false local_db (document "alpha") processor 0) in
  ("document_id", VectorDb.One (VectorDb.PStr "0123456789abcdef")) ∈ f
  /\ Forall (fun r => c_document_id (chunk r) = "0123456789abcdef")
            (returned
               (fst (VectorDb.search_similar_chunks false no_hits digest db
                       "alpha beta" 10 None (Some f) 0))).
Proof.
  intros f db.
  assert (("document_id", VectorDb.One (VectorDb.PStr "0123456789abcdef")) ∈ f)
    as H by (apply elem_of_cons; by left).
  split; [exact H|].
  exact (local_search_within_document false no_hits digest db "alpha beta"
           10%Z None f "0123456789abcdef" 0%Q H).
Defined.

(** A search changes nothing but the embedding manager, whose cache may
    receive the query: the index, the stored entries, the registry and the
    next position of the local variant, and the client of the
    Elasticsearch variant, are after the search what they were before. *)
Theorem search_leaves_the_store_alone :
  forall FAISS_AVAILABLE faiss_search es_search sha256_hexdigest
         (db : VectorDb.EnhancedVectorDatabase)
         (esdb : EsDb.ElasticsearchVectorDatabase)
         query top_k threshold flt hybrid now,
    let after := snd (VectorDb.search_similar_chunks FAISS_AVAILABLE faiss_search
                        sha256_hexdigest db query top_k threshold flt now) in
    let es_after := snd (EsDb.search_similar_chunks es_search sha256_hexdigest
                           esdb query top_k threshold flt hybrid now) in
    VectorDb.index after = VectorDb.index db
    /\ VectorDb.chunk_metadata after = VectorDb.chunk_metadata db
    /\ VectorDb.document_registry after = VectorDb.document_registry db
    /\ VectorDb.next_index after = VectorDb.next_index db
    /\ VectorDb.similarity_threshold after = VectorDb.similarity_threshold db
    /\ EsDb.es es_after = EsDb.es esdb
    /\ EsDb.index_name es_after = EsDb.index_name esdb
    /\ EsDb.similarity_threshold es_after = EsDb.similarity_threshold esdb.
Proof.
  intros FA fs es_search sha db esdb query top_k threshold flt hybrid now
    after es_after. subst after es_after.
  unfold VectorDb.search_similar_chunks, EsDb.search_similar_chunks.
  destruct (embed_text sha (VectorDb.embedding_manager db) query true)
    as [qe em].
  split_and!.
  1-5: destruct (VectorDb.usable_index _ _); [|done];
    by destruct (VectorDb.index_search _ _ _).
  all: destruct (EsDb.es esdb) as [client|] eqn:He; [|by rewrite ?He];
    destruct (embed_text _ _ _ _) as [qe' em'];
    by destruct (EsDb.search _ _ _).
Qed.

(** On the fallback path a query without a word finds nothing: the
    search returns the empty list. *)
Theorem fallback_blank_query_finds_nothing :
  forall FAISS_AVAILABLE faiss_search sha256_hexdigest
         (db : VectorDb.EnhancedVectorDatabase) query top_k threshold flt now,
    VectorDb.usable_index FAISS_AVAILABLE db = None ->
    all_space query = true ->
    fst (VectorDb.search_similar_chunks FAISS_AVAILABLE faiss_search
           sha256_hexdigest db query top_k threshold flt now) = Some [].
Proof.
  intros FA fs sha db query top_k threshold flt now Hu Hq.
  unfold VectorDb.search_similar_chunks.
  destruct (embed_text _ _ _ _) as [qe em].
  change (VectorDb.usable_index FA (VectorDb.with_manager em db))
    with (VectorDb.usable_index FA db).
  rewrite Hu. cbn [fst]. unfold VectorDb._fallback_search.
  rewrite (all_space_lower _ Hq).
  assert (omap (VectorDb.fallback_candidate query flt now)
            (VectorDb.chunk_metadata (VectorDb.with_manager em db)) = []) as ->.
  { apply elem_of_nil_inv. intros r Hr.
    apply list_elem_of_omap in Hr as (item & _ & Hr).
    unfold VectorDb.fallback_candidate in Hr.
    by rewrite (split_ws_all_space _ Hq) in Hr. }
  by rewrite sort_and_rank_nil.
Qed.

Lemma fallback_blank_query_finds_nothing_witness :
  let db := snd (VectorDb.add_document false local_db (document "alpha") processor 0) in
  VectorDb.usable_index false db = None
  /\ all_space "  " = true
  /\ fst (VectorDb.search_similar_chunks false no_hits digest db
            "  " 10 None None 0) = Some [].
Proof.
  intros db. split; [reflexivity|]. split; [reflexivity|].
  exact (fallback_blank_query_finds_nothing false no_hits digest db "  "
           10%Z None None 0%Q eq_refl eq_refl).
Defined.
(** ** Ingestion into the local database *)

Section LocalStore.
Variable FAISS_AVAILABLE : bool.

Lemma dict_get_set_eq {K V} `{EqDecision K} (k : K) (v : V) d :
  Py.dict_get k (Py.dict_set k v d) = Some v.
Proof.
  induction d as [|[k' v'] d IH]; simpl.
  - by destruct (decide (k = k)).
  - destruct (decide (k = k')) as [->|Hne]; simpl.
    + by destruct (decide (k' = k')).
    + by destruct (decide (k = k')).
Qed.

Lemma dict_get_set_ne {K V} `{EqDecision K} (k k' : K) (v : V) d :
  k <> k' -> Py.dict_get k' (Py.dict_set k v d) = Py.dict_get k' d.
Proof.
  intros Hne. induction d as [|[k0 v0] d IH]; simpl.
  - by destruct (decide (k' = k)); [subst|].
  - destruct (decide (k = k0)) as [->|Hne0]; simpl.
    + by destruct (decide (k' = k0)); [subst|].
    + destruct (decide (k' = k0)); [done|]. apply IH.
Qed.

Lemma Forall_dict_set {K V} `{EqDecision K} (P : K * V -> Prop) k v d :
  Forall P d -> P (k, v) -> Forall P (Py.dict_set k v d).
Proof.
  intros Hd Hkv. induction Hd as [|[k' v'] d Hx Hd IH]; simpl.
  - by repeat constructor.
  - destruct (decide (k = k')); by constructor.
Qed.

(** The three outcomes of add_chunk_to_index. *)
Lemma add_chunk_to_index_cases db chunk embedding :
  let r := VectorDb.add_chunk_to_index FAISS_AVAILABLE db chunk embedding in
  let n := VectorDb.next_index db in
  VectorDb.chunk_metadata (snd r)
  = Py.dict_set n (entry_of_chunk n chunk) (VectorDb.chunk_metadata db)
  /\ VectorDb.embedding_manager (snd r) = VectorDb.embedding_manager db
  /\ match VectorDb.usable_index FAISS_AVAILABLE db with
     | None =>
         fst r = true
         /\ VectorDb.next_index (snd r) = (n + 1)%Z
         /\ VectorDb.usable_index FAISS_AVAILABLE (snd r) = None
     | Some ix =>
         if List.length embedding =? VectorDb.faiss_d ix
         then fst r = true
              /\ VectorDb.next_index (snd r) = (n + 1)%Z
              /\ VectorDb.usable_index FAISS_AVAILABLE (snd r)
                 = Some {| VectorDb.faiss_d := VectorDb.faiss_d ix;
                           VectorDb.faiss_xb := VectorDb.faiss_xb ix ++ [embedding] |}
         else fst r = false
              /\ VectorDb.next_index (snd r) = n
              /\ VectorDb.usable_index FAISS_AVAILABLE (snd r) = Some ix
     end.
Proof.
  unfold VectorDb.add_chunk_to_index, VectorDb.usable_index, VectorDb.faiss_add.
  destruct FAISS_AVAILABLE; [|done].
  destruct (VectorDb.index db) as [ix|] eqn:Hix; [|by rewrite ?Hix].
  destruct (List.length embedding =? VectorDb.faiss_d ix); simpl; by rewrite ?Hix.
Qed.

Lemma add_chunk_to_index_consistent db chunk embedding :
  consistent FAISS_AVAILABLE db ->
  consistent FAISS_AVAILABLE
    (snd (VectorDb.add_chunk_to_index FAISS_AVAILABLE db chunk embedding)).
Proof.
  intros (H0 & Hcov & Hall & Hal).
  destruct (add_chunk_to_index_cases db chunk embedding) as (Hmd & _ & Hcase).
  set (r := VectorDb.add_chunk_to_index FAISS_AVAILABLE db chunk embedding) in *.
  set (n := VectorDb.next_index db) in *.
  assert (forall n',
            (n <= n' <= n + 1)%Z -> VectorDb.next_index (snd r) = n' ->
            (0 <= VectorDb.next_index (snd r))%Z
            /\ (forall k, (0 <= k < n)%Z ->
                is_Some (Py.dict_get k (VectorDb.chunk_metadata (snd r))))
            /\ is_Some (Py.dict_get n (VectorDb.chunk_metadata (snd r)))
            /\ Forall (fun item =>
                         (fst item <= VectorDb.next_index (snd r))%Z
                         /\ VectorDb.e_index_position (snd item) = fst item)
                      (VectorDb.chunk_metadata (snd r))) as Hstep.
  { intros n' Hn' Hnext. rewrite Hnext, Hmd. split; [lia|]. split; [|split].
    - intros k Hk. rewrite dict_get_set_ne by lia. by apply Hcov.
    - rewrite dict_get_set_eq. by eexists.
    - apply Forall_dict_set.
      + eapply Forall_impl; [exact Hall|]. simpl. intros item [? ?].
        split; [lia|done].
      + simpl. split; [lia|done]. }
  unfold consistent, index_aligned in *.
  destruct (VectorDb.usable_index FAISS_AVAILABLE db) as [ix|].
  - destruct (List.length embedding =? VectorDb.faiss_d ix).
    + destruct Hcase as (_ & Hn & Hu).
      destruct (Hstep (n + 1)%Z) as (? & Hlow & Hat & ?); [lia|done|].
      split_and!; try done.
      * rewrite Hn. intros k Hk.
        destruct (decide (k = n)) as [->|]; [done|]. apply Hlow. lia.
      * rewrite Hu, Hn. unfold VectorDb.ntotal in *. simpl.
        rewrite length_app. simpl. lia.
    + destruct Hcase as (_ & Hn & Hu).
      destruct (Hstep n) as (? & Hlow & Hat & ?); [lia|done|].
      split_and!; try done.
      * rewrite Hn. intros k Hk. apply Hlow. lia.
      * by rewrite Hu, Hn.
  - destruct Hcase as (_ & Hn & Hu).
    destruct (Hstep (n + 1)%Z) as (? & Hlow & Hat & ?); [lia|done|].
    split_and!; try done.
    + rewrite Hn. intros k Hk.
      destruct (decide (k = n)) as [->|]; [done|]. apply Hlow. lia.
    + by rewrite Hu.
Qed.

Lemma fold_add_one_consistent l : forall chunk_count db,
  consistent FAISS_AVAILABLE db ->
  consistent FAISS_AVAILABLE
    (snd (fold_left (VectorDb.add_one FAISS_AVAILABLE) l (chunk_count, db))).
Proof.
  induction l as [|[chunk embedding] l IH]; intros c db Hdb; simpl; [done|].
  pose proof (add_chunk_to_index_consistent db chunk embedding Hdb) as H1.
  destruct (VectorDb.add_chunk_to_index FAISS_AVAILABLE db chunk embedding)
    as [ok db1].
  by apply IH.
Qed.

(** The loop over the chunks when no vector can be refused. *)
Lemma fold_add_one_all l : forall chunk_count db,
  match VectorDb.usable_index FAISS_AVAILABLE db with
  | Some ix => Forall (fun ce => List.length (snd ce) = VectorDb.faiss_d ix) l
  | None => True
  end ->
  fst (fold_left (VectorDb.add_one FAISS_AVAILABLE) l (chunk_count, db))
  = chunk_count + List.length l.
Proof.
  induction l as [|[chunk embedding] l IH]; intros c db Hd; simpl; [lia|].
  destruct (add_chunk_to_index_cases db chunk embedding) as (_ & _ & Hcase).
  destruct (VectorDb.add_chunk_to_index FAISS_AVAILABLE db chunk embedding)
    as [ok db1]. simpl in *.
  destruct (VectorDb.usable_index FAISS_AVAILABLE db) as [ix|].
  - apply Forall_cons in Hd as [Hv Hd]. simpl in Hv.
    apply Nat.eqb_eq in Hv. rewrite Hv in Hcase.
    destruct Hcase as (-> & _ & Hu). rewrite IH; [lia|]. by rewrite Hu.
  - destruct Hcase as (-> & _ & Hu). rewrite IH; [lia|]. by rewrite Hu.
Qed.

(** The loop over the chunks when every chunk was accepted: each went
    to the next position. *)
Lemma fold_add_one_shape l : forall chunk_count db,
  positions_below_next db ->
  fst (fold_left (VectorDb.add_one FAISS_AVAILABLE) l (chunk_count, db))
  = chunk_count + List.length l ->
  let db' := snd (fold_left (VectorDb.add_one FAISS_AVAILABLE) l (chunk_count, db)) in
  VectorDb.chunk_metadata db'
  = VectorDb.chunk_metadata db
    ++ imap (fun i ce =>
               let k := (VectorDb.next_index db + Z.of_nat i)%Z in
               (k, entry_of_chunk k (fst ce))) l
  /\ VectorDb.next_index db'
     = (VectorDb.next_index db + Z.of_nat (List.length l))%Z.
Proof.
  induction l as [|[chunk embedding] l IH]; intros c db Hwf Hn; cbv zeta; simpl.
  - rewrite app_nil_r. split; [done|lia].
  - simpl in Hn.
    destruct (add_chunk_to_index_cases db chunk embedding) as (Hmd & _ & Hcase).
    destruct (VectorDb.add_chunk_to_index FAISS_AVAILABLE db chunk embedding)
      as [ok db1] eqn:Hadd. simpl in *.
    destruct (fold_left (VectorDb.add_one FAISS_AVAILABLE) l
                (if ok then c + 1 else c, db1)) as [c' db'] eqn:Hf.
    pose proof (fold_add_one FAISS_AVAILABLE l _ _ _ _ Hf) as (Hle & _).
    simpl in Hn. destruct ok; [|lia].
    pose proof (add_chunk_to_index_ok FAISS_AVAILABLE db chunk embedding db1
                  Hwf Hadd) as (Hwf1 & _).
    assert (VectorDb.next_index db1 = (VectorDb.next_index db + 1)%Z) as Hn1.
    { destruct (VectorDb.usable_index FAISS_AVAILABLE db) as [ix|].
      - destruct (List.length embedding =? VectorDb.faiss_d ix);
          by destruct Hcase as (? & ? & _).
      - by destruct Hcase as (? & ? & _). }
    specialize (IH (c + 1) db1 Hwf1). cbv zeta in IH. rewrite Hf in IH.
    simpl in IH.
    destruct IH as [IH1 IH2]; [lia|].
    cbn [snd]. rewrite IH1, IH2, Hmd, Hn1. split; [|lia].
    rewrite dict_set_fresh.
    2: { intros Hin. unfold positions_below_next in Hwf.
         rewrite Forall_forall in Hwf. apply Hwf in Hin. lia. }
    rewrite <- app_assoc. f_equal. simpl. f_equal.
    + change (Z.of_nat 0) with 0%Z. by rewrite Z.add_0_r.
    + apply imap_ext. intros i [ci ei] _. unfold compose. cbn [fst].
      by replace (VectorDb.next_index db + 1 + Z.of_nat i)%Z
        with (VectorDb.next_index db + Z.of_nat (S i))%Z by lia.
Qed.

Lemma chunk_of_entry_of_chunk k c :
  c_embedding c = None -> VectorDb.chunk_of_entry (entry_of_chunk k c) = c.
Proof. destruct c. simpl. by intros ->. Qed.
End LocalStore.

(** add_document keeps the bookkeeping of the local database: after it,
    as before, every position below next_index has an entry, no entry
    lies beyond next_index, every entry records the position it is stored
    under, and the FAISS index in use holds as many vectors as positions
    were handed out, whether or not the index refused chunks on the
    way. *)
Theorem add_document_keeps_the_store_consistent :
  forall FAISS_AVAILABLE (db : VectorDb.EnhancedVectorDatabase)
         document chunk_processor now,
    consistent FAISS_AVAILABLE db ->
    consistent FAISS_AVAILABLE
      (snd (VectorDb.add_document FAISS_AVAILABLE db document chunk_processor now)).
Proof.
  intros FA db document p now Hdb. unfold VectorDb.add_document.
  destruct (create_chunks p document now) as [|c0 chunks]; [done|].
  destruct (embed_batch _ _ _) as [embeddings em].
  by apply fold_add_one_consistent.
Qed.

Lemma add_document_keeps_the_store_consistent_witness :
  consistent true indexed_db
  /\ consistent true
       (snd (VectorDb.add_document true indexed_db (document "alpha") processor 0)).
Proof.
  assert (consistent true indexed_db) as H.
  { split; [done|]. split; [intros k Hk; simpl in Hk; lia|].
    split; [constructor|reflexivity]. }
  split; [exact H|].
  exact (add_document_keeps_the_store_consistent true indexed_db
           (document "alpha") processor 0%Q H).
Defined.

(** A chunk whose vector the FAISS index refuses leaves its entry in
    chunk_metadata although add_chunk_to_index returns False: the entry
    was written first, and neither the index nor next_index moved.  The
    next chunk is written to the same position and replaces it. *)
Theorem refused_chunk_is_stored_then_replaced :
  forall FAISS_AVAILABLE (db : VectorDb.EnhancedVectorDatabase) ix
         chunk embedding chunk' embedding',
    VectorDb.usable_index FAISS_AVAILABLE db = Some ix ->
    List.length embedding <> VectorDb.faiss_d ix ->
    let refused := VectorDb.add_chunk_to_index FAISS_AVAILABLE db chunk embedding in
    let next := VectorDb.add_chunk_to_index FAISS_AVAILABLE (snd refused)
                  chunk' embedding' in
    let n := VectorDb.next_index db in
    fst refused = false
    /\ VectorDb.next_index (snd refused) = n
    /\ VectorDb.usable_index FAISS_AVAILABLE (snd refused) = Some ix
    /\ Py.dict_get n (VectorDb.chunk_metadata (snd refused))
       = Some (entry_of_chunk n chunk)
    /\ Py.dict_get n (VectorDb.chunk_metadata (snd next))
       = Some (entry_of_chunk n chunk').
Proof.
  intros FA db ix chunk embedding chunk' embedding' Hu Hd refused next n.
  destruct (add_chunk_to_index_cases FA db chunk embedding) as (Hmd & _ & Hcase).
  fold refused n in Hmd, Hcase. rewrite Hu in Hcase.
  apply Nat.eqb_neq in Hd. rewrite Hd in Hcase. destruct Hcase as (Hok & Hn & Hu').
  destruct (add_chunk_to_index_cases FA (snd refused) chunk' embedding')
    as (Hmd' & _ & _).
  fold next in Hmd'. rewrite Hn in Hmd'.
  split_and!; try done.
  - by rewrite Hmd, dict_get_set_eq.
  - by rewrite Hmd', dict_get_set_eq.
Qed.

Lemma refused_chunk_is_stored_then_replaced_witness :
  let chunk := chunk (result_with "0123456789abcdef_chunk_0000" 0) in
  let ix := {| VectorDb.faiss_d := 1; VectorDb.faiss_xb := [] |} in
  VectorDb.usable_index true indexed_db = Some ix
  /\ List.length [1%Q; 2%Q] <> VectorDb.faiss_d ix
  /\ fst (VectorDb.add_chunk_to_index true indexed_db chunk [1%Q; 2%Q]) = false
  /\ VectorDb.get_chunk_count
       (snd (VectorDb.add_chunk_to_index true indexed_db chunk [1%Q; 2%Q])) = 1.
Proof.
  intros chunk ix.
  assert (List.length [1%Q; 2%Q] <> VectorDb.faiss_d ix) as Hd by (simpl; lia).
  split; [reflexivity|]. split; [exact Hd|]. split; [|reflexivity].
  exact (proj1 (refused_chunk_is_stored_then_replaced true indexed_db ix chunk
                  [1%Q; 2%Q] chunk [1%Q] eq_refl Hd)).
Defined.

(** When add_document reports every chunk of the document as added, the
    chunks went to the positions next_index, next_index + 1, ... in their
    order, after the entries that were there, and reading the new entries
    back gives the chunks of the document. *)
Theorem accepted_chunks_are_stored_in_order :
  forall FAISS_AVAILABLE (db : VectorDb.EnhancedVectorDatabase)
         document chunk_processor now,
    let chunks := create_chunks chunk_processor document now in
    let added := VectorDb.add_document FAISS_AVAILABLE db document
                   chunk_processor now in
    positions_below_next db ->
    fst added = List.length chunks ->
    VectorDb.chunk_metadata (snd added)
    = VectorDb.chunk_metadata db
      ++ imap (fun i c =>
                 let k := (VectorDb.next_index db + Z.of_nat i)%Z in
                 (k, entry_of_chunk k c)) chunks
    /\ map (fun item => VectorDb.chunk_of_entry (snd item))
           (VectorDb.chunk_metadata (snd added))
       = map (fun item => VectorDb.chunk_of_entry (snd item))
             (VectorDb.chunk_metadata db)
         ++ chunks
    /\ VectorDb.next_index (snd added)
       = (VectorDb.next_index db + Z.of_nat (List.length chunks))%Z.
Proof.
  intros FA db document p now chunks added Hwf Hn.
  assert (VectorDb.chunk_metadata (snd added)
          = VectorDb.chunk_metadata db
            ++ imap (fun i c =>
                       let k := (VectorDb.next_index db + Z.of_nat i)%Z in
                       (k, entry_of_chunk k c)) chunks
          /\ VectorDb.next_index (snd added)
             = (VectorDb.next_index db + Z.of_nat (List.length chunks))%Z)
    as [Hmd Hnext].
  { subst added. revert Hn. unfold VectorDb.add_document. fold chunks.
    destruct chunks as [|c0 chunks'] eqn:Hc.
    { intros _. simpl. rewrite app_nil_r. split; [done|lia]. }
    rewrite <- Hc. clear Hc c0 chunks'.
    pose proof (embed_batch_length (VectorDb.embedding_manager db)
                  (map c_content chunks) default_batch_size) as Hlen.
    destruct (embed_batch _ _ _) as [embeddings em].
    rewrite length_map in Hlen. cbn [fst] in Hlen.
    match goal with |- context [fold_left _ _ (0, ?d)] => set (db0 := d) end.
    intros Hn.
    assert (List.length (combine chunks embeddings) = List.length chunks) as Hz.
    { rewrite length_combine. lia. }
    destruct (fold_add_one_shape FA (combine chunks embeddings) 0 db0)
      as [H1 H2]; [done|by rewrite Hz|].
    rewrite H1, H2, Hz. split; [|done]. f_equal.
    change (VectorDb.next_index db0) with (VectorDb.next_index db).
    apply list_eq. intros i. rewrite !list_lookup_imap.
    change (combine chunks embeddings) with (zip chunks embeddings).
    rewrite lookup_zip_with.
    destruct (chunks !! i) as [c|] eqn:Hi; [|done]. simpl.
    destruct (embeddings !! i) as [e|] eqn:He; [done|].
    apply lookup_ge_None in He. apply lookup_lt_Some in Hi. lia. }
  split; [done|]. split; [|done].
  rewrite Hmd, map_app. f_equal.
  apply list_eq. intros i.
  change (map ?f ?l) with (f <$> l).
  rewrite list_lookup_fmap, list_lookup_imap.
  destruct (chunks !! i) as [c|] eqn:Hi; [|done]. simpl. f_equal.
  apply chunk_of_entry_of_chunk.
  pose proof (create_chunks_no_embedding p document now) as Hall.
  fold chunks in Hall. rewrite Forall_lookup in Hall. by apply (Hall i c).
Qed.

Lemma accepted_chunks_are_stored_in_order_witness :
  let small := {| p_chunk_size := 5; p_chunk_overlap := 0 |} in
  let text := document ("alpha" +:+ Py.blank_line +:+ "gamma") in
  positions_below_next indexed_db
  /\ fst (VectorDb.add_document true indexed_db text small 0) = 2
  /\ map (fun item => VectorDb.chunk_of_entry (snd item))
         (VectorDb.chunk_metadata
            (snd (VectorDb.add_document true indexed_db text small 0)))
     = create_chunks small text 0.
Proof.
  intros small text.
  assert (positions_below_next indexed_db) as Hwf by constructor.
  split; [exact Hwf|]. split; [reflexivity|].
  exact (proj1 (proj2 (accepted_chunks_are_stored_in_order true indexed_db
                         text small 0%Q Hwf eq_refl))).
Defined.

(** No chunk is refused when the vectors have the dimension of the index
    in use, and none can be when FAISS is not in use: add_document then
    reports the number of chunks of the document. *)
Theorem no_chunk_refused_when_dimensions_agree :
  forall FAISS_AVAILABLE (db : VectorDb.EnhancedVectorDatabase)
         document chunk_processor now,
    dimensions_agree FAISS_AVAILABLE db ->
    fst (VectorDb.add_document FAISS_AVAILABLE db document chunk_processor now)
    = List.length (create_chunks chunk_processor document now).
Proof.
  intros FA db document p now Hd. unfold VectorDb.add_document.
  destruct (create_chunks p document now) as [|c0 chunks'] eqn:Hc; [done|].
  rewrite <- Hc. clear Hc c0 chunks'.
  set (chunks := create_chunks p document now).
  pose proof (embed_batch_length (VectorDb.embedding_manager db)
                (map c_content chunks) default_batch_size) as Hlen.
  assert (forall ix, VectorDb.usable_index FA db = Some ix ->
            Forall (fun v => List.length v = VectorDb.faiss_d ix)
              (fst (embed_batch (VectorDb.embedding_manager db)
                      (map c_content chunks) default_batch_size))) as Hdim.
  { intros ix Hu. unfold dimensions_agree in Hd. rewrite Hu in Hd.
    destruct (model (VectorDb.embedding_manager db)) as [m|] eqn:Hm.
    - destruct (embed_batch_with_model _ m (map c_content chunks)
                  default_batch_size Hm) as [-> _].
      apply Forall_forall. intros v Hv.
      change (map ?f ?l) with (f <$> l) in Hv.
      apply list_elem_of_fmap in Hv as (t & -> & _). apply Hd.
    - unfold embed_batch. rewrite Hm.
      destruct (fold_random_one (map c_content chunks) []
                  (VectorDb.embedding_manager db)) as (_ & Hf & _).
      rewrite <- Hd. by apply Hf. }
  destruct (embed_batch _ _ _) as [embeddings em].
  rewrite length_map in Hlen. cbn [fst] in Hlen, Hdim.
  match goal with |- context [fold_left _ _ (0, ?d)] => set (db0 := d) end.
  rewrite fold_add_one_all.
  - rewrite length_combine. lia.
  - change (VectorDb.usable_index FA db0) with (VectorDb.usable_index FA db).
    destruct (VectorDb.usable_index FA db) as [ix|]; [|done].
    specialize (Hdim ix eq_refl). apply Forall_forall. intros [c e] Hin.
    rewrite Forall_forall in Hdim. apply Hdim. simpl.
    apply list_elem_of_In. apply list_elem_of_In in Hin.
    by apply in_combine_r in Hin.
Qed.

Lemma no_chunk_refused_when_dimensions_agree_witness :
  let small := {| p_chunk_size := 5; p_chunk_overlap := 0 |} in
  let text := document ("alpha" +:+ Py.blank_line +:+ "gamma") in
  dimensions_agree true indexed_db
  /\ dimensions_agree false local_db
  /\ fst (VectorDb.add_document true indexed_db text small 0)
     = List.length (create_chunks small text 0).
Proof.
  intros small text.
  assert (dimensions_agree true indexed_db) as H by (intros t; reflexivity).
  split; [exact H|]. split; [exact I|].
  exact (no_chunk_refused_when_dimensions_agree true indexed_db text small 0%Q H).
Defined.

(** ** get_statistics *)

Section StatisticsFacts.

Lemma dict_set_keys_present {K V} `{EqDecision K} (k : K) (v : V) d :
  k ∈ map fst d -> map fst (Py.dict_set k v d) = map fst d.
Proof.
  induction d as [|[k' v'] d IH]; simpl; intros Hk.
  - by apply elem_of_nil in Hk.
  - destruct (decide (k = k')) as [->|Hne]; [done|]. simpl. f_equal.
    apply IH. apply elem_of_cons in Hk as [?|?]; done.
Qed.

Lemma dict_set_NoDup {K V} `{EqDecision K} (k : K) (v : V) d :
  NoDup (map fst d) -> NoDup (map fst (Py.dict_set k v d)).
Proof.
  intros Hd. destruct (decide (k ∈ map fst d)) as [Hin|Hout].
  - by rewrite dict_set_keys_present.
  - rewrite dict_set_fresh by done. rewrite map_app. simpl.
    apply NoDup_app. split; [done|]. split.
    + intros x Hx Hx'. apply list_elem_of_singleton in Hx'. by subst.
    + apply NoDup_singleton.
Qed.

Lemma counted_increment source_type (d : list (string * nat)) :
  counted (Py.dict_set source_type
             (default 0 (Py.dict_get source_type d) + 1) d)
  = counted d + 1.
Proof.
  induction d as [|[k v] d IH]; simpl; [done|].
  destruct (decide (source_type = k)) as [->|Hne]; simpl; [lia|].
  rewrite IH. lia.
Qed.

Lemma fold_count_source_type registry : forall acc,
  let distribution := fold_left VectorDb.count_source_type registry acc in
  counted distribution = counted acc + List.length registry
  /\ (NoDup (map fst acc) -> NoDup (map fst distribution))
  /\ forall source_type,
       default 0 (Py.dict_get source_type distribution)
       = default 0 (Py.dict_get source_type acc)
         + List.length
             (filter (fun item => VectorDb.r_source_type (snd item) = source_type)
                     registry).
Proof.
  induction registry as [|item registry IH]; intros acc; cbv zeta.
  - simpl. split; [lia|]. split; [done|]. intros. lia.
  - cbn [fold_left List.length].
    destruct (IH (VectorDb.count_source_type acc item)) as (Hc & Hnd & Hg).
    assert (counted (VectorDb.count_source_type acc item) = counted acc + 1)
      as Hc1 by apply counted_increment.
    split; [|split].
    + rewrite Hc, Hc1. lia.
    + intros Ha. by apply Hnd, dict_set_NoDup.
    + intros source_type. rewrite Hg, filter_cons.
      unfold VectorDb.count_source_type at 1.
      destruct (decide (VectorDb.r_source_type (snd item) = source_type))
        as [->|Hne].
      * rewrite dict_get_set_eq. simpl. lia.
      * by rewrite dict_get_set_ne.
Qed.

Lemma fold_count_coverage entries : forall counters,
  fold_left VectorDb.count_coverage entries counters
  = (fst counters
     + List.length
         (filter (fun item =>
                    security_frameworks
                      (inherited (VectorDb.e_metadata (snd item))) <> [])
                 entries),
     snd counters
     + List.length
         (filter (fun item =>
                    mitre_techniques
                      (inherited (VectorDb.e_metadata (snd item))) <> [])
                 entries)).
Proof.
  induction entries as [|item entries IH]; intros [f t].
  - rewrite !filter_nil. simpl. f_equal; lia.
  - cbn [fold_left]. rewrite IH, !filter_cons. unfold VectorDb.count_coverage.
    destruct (security_frameworks _) as [|fw fws];
      destruct (mitre_techniques _) as [|te tes];
      repeat case_decide; try congruence;
      try (exfalso; match goal with H : ~ _ |- _ => apply H; discriminate end);
      cbn [fst snd List.length]; f_equal; lia.
Qed.
End StatisticsFacts.

(** The statistics add up.  The counts of source_type_distribution sum
    to total_documents, no source type is listed twice, and each is listed
    with the number of registered documents of that type; the two coverage
    counters count the stored chunks whose metadata lists a framework, or
    a technique, and so do not exceed total_chunks; without FAISS the
    index size is reported as 0. *)
Theorem get_statistics_adds_up :
  forall FAISS_AVAILABLE (db : VectorDb.EnhancedVectorDatabase),
    let stats := VectorDb.get_statistics FAISS_AVAILABLE db in
    counted (VectorDb.source_type_distribution stats)
    = VectorDb.total_documents stats
    /\ NoDup (map fst (VectorDb.source_type_distribution stats))
    /\ (forall source_type,
          default 0 (Py.dict_get source_type
                       (VectorDb.source_type_distribution stats))
          = List.length
              (filter (fun item =>
                         VectorDb.r_source_type (snd item) = source_type)
                      (VectorDb.document_registry db)))
    /\ VectorDb.chunks_with_frameworks stats
       = List.length
           (filter (fun item =>
                      security_frameworks
                        (inherited (VectorDb.e_metadata (snd item))) <> [])
                   (VectorDb.chunk_metadata db))
    /\ VectorDb.chunks_with_techniques stats
       = List.length
           (filter (fun item =>
                      mitre_techniques
                        (inherited (VectorDb.e_metadata (snd item))) <> [])
                   (VectorDb.chunk_metadata db))
    /\ VectorDb.chunks_with_frameworks stats <= VectorDb.total_chunks stats
    /\ VectorDb.chunks_with_techniques stats <= VectorDb.total_chunks stats
    /\ VectorDb.index_size (VectorDb.get_statistics false db) = 0%Z.
Proof.
  intros FA db stats. subst stats. unfold VectorDb.get_statistics.
  cbn [VectorDb.source_type_distribution VectorDb.total_documents
       VectorDb.chunks_with_frameworks VectorDb.chunks_with_techniques
       VectorDb.total_chunks VectorDb.index_size].
  destruct (fold_count_source_type (VectorDb.document_registry db) [])
    as (Hc & Hnd & Hg).
  rewrite fold_count_coverage. cbn [fst snd].
  unfold VectorDb.get_document_count, VectorDb.get_chunk_count.
  split_and!; try done.
  - apply Hnd. constructor.
  - apply length_filter.
  - apply length_filter.
Qed.
(** ** Context assembly *)

Section ContextFacts.

Lemma chunk_tokens_nonneg r : (0 <= Integration.chunk_tokens r)%Z.
Proof.
  unfold Integration.chunk_tokens. apply Z.div_pos; [apply len_nonneg|lia].
Qed.

Lemma tokens_nonneg l : (0 <= tokens l)%Z.
Proof.
  induction l as [|r l IH]; simpl; [lia|].
  pose proof (chunk_tokens_nonneg r). lia.
Qed.

(** What the loop of optimize_context returns: the results taken, in
    order, up to the first that would pass the limit. *)
Lemma gather_spec limit sorted_results : forall parts current sources,
  exists used rest,
    sorted_results = used ++ rest
    /\ Integration.gather limit sorted_results parts current sources
       = (parts ++ map Integration.context_part used,
          (current + tokens used)%Z,
          list_to_set (map (fun r => c_source (chunk r)) used) ∪ sources)
    /\ (used = [] \/ (current + tokens used <= limit)%Z)
    /\ match rest with
       | [] => True
       | r :: _ => (current + tokens used + Integration.chunk_tokens r > limit)%Z
       end.
Proof.
  induction sorted_results as [|r l IH]; intros parts current sources.
  - exists [], []. simpl. rewrite app_nil_r, Z.add_0_r.
    split; [done|]. split; [f_equal; set_solver|]. split; [by left|done].
  - simpl. destruct (current + Integration.chunk_tokens r >? limit)%Z eqn:E.
    + exists [], (r :: l). simpl. rewrite app_nil_r, Z.add_0_r.
      split; [done|]. split; [f_equal; set_solver|]. split; [by left|].
      apply Z.gtb_lt in E. lia.
    + destruct (IH (parts ++ [Integration.context_part r])
                   (current + Integration.chunk_tokens r)%Z
                   ({[c_source (chunk r)]} ∪ sources))
        as (used & rest & -> & Hg & Hu & Hr).
      exists (r :: used), rest. split; [done|]. split; [|split].
      * rewrite Hg. simpl. rewrite <- app_assoc. simpl.
        f_equal; [f_equal; lia|set_solver].
      * right. simpl.
        assert (current + Integration.chunk_tokens r <= limit)%Z as Hle.
        { destruct (Z.gtb_spec (current + Integration.chunk_tokens r) limit);
            [discriminate|lia]. }
        destruct Hu as [->|Hu]; simpl; lia.
      * destruct rest as [|r' rest]; [done|]. simpl. lia.
Qed.
End ContextFacts.

(** optimize_context takes the results in descending order of their
    combined score, up to the first whose estimated tokens would pass the
    limit of the model role, and stops there: the context is built from
    that prefix, whose token estimate stays within the limit, and the
    summary line reports its number of chunks, of different sources and of
    tokens. *)
Theorem optimize_context_takes_a_prefix :
  forall (retrieval_results : list RetrievalResult) model_role query,
    let limit := Integration.context_limit_of model_role in
    exists used rest,
      Py.sort_desc combined_score retrieval_results = used ++ rest
      /\ (0 <= tokens used <= limit)%Z
      /\ match rest with
         | [] => True
         | r :: _ => (tokens used + Integration.chunk_tokens r > limit)%Z
         end
      /\ Integration.optimize_context retrieval_results model_role query
         = ("CONTEXT SUMMARY: " +:+ Py.str_of_nat (List.length used)
            +:+ " chunks from "
            +:+ Py.str_of_nat
                  (size (list_to_set (map (fun r => c_source (chunk r)) used)
                         : gset string))
            +:+ " sources, ~" +:+ Py.str_of_nat (Z.to_nat (tokens used))
            +:+ " tokens")
           +:+ Py.newline
           +:+ (Py.blank_line +:+ Py.str_repeat "=" 50)
           +:+ Py.join Py.blank_line (map Integration.context_part used).
Proof.
  intros results role query limit.
  destruct (gather_spec limit (Py.sort_desc combined_score results) [] 0%Z ∅)
    as (used & rest & Hs & Hg & Hu & Hr).
  exists used, rest. rewrite Z.add_0_l in Hg, Hu, Hr. simpl in Hg.
  split; [done|]. split; [|split; [done|]].
  - split; [apply tokens_nonneg|].
    destruct Hu as [->|Hu]; [|done]. simpl. subst limit. by destruct role.
  - unfold Integration.optimize_context. fold limit. rewrite Hg.
    rewrite length_map. by rewrite (right_id_L ∅ (∪)).
Qed.

(** The standalone system on an unavailable backend: search returns
    the empty list, get_context_for_query answers with the fixed sentence
    "No relevant context found.", and add_document_from_text returns
    False. *)
Theorem standalone_rag_on_unavailable_backend :
  forall es_search sha256_hexdigest extract_metadata
         (self : Integration.StandaloneElasticsearchRAG)
         query top_k max_length content title source source_type now
         chunked_at indexed_at,
    unavailable (Integration.vector_db self) ->
    fst (Integration.search es_search sha256_hexdigest self query top_k now) = []
    /\ fst (Integration.get_context_for_query es_search sha256_hexdigest self
              query max_length now)
       = "No relevant context found."
    /\ fst (Integration.add_document_from_text sha256_hexdigest extract_metadata
              self content title source source_type now chunked_at indexed_at)
       = false.
Proof.
  intros es_search sha extract self query top_k max_length content title
    source source_type now chunked_at indexed_at Hu.
  assert (forall k,
            fst (Integration.search es_search sha self query k now) = [])
    as Hsearch.
  { intros k. unfold Integration.search, EsDb.search_similar_chunks.
    unfold unavailable in Hu.
    destruct (EsDb.es (Integration.vector_db self)) as [client|]; [|done].
    destruct (embed_text _ _ _ _) as [qe em].
    unfold EsDb.search. by rewrite Hu. }
  split; [apply Hsearch|]. split.
  - unfold Integration.get_context_for_query.
    specialize (Hsearch 10%Z).
    destruct (Integration.search es_search sha self query 10 now)
      as [results self']. simpl in Hsearch. by subst results.
  - unfold Integration.add_document_from_text, EsDb.add_document.
    unfold unavailable in Hu.
    destruct (EsDb.es (Integration.vector_db self)) as [client|]; [|done].
    destruct (create_chunks _ _ _); [done|].
    destruct (embed_batch _ _ _) as [embeddings em].
    unfold EsDb.bulk. by rewrite Hu.
Qed.

Lemma standalone_rag_on_unavailable_backend_witness :
  let rag := {| Integration.document_processor := processor;
                Integration.vector_db := es_db_unavailable |} in
  unavailable (Integration.vector_db rag)
  /\ fst (Integration.get_context_for_query no_es_hits digest rag
            "alpha" 2000 0)
     = "No relevant context found.".
Proof.
  intros rag.
  assert (unavailable (Integration.vector_db rag)) as H by exact I.
  split; [exact H|].
  exact (proj1 (proj2 (standalone_rag_on_unavailable_backend no_es_hits digest
                         (fun _ _ => no_metadata) rag "alpha" 5%Z 2000%Z
                         "alpha" "notes" "notes.txt" "manual" 0%Q 1%Q 2%Q H))).
Defined.

(** On a reachable server add_document_from_text returns True exactly
    when the text has at least one chunk, and then every chunk is in the
    index under the document id derived from the source and the title. *)
Theorem add_document_from_text_succeeds_iff_chunks :
  forall sha256_hexdigest extract_metadata
         (self : Integration.StandaloneElasticsearchRAG) client
         content title source source_type now chunked_at indexed_at,
    EsDb.es (Integration.vector_db self) = Some client ->
    EsDb.es_reachable client = true ->
    let added := Integration.add_document_from_text sha256_hexdigest
                   extract_metadata self content title source source_type now
                   chunked_at indexed_at in
    let doc_id := Py.str_take 16 (sha256_hexdigest (source +:+ "_" +:+ title)) in
    let texts := smart_chunk_text
                   (p_chunk_size (Integration.document_processor self))
                   content None in
    (fst added = true <-> texts <> [])
    /\ Integration.document_processor (snd added)
       = Integration.document_processor self
    /\ exists client',
         EsDb.es (Integration.vector_db (snd added)) = Some client'
         /\ forall i text,
              texts !! i = Some text ->
              exists s,
                EsDb.es_docs client' !! (doc_id +:+ "_chunk_" +:+ Py.format_04d i)
                = Some s
                /\ EsDb.s_content s = text
                /\ EsDb.s_source s = source
                /\ EsDb.s_document_id s = doc_id
                /\ EsDb.s_document_title s = title.
Proof.
  intros sha extract self client content title source source_type now
    chunked_at indexed_at He Hr added doc_id texts.
  subst added. unfold Integration.add_document_from_text. fold doc_id.
  match goal with |- context [EsDb.add_document _ ?d _ _ _] =>
    set (document := d) end.
  pose proof (es_add_document_dom (Integration.vector_db self) client document
                (Integration.document_processor self) chunked_at indexed_at
                He Hr) as (Hn & _).
  pose proof (es_add_document_docs (Integration.vector_db self) client document
                (Integration.document_processor self) chunked_at indexed_at
                He Hr)
    as (client' & He' & _ & Hin & _).
  assert (List.length (create_chunks (Integration.document_processor self)
                         document chunked_at) = List.length texts) as Hlen.
  { unfold create_chunks. by rewrite length_imap. }
  destruct (EsDb.add_document _ _ _ _ _) as [chunks_added db] eqn:Hadd.
  cbn [fst snd] in *. rewrite length_map, Hlen in Hn.
  split; [|split; [done|]].
  - rewrite Hn. split.
    + intros H%Nat.ltb_lt Ht. rewrite Ht in H. simpl in H. lia.
    + intros Ht. apply Nat.ltb_lt. destruct texts; [done|simpl; lia].
  - exists client'. split; [done|]. intros i text Hi.
    assert (exists c, create_chunks (Integration.document_processor self)
                        document chunked_at !! i = Some c) as [c Hc].
    { apply lookup_lt_is_Some. rewrite Hlen. by eapply lookup_lt_Some. }
    pose proof (create_chunks_lookup _ _ _ _ _ Hc)
      as (t & Ht & _ & Hid & Hcontent & Hsrc & _).
    change (d_content document) with content in Ht. fold texts in Ht.
    assert (t = text) as -> by congruence.
    apply list_elem_of_lookup_2 in Hc.
    destruct (Hin c Hc) as (s & Hs & _ & Hsc & Hss & Hsd & Hst & _).
    exists s. rewrite Hid in Hs. split; [done|].
    split; [congruence|]. split; [by rewrite Hss, Hsrc|]. by split.
Qed.

Lemma add_document_from_text_succeeds_iff_chunks_witness :
  let rag := {| Integration.document_processor := processor;
                Integration.vector_db := es_db |} in
  EsDb.es (Integration.vector_db rag)
  = Some {| EsDb.es_docs := ∅; EsDb.es_reachable := true |}
  /\ smart_chunk_text (p_chunk_size processor) "alpha" None <> []
  /\ fst (Integration.add_document_from_text digest (fun _ _ => no_metadata)
            rag "alpha" "notes" "notes.txt" "manual" 0 1 2) = true.
Proof.
  intros rag.
  assert (smart_chunk_text (p_chunk_size processor) "alpha" None <> []) as Ht
    by discriminate.
  split; [reflexivity|]. split; [exact Ht|].
  exact (proj2 (proj1 (add_document_from_text_succeeds_iff_chunks digest
                         (fun _ _ => no_metadata) rag
                         {| EsDb.es_docs := ∅; EsDb.es_reachable := true |}
                         "alpha" "notes" "notes.txt" "manual" 0%Q 1%Q 2%Q
                         eq_refl eq_refl)) Ht).
Defined.


(** ** Searching the Elasticsearch index *)

(** Every result of a search of the Elasticsearch variant is a hit of
    the server read back.  The server was asked for 2 * top_k hits with
    the minimal score threshold + 1, and with the text of the query when
    the search is hybrid; the similarity of the result is the score of the
    hit less 1, or 0 when that is negative, and its chunk carries the
    fields of the hit, the creation time converted from milliseconds. *)
Theorem es_results_are_hits_read_back :
  forall (es_search : EsDb.Elasticsearch -> EsDb.SearchBody -> option (list EsDb.Hit))
         sha256_hexdigest (esdb : EsDb.ElasticsearchVectorDatabase)
         query top_k (threshold : option Q) flt (hybrid : bool) now,
    let floor := default (EsDb.similarity_threshold esdb) threshold in
    Forall (fun r =>
              exists client body hits hit,
                EsDb.es esdb = Some client
                /\ es_search client body = Some hits
                /\ hit ∈ hits
                /\ EsDb.q_size body = (top_k * 2)%Z
                /\ EsDb.q_min_score body = (floor + 1.0)%Q
                /\ EsDb.q_text body = (if hybrid then Some query else None)
                /\ similarity_score r = Py.qmax 0.0 (EsDb._score hit - 1.0)
                /\ (floor <= similarity_score r)%Q
                /\ c_id (chunk r) = EsDb.s_chunk_id (EsDb._source hit)
                /\ c_content (chunk r) = EsDb.s_content (EsDb._source hit)
                /\ c_source (chunk r) = EsDb.s_source (EsDb._source hit)
                /\ c_document_id (chunk r) = EsDb.s_document_id (EsDb._source hit)
                /\ c_chunk_index (chunk r) = EsDb.s_chunk_index (EsDb._source hit)
                /\ c_metadata (chunk r) = EsDb.s_metadata (EsDb._source hit)
                /\ c_created_at (chunk r)
                   = (EsDb.s_created_at (EsDb._source hit) / 1000)%Q)
           (fst (EsDb.search_similar_chunks es_search sha256_hexdigest esdb
                   query top_k threshold flt hybrid now)).
Proof.
  intros es_search sha esdb query top_k threshold flt hybrid now floor.
  unfold EsDb.search_similar_chunks.
  destruct (EsDb.es esdb) as [client|] eqn:He; [|constructor].
  destruct (embed_text _ _ _ _) as [qe em]. fold floor.
  match goal with |- context [EsDb.search _ client ?b] => set (body := b) end.
  unfold EsDb.search.
  destruct (EsDb.es_reachable client); [|constructor].
  destruct (es_search client body) as [hits|] eqn:Hs; [|constructor].
  cbn [fst]. apply sort_and_rank_Forall; [done|].
  apply Forall_omap_elem. intros hit r Hin Hr.
  exists client, body, hits, hit.
  pose proof (hit_candidate_props _ _ _ _ Hr) as [Hfloor _].
  unfold EsDb.hit_candidate in Hr.
  destruct (negb _); [discriminate|]. injection Hr as <-.
  by split_and!.
Qed.

(** A chunk on its way through the Elasticsearch index: when the source
    that add_document stored for a chunk comes back as a hit, the result
    built from it carries the id, the content, the source, the document
    id, the chunk index and the metadata of the chunk, and no embedding.
    The creation time of the chunk is not kept: the stored stamp is the
    clock read when the body was built, times 1000, and the result has
    that stamp divided by 1000. *)
Theorem es_chunk_round_trip :
  forall (db : EsDb.ElasticsearchVectorDatabase) client
         document chunk_processor now indexed_at c,
    EsDb.es db = Some client ->
    EsDb.es_reachable client = true ->
    c ∈ create_chunks chunk_processor document now ->
    exists client' s,
      EsDb.es (snd (EsDb.add_document db document chunk_processor now
                      indexed_at))
      = Some client'
      /\ EsDb.es_docs client' !! c_id c = Some s
      /\ c_created_at c = now
      /\ EsDb.s_created_at s = (indexed_at * 1000)%Q
      /\ forall score threshold now' r,
           EsDb.hit_candidate threshold now'
             {| EsDb._score := score; EsDb._source := s |} = Some r ->
           c_id (chunk r) = c_id c
           /\ c_content (chunk r) = c_content c
           /\ c_source (chunk r) = c_source c
           /\ c_document_id (chunk r) = c_document_id c
           /\ c_chunk_index (chunk r) = c_chunk_index c
           /\ c_metadata (chunk r) = c_metadata c
           /\ c_embedding (chunk r) = c_embedding c
           /\ c_created_at (chunk r) = (indexed_at * 1000 / 1000)%Q.
Proof.
  intros db client document p now indexed_at c He Hr Hc.
  destruct (es_add_document_docs db client document p now indexed_at He Hr)
    as (client' & He' & _ & Hin & _).
  destruct (Hin c Hc) as (s & Hs & Hid & Hcontent & Hsrc & Hdoc & _ & Hidx & Hmd & Ht).
  pose proof (create_chunks_no_embedding p document now) as Hemb.
  rewrite Forall_forall in Hemb. specialize (Hemb c Hc).
  pose proof Hc as Hc'.
  apply list_elem_of_lookup in Hc' as [i Hi].
  apply create_chunks_lookup in Hi
    as (_ & _ & _ & _ & _ & _ & Hcd & _ & _ & _ & _ & Hnow).
  exists client', s. split; [done|]. split; [done|].
  split; [done|]. split; [done|].
  intros score threshold now' r Hr'.
  unfold EsDb.hit_candidate in Hr'.
  destruct (negb _); [discriminate|]. injection Hr' as <-. simpl.
  split_and!; try done; try congruence.
Qed.

Lemma es_chunk_round_trip_witness :
  let c := {| c_id := "0123456789abcdef_chunk_0000"; c_content := "alpha";
              c_source := "notes.txt"; c_document_id := "0123456789abcdef";
              c_chunk_index := 0;
              c_metadata := {| document_title := "notes";
                               document_source_type := "manual";
                               chunk_size := 5; chunk_words := 1;
                               position_in_document := ratio 0 1;
                               inherited := no_metadata |};
              c_embedding := None; c_created_at := 0 |} in
  c ∈ create_chunks processor (document "alpha") 0
  /\ exists client' s,
       EsDb.es (snd (EsDb.add_document es_db (document "alpha") processor 0 1))
       = Some client'
       /\ EsDb.es_docs client' !! c_id c = Some s
       /\ c_created_at c = 0%Q
       /\ EsDb.s_created_at s = (1 * 1000)%Q.
Proof.
  intros c.
  assert (c ∈ create_chunks processor (document "alpha") 0) as Hc
    by (apply elem_of_cons; by left).
  split; [exact Hc|].
  destruct (es_chunk_round_trip es_db
              {| EsDb.es_docs := ∅; EsDb.es_reachable := true |}
              (document "alpha") processor 0%Q 1%Q c eq_refl eq_refl Hc)
    as (client' & s & He & Hs & Hn & Ht & _).
  by exists client', s.
Defined.
